(** * TimePilot scheduling engine: a shallow embedding of [utils/scheduling.ts]

    The development follows the TypeScript source function by function.

    Conventions of the embedding.
    - JavaScript numbers that hold hours are exact rationals ([Q]); the
      settings that hold whole minutes or whole hours are integers ([Z]).
    - An instant ([Date]) is its number of milliseconds since the epoch; an
      invalid [Date] (time value NaN) is [None].
    - A calendar date string ['YYYY-MM-DD'] is the number of days since the
      epoch: string comparison of two such strings is comparison of the two
      day numbers.  The host time zone is UTC, so that local and UTC calendar
      fields coincide (the source mixes [toISOString] and [getDay]).
    - A time-of-day string is either the empty string or a zero padded
      ['HH:MM'] ([TimeStr]).
    - A JavaScript object used as a dictionary is an association list in
      insertion order; [Js.entries] gives the order in which its keys are
      enumerated. *)

From Stdlib Require Import ZArith QArith Qround Qminmax Bool List String Ascii.
From Stdlib Require Import DecimalString Lia Lqa Permutation Sorted.
Import ListNotations.

Local Open Scope Z_scope.

(** ** JavaScript primitives *)

Module Js.

(** [x || d] on numbers: [0] is falsy. *)
Definition orElse (x d : Z) : Z := if x =? 0 then d else x.

Definition Qleb (x y : Q) : bool := Qle_bool x y.
Definition Qltb (x y : Q) : bool := negb (Qle_bool y x).

(** [Math.round] rounds halves up. *)
Definition Math_round (x : Q) : Z := Qfloor (x + (1 # 2)).
Definition Math_floor (x : Q) : Z := Qfloor x.
Definition Math_ceil (x : Q) : Z := Qceiling x.

(** [Math.round(x * 60) / 60] *)
Definition roundToMinute (x : Q) : Q := inject_Z (Math_round (x * 60)) / 60.

(** [Array.prototype.sort] is stable; [le a b] stands for
    [compare(a, b) <= 0].  For a comparator that is a total preorder every
    stable sort returns the same array, which this insertion sort computes. *)
Section Sort.
Context {A : Type} (le : A -> A -> bool).

Fixpoint insert (x : A) (l : list A) : list A :=
  match l with
  | [] => [x]
  | y :: l' => if le x y then x :: l else y :: insert x l'
  end.

Fixpoint sort (l : list A) : list A :=
  match l with
  | [] => []
  | x :: l' => insert x (sort l')
  end.
End Sort.

(** A property key is an array index when it is the canonical decimal
    string of an integer below 2^32 - 1. *)
Definition arrayIndex (k : string) : option N :=
  match NilEmpty.uint_of_string k with
  | Some d =>
      let n := N.of_uint d in
      if (String.eqb (NilEmpty.string_of_uint (N.to_uint n)) k
          && (n <? 4294967295)%N)%bool
      then Some n else None
  | None => None
  end.

Definition isIndexKey {V : Type} (e : string * V) : bool :=
  match arrayIndex (fst e) with Some _ => true | None => false end.

Definition indexOf {V : Type} (e : string * V) : N :=
  match arrayIndex (fst e) with Some n => n | None => 0%N end.

(** [Object.entries] / [Object.keys]: array-index keys first, in ascending
    numeric order, then the other string keys in insertion order. *)
Definition entries {V : Type} (o : list (string * V)) : list (string * V) :=
  sort (fun a b => (indexOf a <=? indexOf b)%N) (filter isIndexKey o)
    ++ filter (fun e => negb (isIndexKey e)) o.

(** [o[k]] and [o[k] = v] on an object used as a dictionary. *)
Section Dict.
Context {K V : Type} (eqb : K -> K -> bool).

Fixpoint get (o : list (K * V)) (k : K) : option V :=
  match o with
  | [] => None
  | (k', v) :: o' => if eqb k k' then Some v else get o' k
  end.

Fixpoint set (o : list (K * V)) (k : K) (v : V) : list (K * V) :=
  match o with
  | [] => [(k, v)]
  | (k', v') :: o' =>
      if eqb k k' then (k', v) :: o' else (k', v') :: set o' k v
  end.
End Dict.

End Js.

(** ** Dates and times of day *)

Definition DateStr := Z.
Definition Instant := Z.

Definition DAY_MS : Z := 86400000.
Definition MINUTE_MS : Z := 60000.

(** [d.toISOString().split('T')[0]] *)
Definition toISODate (t : Instant) : DateStr := t / DAY_MS.

(** [new Date(dateString)]: midnight UTC of that day. *)
Definition dateOfString (d : DateStr) : Instant := d * DAY_MS.

(** [d.getDay()]: 0 is Sunday; the epoch was a Thursday. *)
Definition getDay (t : Instant) : Z := (t / DAY_MS + 4) mod 7.

(** [d.setDate(d.getDate() + k)] *)
Definition addDays (t : Instant) (k : Z) : Instant := t + k * DAY_MS.

Inductive TimeStr : Type :=
| NoTime : TimeStr                 (* '' *)
| HM : Z -> Z -> TimeStr.          (* `${hh}:${mm}`, two digits each *)

(** Truthiness of a string. *)
Definition hasTime (t : TimeStr) : bool :=
  match t with NoTime => false | HM _ _ => true end.

(** [const [h, m] = t.split(":").map(Number); h * 60 + (m || 0)] *)
Definition minutesOf (t : TimeStr) : Z :=
  match t with NoTime => 0 | HM h m => h * 60 + m end.

(** [`${Math.floor(c / 60)...padStart(2,'0')}:${(c % 60)...padStart(2,'0')}`] *)
Definition formatHM (c : Z) : TimeStr := HM (c / 60) (Z.rem c 60).

(** [a.localeCompare(b) <= 0] on time-of-day strings. *)
Definition timeLeb (a b : TimeStr) : bool :=
  match a, b with
  | NoTime, _ => true
  | HM _ _, NoTime => false
  | HM h1 m1, HM h2 m2 => (h1 <? h2) || ((h1 =? h2) && (m1 <=? m2))
  end.

(** [new Date(`${date}T${time}:00`)]: a local time, invalid unless the time
    of day is a real one. *)
Definition dateAt (d : DateStr) (t : TimeStr) : option Instant :=
  match t with
  | NoTime => None
  | HM h m =>
      if ((0 <=? h) && (h <=? 23) && (0 <=? m) && (m <=? 59)
          || (h =? 24) && (m =? 0))%bool
      then Some (d * DAY_MS + (h * 60 + m) * MINUTE_MS)
      else None
  end.

(** ** Data model ([types.ts]) *)

Inductive TaskStatus : Type := pending | task_in_progress | task_completed.

Record Task : Type := mkTask {
  id : string;
  title : string;
  deadline : Instant;            (* new Date(task.deadline).getTime() *)
  importance : bool;
  estimatedHours : Q;
  task_status : TaskStatus
}.

Inductive SessionStatus : Type :=
| scheduled | in_progress | completed | missed | overdue | rescheduled
| skipped.

Definition SessionStatus_eqb (a b : SessionStatus) : bool :=
  match a, b with
  | scheduled, scheduled | in_progress, in_progress | completed, completed
  | missed, missed | overdue, overdue | rescheduled, rescheduled
  | skipped, skipped => true
  | _, _ => false
  end.

Record StudySession : Type := mkSession {
  taskId : string;
  scheduledTime : DateStr * TimeStr;     (* `${date}` or `${date} ${start}` *)
  startTime : TimeStr;
  endTime : TimeStr;
  allocatedHours : Q;
  sessionNumber : option Z;
  isFlexible : option bool;
  isManualOverride : option bool;
  done : option bool;
  status : option SessionStatus;
  originalTime : option TimeStr;
  originalDate : option DateStr
}.

Record StudyPlan : Type := mkPlan {
  plan_id : DateStr;                     (* `plan-${date}` *)
  date : DateStr;
  plannedTasks : list StudySession;
  totalStudyHours : Q;
  availableHours : Q;
  isOverloaded : option bool
}.

Inductive StudyPlanMode : Type := eisenhower | even.

Record UserSettings : Type := mkSettings {
  dailyAvailableHours : Q;
  workDays : list Z;
  bufferDays : Z;
  minSessionLength : Z;                  (* minutes *)
  bufferTimeBetweenSessions : Z;         (* minutes *)
  studyWindowStartHour : Z;
  studyWindowEndHour : Z;
  studyPlanMode : option StudyPlanMode
}.

Record ModifiedOccurrence : Type := mkModified {
  mod_startTime : option TimeStr;
  mod_endTime : option TimeStr
}.

Record FixedCommitment : Type := mkCommitment {
  commitment_id : string;
  commitment_title : string;
  c_startTime : TimeStr;
  c_endTime : TimeStr;
  recurring : bool;
  daysOfWeek : list Z;
  specificDates : option (list DateStr);
  deletedOccurrences : option (list DateStr);
  modifiedOccurrences : option (list (DateStr * ModifiedOccurrence))
}.

(** Field-wise updates of a session and of a plan (object spread). *)
Definition withTimes (s : StudySession) (st en : TimeStr) : StudySession :=
  mkSession (taskId s) (scheduledTime s) st en (allocatedHours s)
    (sessionNumber s) (isFlexible s) (isManualOverride s) (done s) (status s)
    (originalTime s) (originalDate s).

Definition withSessions (p : StudyPlan) (l : list StudySession) (total : Q)
  : StudyPlan :=
  mkPlan (plan_id p) (date p) l total (availableHours p) (isOverloaded p).

(** Truthiness of the optional fields. *)
Definition isTrue (b : option bool) : bool :=
  match b with Some true => true | _ => false end.

Definition statusIs (s : StudySession) (st : SessionStatus) : bool :=
  match status s with Some st' => SessionStatus_eqb st' st | None => false end.

Definition truthyTime (t : option TimeStr) : bool :=
  match t with Some t' => hasTime t' | None => false end.

Definition truthyDate (d : option DateStr) : bool :=
  match d with Some _ => true | None => false end.

Definition includes (l : list Z) (x : Z) : bool := existsb (Z.eqb x) l.

(** [l?.includes(x)] is falsy when [l] is undefined. *)
Definition optIncludes (l : option (list Z)) (x : Z) : bool :=
  match l with Some l' => includes l' x | None => false end.

(** ** Utility functions *)

(** [getLocalDateString], at the instant [now]. *)
Definition getLocalDateString (now : Instant) : DateStr := toISODate now.

Definition sumHours (l : list StudySession) : Q :=
  fold_left (fun sum session => sum + allocatedHours session)%Q l 0%Q.

Definition calculateTotalStudyHours (plannedTasks : list StudySession) : Q :=
  sumHours
    (filter (fun session => isTrue (done session) || statusIs session skipped)
       plannedTasks).

Definition filterSkippedSessions (sessions : list StudySession)
  : list StudySession :=
  filter (fun session => negb (statusIs session skipped)) sessions.

(** Comparison of two [Date]s; every comparison with an invalid one is false. *)
Definition instLt (a b : option Instant) : bool :=
  match a, b with Some x, Some y => x <? y | _, _ => false end.
Definition instLe (a b : option Instant) : bool :=
  match a, b with Some x, Some y => x <=? y | _, _ => false end.

Definition checkSessionStatus (now : Instant) (session : StudySession)
    (planDate : DateStr) : SessionStatus :=
  let today := getLocalDateString now in
  let sessionStartTime := dateAt planDate (startTime session) in
  let sessionEndTime := dateAt planDate (endTime session) in
  if isTrue (done session) || statusIs session completed then completed
  else if statusIs session skipped then completed
  else if truthyTime (originalTime session) && truthyDate (originalDate session)
  then rescheduled
  else if planDate <? today then
    if truthyTime (originalTime session) && truthyDate (originalDate session)
    then scheduled
    else missed
  else if planDate =? today then
    if instLt (Some now) sessionStartTime then scheduled
    else if instLe sessionStartTime (Some now)
            && instLe (Some now) sessionEndTime
    then in_progress
    else overdue
  else scheduled.

Definition isMissedOrRedistributedSession (now : Instant)
    (session : StudySession) (planDate : DateStr) : bool :=
  let st := checkSessionStatus now session planDate in
  SessionStatus_eqb st missed
  || isTrue (isManualOverride session)
  || (truthyTime (originalTime session) && truthyDate (originalDate session)).

(** ** Slot finder *)

Record Interval : Type := mkInterval { i_start : Z; i_end : Z }.

Record Slot : Type := mkSlot { slot_start : TimeStr; slot_end : TimeStr }.

Definition sessionInterval (s : StudySession) : Interval :=
  mkInterval (minutesOf (startTime s)) (minutesOf (endTime s)).

(** [commitment.modifiedOccurrences?.[targetDate]] *)
Definition modifiedOn (c : FixedCommitment) (d : DateStr)
  : option ModifiedOccurrence :=
  match modifiedOccurrences c with
  | Some o => Js.get Z.eqb o d
  | None => None
  end.

(** The busy interval pushed for one active commitment. *)
Definition commitmentInterval (targetDate : option DateStr)
    (c : FixedCommitment) : Interval :=
  let s := minutesOf (c_startTime c) in
  let e := minutesOf (c_endTime c) in
  match targetDate with
  | Some d =>
      match modifiedOn c d with
      | Some modified =>
          match mod_startTime modified with
          | Some (HM h m) => mkInterval (minutesOf (HM h m)) e
          | _ =>
              match mod_endTime modified with
              | Some (HM h m) => mkInterval s (minutesOf (HM h m))
              | _ => mkInterval s e
              end
          end
      | None => mkInterval s e
      end
  | None => mkInterval s e
  end.

Definition busyIntervals (existingSessions : list StudySession)
    (commitments : list FixedCommitment) (targetDate : option DateStr)
  : list Interval :=
  let activeCommitments :=
    filter (fun commitment =>
              match targetDate with
              | None => true
              | Some d => negb (optIncludes (deletedOccurrences commitment) d)
              end) commitments in
  Js.sort (fun a b => i_start a <=? i_start b)
    (map sessionInterval existingSessions
       ++ map (commitmentInterval targetDate) activeCommitments).

(** The [for] loop over the busy intervals and the check that follows it:
    the start of the slot found, in minutes. *)
Fixpoint firstFit (requiredMinutes buffer endOfDay current : Z)
    (intervals : list Interval) : option Z :=
  match intervals with
  | [] => if requiredMinutes <=? endOfDay - current then Some current else None
  | interval :: rest =>
      if requiredMinutes <=? i_start interval - current then Some current
      else firstFit requiredMinutes buffer endOfDay
             (Z.max current (i_end interval + buffer)) rest
  end.

Definition findNextAvailableTimeSlot (requiredHours : Q)
    (existingSessions : list StudySession) (commitments : list FixedCommitment)
    (studyWindowStartHour studyWindowEndHour bufferTimeBetweenSessions : Z)
    (targetDate : option DateStr) : option Slot :=
  let busy := busyIntervals existingSessions commitments targetDate in
  let requiredMinutes := Js.Math_ceil (requiredHours * 60) in
  let current := studyWindowStartHour * 60 in
  let endOfDay := studyWindowEndHour * 60 in
  match firstFit requiredMinutes bufferTimeBetweenSessions endOfDay current busy
  with
  | Some c => Some (mkSlot (formatHM c) (formatHM (c + requiredMinutes)))
  | None => None
  end.

(** ** Plan generator *)

Record Suggestion : Type := mkSuggestion {
  taskTitle : string;
  unscheduledMinutes : Z;
  sug_importance : option bool;
  sug_deadline : option Instant
}.

Record MissedSession : Type := mkMissed {
  ms_session : StudySession;
  ms_planDate : DateStr;
  ms_task : Task
}.

Definition isPending (t : Task) : bool :=
  match task_status t with pending => true | _ => false end.

(** The comparator shared by every task sort: important first, then the
    earlier deadline; [true] when [compare(a, b) <= 0]. *)
Definition taskLeb (a b : Task) : bool :=
  if negb (Bool.eqb (importance a) (importance b)) then importance a
  else deadline a - deadline b <=? 0.

Definition findTask (tasks : list Task) (tid : string) : option Task :=
  find (fun t => String.eqb (id t) tid) tasks.

Definition collectMissedSessions (now : Instant) (tasks : list Task)
    (existingStudyPlans : list StudyPlan) : list MissedSession :=
  flat_map (fun plan =>
    flat_map (fun session =>
      if SessionStatus_eqb (checkSessionStatus now session (date plan)) missed
      then match findTask tasks (taskId session) with
           | Some task =>
               if isPending task then [mkMissed session (date plan) task]
               else []
           | None => []
           end
      else []) (plannedTasks plan)) existingStudyPlans.

(** [new Date(Math.max(...tasks.map(t => new Date(t.deadline).getTime())))];
    invalid when there is no task. *)
Definition latestDeadlineOf (tasks : list Task) : option Instant :=
  match tasks with
  | [] => None
  | t :: ts => Some (fold_left Z.max (map deadline ts) (deadline t))
  end.

(** [while (tempDate <= latestDeadline) { ...; tempDate.setDate(+1) }] *)
Fixpoint horizonLoop (fuel : nat) (workDays : list Z)
    (tempDate latestDeadline : Instant) : list DateStr :=
  match fuel with
  | O => []
  | S fuel' =>
      if tempDate <=? latestDeadline then
        (if includes workDays (getDay tempDate) then [toISODate tempDate]
         else [])
          ++ horizonLoop fuel' workDays (addDays tempDate 1) latestDeadline
      else []
  end.

(** The number of iterations the loop can make. *)
Definition horizonFuel (now latestDeadline : Instant) : nat :=
  Z.to_nat ((latestDeadline - now) / DAY_MS + 1).

(** The deadline a task is scheduled against, as a date string. *)
Definition deadlineDateStr (settings : UserSettings) (task : Task) : DateStr :=
  if 0 <? bufferDays settings
  then toISODate (addDays (deadline task) (- bufferDays settings))
  else toISODate (deadline task).

(** Step 1 of both modes: the available study days. *)
Definition computeAvailableDays (now : Instant) (settings : UserSettings)
    (tasks : list Task) : list DateStr :=
  let loopDays :=
    match latestDeadlineOf tasks with
    | Some latest =>
        horizonLoop (horizonFuel now latest) (workDays settings) now latest
    | None => []
    end in
  let addDeadlineDay (availableDays : list DateStr) (task : Task) :=
    let d :=
      if bufferDays settings =? 0 then toISODate (deadline task)
      else toISODate (addDays (deadline task) (- bufferDays settings)) in
    if negb (includes availableDays d)
       && includes (workDays settings) (getDay (dateOfString d))
    then availableDays ++ [d] else availableDays in
  Js.sort Z.leb (fold_left addDeadlineDay tasks loopDays).

Definition emptyPlan (settings : UserSettings) (d : DateStr) : StudyPlan :=
  mkPlan d d [] 0%Q (dailyAvailableHours settings) None.

(** [studyPlans.find(p => p.date === date)] followed by an update of the
    plan found. *)
Fixpoint updatePlan (d : DateStr) (f : StudyPlan -> StudyPlan)
    (plans : list StudyPlan) : list StudyPlan :=
  match plans with
  | [] => []
  | p :: ps => if date p =? d then f p :: ps else p :: updatePlan d f ps
  end.

Definition findPlan (d : DateStr) (plans : list StudyPlan) : option StudyPlan :=
  find (fun p => date p =? d) plans.

Definition sessionsOfTask (tid : string) (l : list StudySession)
  : list StudySession :=
  filter (fun s => String.eqb (taskId s) tid) l.

Definition nextSessionNumber (dayPlan : StudyPlan) (task : Task) : Z :=
  Z.of_nat (List.length (sessionsOfTask (id task) (plannedTasks dayPlan))) + 1.

(** The state the generator mutates. *)
Record GenState : Type := mkGen {
  studyPlans : list StudyPlan;
  dailyRemainingHours : list (DateStr * Q)
}.

(** [dailyRemainingHours[date]]; every date asked for is a key. *)
Definition remainingOn (st : GenState) (d : DateStr) : Q :=
  match Js.get Z.eqb (dailyRemainingHours st) d with
  | Some q => q
  | None => 0%Q
  end.

(** Push a flexible session without times on [date] and charge the day. *)
Definition pushFlexible (task : Task) (d : DateStr) (rounded : Q)
    (st : GenState) : GenState :=
  mkGen
    (updatePlan d (fun dayPlan =>
       withSessions dayPlan
         (plannedTasks dayPlan
            ++ [mkSession (id task) (d, NoTime) NoTime NoTime rounded
                  (Some (nextSessionNumber dayPlan task)) (Some true) None
                  None (Some scheduled) None None])
         (Js.roundToMinute (totalStudyHours dayPlan + rounded)))
       (studyPlans st))
    (Js.set Z.eqb (dailyRemainingHours st) d
       (Js.roundToMinute (remainingOn st d - rounded))).

Definition minSessionHours (settings : UserSettings) : Q :=
  inject_Z (Js.orElse (minSessionLength settings) 15) / 60.

Definition maxSessionHours (settings : UserSettings) : Q :=
  Qmin 4 (dailyAvailableHours settings).

(** The [for] loop of [optimizeSessionDistribution]; [left] counts the
    iterations that remain, [i] is the index. *)
Fixpoint optimizeLoop (settings : UserSettings) (numSessions : Z) (left : nat)
    (i : Z) (remainingHours : Q) (optimalSessions : list Q) : list Q * Q :=
  match left with
  | O => (optimalSessions, remainingHours)
  | S left' =>
      if Js.Qltb 0 remainingHours then
        let sessionLength :=
          Qmin (Qmin (remainingHours / inject_Z (numSessions - i))
                  (maxSessionHours settings)) remainingHours in
        if Js.Qleb (minSessionHours settings) sessionLength
        then optimizeLoop settings numSessions left' (i + 1)
               (remainingHours - sessionLength)
               (optimalSessions ++ [sessionLength])
        else optimizeLoop settings numSessions left' (i + 1) remainingHours
               optimalSessions
      else (optimalSessions, remainingHours)
  end.

Definition optimizeSessionDistribution (settings : UserSettings)
    (totalHours : Q) (daysForTask : list DateStr) : list Q :=
  let maxSessionsWithMinLength :=
    Js.Math_floor (totalHours / minSessionHours settings) in
  let numSessions0 :=
    Z.min (Z.of_nat (List.length daysForTask)) maxSessionsWithMinLength in
  let numSessions :=
    if numSessions0 =? 0 then Z.of_nat (List.length daysForTask)
    else numSessions0 in
  let '(optimalSessions, remainingHours) :=
    optimizeLoop settings numSessions (Z.to_nat numSessions) 0 totalHours [] in
  match optimalSessions with
  | first :: others =>
      if Js.Qltb 0 remainingHours then (first + remainingHours)%Q :: others
      else optimalSessions
  | [] => []
  end.

(** The [for] loop of one redistribution round; [days] and [lengths] are
    walked together, which stops at the shorter one. *)
Fixpoint distributeRound (settings : UserSettings) (task : Task)
    (days : list DateStr) (lengths : list Q) (st : GenState)
    (distributedThisRound : Q) : GenState * Q :=
  match days, lengths with
  | d :: days', len :: lengths' =>
      let availableHours := remainingOn st d in
      let sessionLength := Qmin len availableHours in
      if Js.Qleb (minSessionHours settings) sessionLength then
        let rounded := Js.roundToMinute sessionLength in
        distributeRound settings task days' lengths'
          (pushFlexible task d rounded st)
          (Js.roundToMinute (distributedThisRound + rounded))
      else distributeRound settings task days' lengths' st distributedThisRound
  | _, _ => (st, distributedThisRound)
  end.

(** The [while] loop of [redistributeUnscheduledHours]; [rounds] is what is
    left of [maxRedistributionRounds]. *)
Fixpoint redistributeRounds (settings : UserSettings) (task : Task)
    (daysForTask : list DateStr) (rounds : nat) (remainingUnscheduledHours : Q)
    (st : GenState) : GenState * Q :=
  match rounds with
  | O => (st, remainingUnscheduledHours)
  | S rounds' =>
      if Js.Qltb 0 remainingUnscheduledHours then
        let availableDaysForRedistribution :=
          filter (fun d => Js.Qltb 0 (remainingOn st d)) daysForTask in
        match availableDaysForRedistribution with
        | [] => (st, remainingUnscheduledHours)
        | _ =>
            let optimalSessions :=
              optimizeSessionDistribution settings remainingUnscheduledHours
                availableDaysForRedistribution in
            let '(st', distributedThisRound) :=
              distributeRound settings task availableDaysForRedistribution
                optimalSessions st 0%Q in
            let remaining' :=
              (remainingUnscheduledHours - distributedThisRound)%Q in
            if Qeq_bool distributedThisRound 0 then (st', remaining')
            else redistributeRounds settings task daysForTask rounds'
                   remaining' st'
        end
      else (st, remainingUnscheduledHours)
  end.

Definition redistributeUnscheduledHours (settings : UserSettings)
    (task : Task) (unscheduledHours : Q) (daysForTask : list DateStr)
    (st : GenState) : GenState * Q :=
  redistributeRounds settings task daysForTask 10 unscheduledHours st.

(** [sessionsByTask[session.taskId].push(session)] *)
Fixpoint pushGroup {A : Type} (k : string) (s : A)
    (o : list (string * list A)) : list (string * list A) :=
  match o with
  | [] => [(k, [s])]
  | (k', g) :: o' =>
      if String.eqb k k' then (k', g ++ [s]) :: o'
      else (k', g) :: pushGroup k s o'
  end.

(** The sessions that are not skipped, grouped by task. *)
Definition groupByTask (l : list StudySession)
  : list (string * list StudySession) :=
  fold_left (fun o s =>
               if statusIs s skipped then o else pushGroup (taskId s) s o)
    l [].

Definition sortByStartTime (sessions : list StudySession) : list StudySession :=
  Js.sort (fun a b => timeLeb (startTime a) (startTime b)) sessions.

(** [{...firstSession, endTime: lastSession.endTime, allocatedHours: totalHours,
    sessionNumber: 1}] *)
Definition combinedSession (firstSession lastSession : StudySession)
    (totalHours : Q) : StudySession :=
  mkSession (taskId firstSession) (scheduledTime firstSession)
    (startTime firstSession) (endTime lastSession) totalHours (Some 1)
    (isFlexible firstSession) (isManualOverride firstSession)
    (done firstSession) (status firstSession) (originalTime firstSession)
    (originalDate firstSession).

(** What one task's group contributes to [combinedSessions]. *)
Definition combineGroup (sessions : list StudySession) : list StudySession :=
  match sessions with
  | _ :: _ :: _ =>
      let sorted := sortByStartTime sessions in
      match sorted with
      | firstSession :: _ =>
          [combinedSession firstSession (last sorted firstSession)
             (sumHours sorted)]
      | [] => []
      end
  | s :: _ => [s]
  | [] => []
  end.

Definition combinePlan (plan : StudyPlan) : StudyPlan :=
  let sessionsByTask := groupByTask (plannedTasks plan) in
  let combinedSessions :=
    flat_map (fun e => combineGroup (snd e)) (Js.entries sessionsByTask) in
  let skippedSessions :=
    filter (fun session => statusIs session skipped) (plannedTasks plan) in
  let l := combinedSessions ++ skippedSessions in
  withSessions plan l (calculateTotalStudyHours l).

Definition combineSessionsOnSameDay (studyPlans : list StudyPlan)
  : list StudyPlan :=
  map combinePlan studyPlans.

(** [taskScheduledHours[session.taskId] += session.allocatedHours] over the
    sessions that are not skipped. *)
Definition scheduledHoursByTask (plans : list StudyPlan) : list (string * Q) :=
  fold_left (fun o plan =>
    fold_left (fun o session =>
      if negb (statusIs session skipped) then
        Js.set String.eqb o (taskId session)
          (match Js.get String.eqb o (taskId session) with
           | Some h => h | None => 0%Q end + allocatedHours session)%Q
      else o) (plannedTasks plan) o) plans [].

(** [taskScheduledHours[task.id] || 0] *)
Definition scheduledOr0 (o : list (string * Q)) (tid : string) : Q :=
  match Js.get String.eqb o tid with Some h => h | None => 0%Q end.

(** The per-task allocation loop of even mode. *)
Fixpoint assignSessions (task : Task) (days : list DateStr) (lengths : list Q)
    (st : GenState) (unscheduledHours : Q) : GenState * Q :=
  match days, lengths with
  | d :: days', len :: lengths' =>
      let availableHours := remainingOn st d in
      let thisSessionLength := Qmin len availableHours in
      if Js.Qltb 0 thisSessionLength then
        assignSessions task days' lengths'
          (pushFlexible task d (Js.roundToMinute thisSessionLength) st)
          unscheduledHours
      else assignSessions task days' lengths' st (unscheduledHours + len)%Q
  | _, _ => (st, unscheduledHours)
  end.

Definition daysUpTo (availableDays : list DateStr) (d : DateStr)
  : list DateStr :=
  filter (fun x => x <=? d) availableDays.

Definition allocateTaskEven (settings : UserSettings)
    (availableDays : list DateStr) (st : GenState) (task : Task) : GenState :=
  let daysForTask := daysUpTo availableDays (deadlineDateStr settings task) in
  match daysForTask with
  | [] => st
  | _ =>
      let sessionLengths :=
        optimizeSessionDistribution settings (estimatedHours task) daysForTask
      in
      let '(st', unscheduledHours) :=
        assignSessions task daysForTask sessionLengths st 0%Q in
      if Js.Qltb 0 unscheduledHours
      then fst (redistributeUnscheduledHours settings task unscheduledHours
                  daysForTask st')
      else st'
  end.

(** The global redistribution pass over the tasks that are still short. *)
Definition globalRedistribution (settings : UserSettings)
    (availableDays : list DateStr) (taskScheduledHours : list (string * Q))
    (tasks : list Task) (st : GenState) : GenState :=
  fold_left (fun st task =>
    let unscheduledHours :=
      (estimatedHours task - scheduledOr0 taskScheduledHours (id task))%Q in
    if Js.Qleb unscheduledHours 0 then st
    else fst (redistributeUnscheduledHours settings task unscheduledHours
                (daysUpTo availableDays (deadlineDateStr settings task)) st))
    tasks st.

(** The commitments that apply to a date (occurrence deletion is left to the
    slot finder). *)
Definition commitmentsOn (fixedCommitments : list FixedCommitment)
    (d : DateStr) : list FixedCommitment :=
  filter (fun commitment =>
            if recurring commitment
            then includes (daysOfWeek commitment) (getDay (dateOfString d))
            else optIncludes (specificDates commitment) d) fixedCommitments.

(** The comparator of the per-day session sort of even mode. *)
Definition sessionPriorityLeb (tasks : list Task) (a b : StudySession) : bool :=
  match findTask tasks (taskId a), findTask tasks (taskId b) with
  | Some taskA, Some taskB => taskLeb taskA taskB
  | _, _ => true
  end.

(** Give every session of a day its slot, in order. *)
Fixpoint assignTimeSlots (settings : UserSettings)
    (commitmentsForDay : list FixedCommitment) (d : DateStr)
    (sessions assignedSessions : list StudySession) : list StudySession :=
  match sessions with
  | [] => []
  | session :: rest =>
      match findNextAvailableTimeSlot (allocatedHours session) assignedSessions
              commitmentsForDay
              (Js.orElse (studyWindowStartHour settings) 6)
              (Js.orElse (studyWindowEndHour settings) 23)
              (Js.orElse (bufferTimeBetweenSessions settings) 0) (Some d)
      with
      | Some slot =>
          let session' := withTimes session (slot_start slot) (slot_end slot) in
          session' :: assignTimeSlots settings commitmentsForDay d rest
                        (assignedSessions ++ [session'])
      | None =>
          withTimes session NoTime NoTime
            :: assignTimeSlots settings commitmentsForDay d rest
                 assignedSessions
      end
  end.

Definition placePlan (settings : UserSettings) (tasks : list Task)
    (fixedCommitments : list FixedCommitment) (plan : StudyPlan) : StudyPlan :=
  let sorted := Js.sort (sessionPriorityLeb tasks) (plannedTasks plan) in
  withSessions plan
    (assignTimeSlots settings (commitmentsOn fixedCommitments (date plan))
       (date plan) sorted [])
    (totalStudyHours plan).

(** [missedSessionHoursByTask[task.id] += session.allocatedHours] *)
Definition missedHoursByTask (missedSessions : list MissedSession)
  : list (string * Q) :=
  fold_left (fun o ms =>
    Js.set String.eqb o (id (ms_task ms))
      (scheduledOr0 o (id (ms_task ms)) + allocatedHours (ms_session ms))%Q)
    missedSessions [].

Definition redistributeMissedHours (settings : UserSettings)
    (availableDays : list DateStr)
    (missedSessionHoursByTask : list (string * Q))
    (tasks : list Task) (st : GenState) : GenState :=
  let tasksWithMissedSessions :=
    Js.sort taskLeb
      (flat_map (fun e => match findTask tasks (fst e) with
                          | Some t => [t] | None => [] end)
         (Js.entries missedSessionHoursByTask)) in
  fold_left (fun st task =>
    let missedHours := scheduledOr0 missedSessionHoursByTask (id task) in
    if Js.Qleb missedHours 0 then st
    else fst (redistributeUnscheduledHours settings task missedHours
                (daysUpTo availableDays (deadlineDateStr settings task)) st))
    tasksWithMissedSessions st.

Definition withPlans (st : GenState) (plans : list StudyPlan) : GenState :=
  mkGen plans (dailyRemainingHours st).

Definition evenSuggestions (tasks : list Task)
    (taskScheduledHours : list (string * Q)) : list Suggestion :=
  flat_map (fun task =>
    let unscheduledHours :=
      (estimatedHours task - scheduledOr0 taskScheduledHours (id task))%Q in
    if Js.Qltb (16 # 1000) unscheduledHours
    then [mkSuggestion (title task) (Js.Math_round (unscheduledHours * 60))
            None None]
    else []) tasks.

Definition schedulable (tasks : list Task) : list Task :=
  Js.sort taskLeb
    (filter (fun task => isPending task && Js.Qltb 0 (estimatedHours task))
       tasks).

Definition generateEven (now : Instant) (tasks : list Task)
    (settings : UserSettings) (fixedCommitments : list FixedCommitment)
    (missedSessionsToRedistribute : list MissedSession)
  : list StudyPlan * list Suggestion :=
  let tasksEven := schedulable tasks in
  let missedSessionHoursByTask :=
    missedHoursByTask missedSessionsToRedistribute in
  let availableDays := computeAvailableDays now settings tasksEven in
  let st0 :=
    mkGen (map (emptyPlan settings) availableDays)
      (fold_left (fun o d => Js.set Z.eqb o d (dailyAvailableHours settings))
         availableDays []) in
  let st1 :=
    fold_left (allocateTaskEven settings availableDays) tasksEven st0 in
  let st2 := withPlans st1 (combineSessionsOnSameDay (studyPlans st1)) in
  let taskScheduledHours := scheduledHoursByTask (studyPlans st2) in
  let tasksWithUnscheduledHours :=
    filter (fun task =>
              Js.Qltb 0 (estimatedHours task
                         - scheduledOr0 taskScheduledHours (id task)))
      tasksEven in
  let '(st3, taskScheduledHours') :=
    match tasksWithUnscheduledHours with
    | [] => (st2, taskScheduledHours)
    | _ =>
        let st :=
          globalRedistribution settings availableDays taskScheduledHours
            (Js.sort taskLeb tasksWithUnscheduledHours) st2 in
        (withPlans st (combineSessionsOnSameDay (studyPlans st)),
         scheduledHoursByTask (studyPlans st))
    end in
  let suggestions := evenSuggestions tasksEven taskScheduledHours' in
  let st4 :=
    withPlans st3
      (map (placePlan settings tasksEven fixedCommitments) (studyPlans st3)) in
  let st5 :=
    match Js.entries missedSessionHoursByTask with
    | [] => st4
    | _ =>
        let st :=
          redistributeMissedHours settings availableDays
            missedSessionHoursByTask tasksEven st4 in
        withPlans st (combineSessionsOnSameDay (studyPlans st))
    end in
  (studyPlans st5, suggestions).

(** [settings.minSessionLength ? settings.minSessionLength / 60 : 0.016] *)
Definition minSessionLengthHours (settings : UserSettings) : Q :=
  if minSessionLength settings =? 0 then (16 # 1000)%Q
  else (inject_Z (minSessionLength settings) / 60)%Q.

(** Helper to detect the unscheduled minutes of each task. *)
Definition getUnscheduledMinutesForTasks (tasks : list Task)
    (taskScheduledHours : list (string * Q)) (settings : UserSettings)
  : list Suggestion :=
  flat_map (fun task =>
    let scheduled := scheduledOr0 taskScheduledHours (id task) in
    let unscheduled := Qmax 0 (estimatedHours task - scheduled) in
    if Js.Qltb (minSessionLengthHours settings) unscheduled
    then [mkSuggestion (title task) (Js.Math_round (unscheduled * 60))
            (Some (importance task)) (Some (deadline task))]
    else [])
    (filter isPending tasks).

(** The state of the Eisenhower pass. *)
Record EisenState : Type := mkEisen {
  e_plans : list StudyPlan;
  e_dailyRemainingHours : list (DateStr * Q);
  e_taskScheduledHours : list (string * Q)
}.

(** The inner loop of a day: [tasksForDay] in priority order, with the hours
    still available on the day. *)
Fixpoint eisenhowerTasks (settings : UserSettings)
    (commitmentsForDay : list FixedCommitment) (d : DateStr)
    (tasksForDay : list Task) (availableHours : Q) (st : EisenState)
  : EisenState :=
  match tasksForDay with
  | [] => st
  | task :: rest =>
      if Js.Qleb availableHours 0 then st
      else
        let remainingTaskHours :=
          (estimatedHours task
           - scheduledOr0 (e_taskScheduledHours st) (id task))%Q in
        if Js.Qleb remainingTaskHours 0
        then eisenhowerTasks settings commitmentsForDay d rest availableHours st
        else
          let hoursToSchedule := Qmin remainingTaskHours availableHours in
          if Js.Qltb 0 hoursToSchedule then
            let existingSessions :=
              match findPlan d (e_plans st) with
              | Some dayPlan => plannedTasks dayPlan
              | None => []
              end in
            match findNextAvailableTimeSlot hoursToSchedule existingSessions
                    commitmentsForDay
                    (Js.orElse (studyWindowStartHour settings) 6)
                    (Js.orElse (studyWindowEndHour settings) 23)
                    (Js.orElse (bufferTimeBetweenSessions settings) 0) (Some d)
            with
            | None =>
                eisenhowerTasks settings commitmentsForDay d rest
                  availableHours st
            | Some slot =>
                let allocated := Js.roundToMinute hoursToSchedule in
                let st' :=
                  mkEisen
                    (updatePlan d (fun dayPlan =>
                       withSessions dayPlan
                         (plannedTasks dayPlan
                            ++ [mkSession (id task) (d, slot_start slot)
                                  (slot_start slot) (slot_end slot) allocated
                                  (Some (nextSessionNumber dayPlan task))
                                  (Some true) None None (Some scheduled) None
                                  None])
                         (Js.roundToMinute
                            (totalStudyHours dayPlan + allocated)))
                       (e_plans st))
                    (Js.set Z.eqb (e_dailyRemainingHours st) d
                       (Js.roundToMinute
                          (match Js.get Z.eqb (e_dailyRemainingHours st) d with
                           | Some q => q | None => 0%Q end - allocated)))
                    (Js.set String.eqb (e_taskScheduledHours st) (id task)
                       (Js.roundToMinute
                          (scheduledOr0 (e_taskScheduledHours st) (id task)
                           + allocated))) in
                eisenhowerTasks settings commitmentsForDay d rest
                  (Js.roundToMinute (availableHours - allocated)) st'
            end
          else eisenhowerTasks settings commitmentsForDay d rest
                 availableHours st
  end.

(** One iteration of the loop over the available days. *)
Definition eisenhowerDay (settings : UserSettings)
    (fixedCommitments : list FixedCommitment) (tasksSorted : list Task)
    (st : EisenState) (d : DateStr) : EisenState :=
  let availableHours :=
    match Js.get Z.eqb (e_dailyRemainingHours st) d with
    | Some q => q | None => 0%Q end in
  let commitmentsForDay := commitmentsOn fixedCommitments d in
  let tasksForDay :=
    filter (fun task =>
              match Js.get String.eqb (e_taskScheduledHours st) (id task) with
              | Some h => Js.Qltb h (estimatedHours task)
              | None => false
              end && (d <=? deadlineDateStr settings task)) tasksSorted in
  eisenhowerTasks settings commitmentsForDay d tasksForDay availableHours st.

Definition generateEisenhower (now : Instant) (tasks : list Task)
    (settings : UserSettings) (fixedCommitments : list FixedCommitment)
  : list StudyPlan * list Suggestion :=
  let tasksSorted := schedulable tasks in
  let availableDays := computeAvailableDays now settings tasksSorted in
  let st0 :=
    mkEisen (map (emptyPlan settings) availableDays)
      (fold_left (fun o d => Js.set Z.eqb o d (dailyAvailableHours settings))
         availableDays [])
      (fold_left (fun o task => Js.set String.eqb o (id task) 0%Q)
         tasksSorted []) in
  let st :=
    fold_left (eisenhowerDay settings fixedCommitments tasksSorted)
      availableDays st0 in
  (e_plans st,
   getUnscheduledMinutesForTasks tasksSorted (e_taskScheduledHours st)
     settings).

Definition generateNewStudyPlan (now : Instant) (tasks : list Task)
    (settings : UserSettings) (fixedCommitments : list FixedCommitment)
    (existingStudyPlans : list StudyPlan)
  : list StudyPlan * list Suggestion :=
  let missedSessionsToRedistribute :=
    collectMissedSessions now tasks existingStudyPlans in
  match studyPlanMode settings with
  | Some even =>
      generateEven now tasks settings fixedCommitments
        missedSessionsToRedistribute
  | _ => generateEisenhower now tasks settings fixedCommitments
  end.

(** ** Time slots of a day *)

Definition HOUR_MS : Z := 3600000.

(** [new Date(x)] keeps the integral part of a time value. *)
Definition truncMs (x : Q) : Z :=
  if Js.Qleb 0 x then Qfloor x else Qceiling x.

Definition startOfDay (t : Instant) : Instant := (t / DAY_MS) * DAY_MS.

(** [d = new Date(date); d.setHours(h, m, 0, 0)] with [h] and [m] read from a
    time-of-day string; the empty string leaves the minutes undefined. *)
Definition setHoursOf (dt : Instant) (t : TimeStr) : option Instant :=
  match t with
  | NoTime => None
  | HM h m => Some (startOfDay dt + (h * 60 + m) * MINUTE_MS)
  end.

Definition setHour (dt : Instant) (h : Z) : Instant :=
  startOfDay dt + h * HOUR_MS.

Record TimeSlot : Type := mkTimeSlot { ts_start : Instant; ts_end : Instant }.

(** [x || y] on strings. *)
Definition timeOr (a : option TimeStr) (b : TimeStr) : TimeStr :=
  match a with Some (HM h m) => HM h m | _ => b end.

Definition effectiveStart (d : DateStr) (c : FixedCommitment) : TimeStr :=
  timeOr (match modifiedOn c d with
          | Some m => mod_startTime m | None => None end) (c_startTime c).

Definition effectiveEnd (d : DateStr) (c : FixedCommitment) : TimeStr :=
  timeOr (match modifiedOn c d with
          | Some m => mod_endTime m | None => None end) (c_endTime c).

(** The loop over the sorted commitments of [getDailyAvailableTimeSlots]. *)
Fixpoint slotsAround (dt : Instant) (dateString : DateStr)
    (totalAvailableMinutes : Q) (commitments : list FixedCommitment)
    (currentTime : option Instant) (usedMinutes : Q) (slots : list TimeSlot)
  : list TimeSlot * option Instant * Q :=
  match commitments with
  | [] => (slots, currentTime, usedMinutes)
  | commitment :: rest =>
      let commitmentStart :=
        setHoursOf dt (effectiveStart dateString commitment) in
      let commitmentEnd := setHoursOf dt (effectiveEnd dateString commitment) in
      let '(slots', used') :=
        match currentTime, commitmentStart with
        | Some ct, Some cs =>
            if ct <? cs then
              let slotDuration := (inject_Z (cs - ct) / inject_Z MINUTE_MS)%Q in
              if Js.Qleb (usedMinutes + slotDuration) totalAvailableMinutes
              then (slots ++ [mkTimeSlot ct cs],
                    (usedMinutes + slotDuration)%Q)
              else (slots, usedMinutes)
            else (slots, usedMinutes)
        | _, _ => (slots, usedMinutes)
        end in
      slotsAround dt dateString totalAvailableMinutes rest commitmentEnd used'
        slots'
  end.

Definition getDailyAvailableTimeSlots (dt : Instant) (dailyHours : Q)
    (commitments : list FixedCommitment) (workDays : list Z)
    (startHour endHour : Z) : list TimeSlot :=
  let dayOfWeek := getDay dt in
  if negb (includes workDays dayOfWeek) then []
  else
    let dateString := toISODate dt in
    let dayCommitments :=
      filter (fun commitment =>
                (if recurring commitment
                 then includes (daysOfWeek commitment) dayOfWeek
                 else optIncludes (specificDates commitment) dateString)
                && negb (optIncludes (deletedOccurrences commitment)
                           dateString)) commitments in
    let endTime := setHour dt endHour in
    let totalAvailableMinutes := (dailyHours * 60)%Q in
    let sortedCommitments :=
      Js.sort (fun a b => timeLeb (effectiveStart dateString a)
                            (effectiveStart dateString b)) dayCommitments in
    let '(slots, currentTime, usedMinutes) :=
      slotsAround dt dateString totalAvailableMinutes sortedCommitments
        (Some (setHour dt startHour)) 0%Q [] in
    match currentTime with
    | Some ct =>
        if ct <? endTime then
          let remainingMinutes := (totalAvailableMinutes - usedMinutes)%Q in
          let slotDuration :=
            Qmin (inject_Z (endTime - ct) / inject_Z MINUTE_MS)
              remainingMinutes in
          if Js.Qltb 0 slotDuration
          then slots
                 ++ [mkTimeSlot ct
                       (truncMs (inject_Z ct + slotDuration * 60 * 1000))]
          else slots
        else slots
    | None => slots
    end.

(** ** Conflict validator *)

(** The nested loops over the pairs [i < j]. *)
Definition sessionsOverlap (a b : StudySession) : bool :=
  hasTime (startTime a) && hasTime (endTime a)
  && hasTime (startTime b) && hasTime (endTime b)
  && (minutesOf (startTime a) <? minutesOf (endTime b))
  && (minutesOf (startTime b) <? minutesOf (endTime a)).

Fixpoint anyOverlap (sessions : list StudySession) : bool :=
  match sessions with
  | [] => false
  | a :: rest => existsb (sessionsOverlap a) rest || anyOverlap rest
  end.

Definition planHasConflict (now : Instant) (settings : UserSettings)
    (plan : StudyPlan) : bool :=
  let sessions :=
    filter (fun session => negb (statusIs session skipped))
      (plannedTasks plan) in
  let regularSessions :=
    filter (fun session =>
              negb (isMissedOrRedistributedSession now session (date plan)))
      sessions in
  anyOverlap sessions
  || Js.Qltb (dailyAvailableHours settings) (sumHours regularSessions)
  || existsb (fun session =>
                Js.Qltb (allocatedHours session) (minSessionHours settings)
                || Js.Qltb (maxSessionHours settings) (allocatedHours session))
       regularSessions.

Definition validateStudyPlanConflicts (now : Instant)
    (studyPlans : list StudyPlan) (settings : UserSettings)
    (fixedCommitments : list FixedCommitment) : bool :=
  existsb (planHasConflict now settings) studyPlans.

(** ** Session combination with validation *)

Definition combineGroupWithValidation (settings : UserSettings)
    (sessions : list StudySession) : list StudySession :=
  match sessions with
  | _ :: _ :: _ =>
      let sorted := sortByStartTime sessions in
      let totalHours := sumHours sorted in
      if Js.Qleb (minSessionHours settings) totalHours
         && Js.Qleb totalHours (maxSessionHours settings)
      then match sorted with
           | firstSession :: _ =>
               [combinedSession firstSession (last sorted firstSession)
                  totalHours]
           | [] => []
           end
      else sorted
  | _ => sessions
  end.

Definition combinePlanWithValidation (settings : UserSettings)
    (plan : StudyPlan) : StudyPlan :=
  let sessionsByTask := groupByTask (plannedTasks plan) in
  let combinedSessions :=
    flat_map (fun e => combineGroupWithValidation settings (snd e))
      (Js.entries sessionsByTask) in
  withSessions plan combinedSessions (sumHours combinedSessions).

(** ** Redistribution engine

    [moveMissedSessions] works on plan objects.  The store holds them by
    address; an array of plans is a list of addresses.  [[...studyPlans]]
    copies the addresses, not the objects. *)

Definition Ref := nat.
Definition Store := list StudyPlan.

Definition readPlan (h : Store) (r : Ref) : option StudyPlan := nth_error h r.

Fixpoint writePlan (h : Store) (r : Ref) (p : StudyPlan) : Store :=
  match h, r with
  | [], _ => []
  | _ :: h', O => p :: h'
  | q :: h', S r' => q :: writePlan h' r' p
  end.

Definition modifyPlan (h : Store) (r : Ref) (f : StudyPlan -> StudyPlan)
  : Store :=
  match readPlan h r with
  | Some p => writePlan h r (f p)
  | None => h
  end.

(** The plans an array of addresses denotes. *)
Definition deref (h : Store) (refs : list Ref) : list StudyPlan :=
  flat_map (fun r => match readPlan h r with Some p => [p] | None => [] end)
    refs.

Record MissedEntry : Type := mkEntry {
  me_session : StudySession;
  me_planDate : DateStr;
  me_planIndex : nat;
  me_task : option Task;
  me_priority : Q
}.

Definition priorityOf (now : Instant) (task : option Task) : Q :=
  match task with
  | Some t =>
      let daysUntilDeadline :=
        (inject_Z (deadline t - now) / inject_Z DAY_MS)%Q in
      ((if importance t then 1000 else 0)
       + (if Js.Qltb daysUntilDeadline 0 then 2000
          else Qmax 0 (100 - daysUntilDeadline)))%Q
  | None => 0%Q
  end.

Definition priorityLeb (a b : MissedEntry) : bool :=
  Js.Qleb (me_priority b) (me_priority a).

Fixpoint findMissedFrom (now : Instant) (tasks : list Task) (h : Store)
    (planIndex : nat) (refs : list Ref) : list MissedEntry :=
  match refs with
  | [] => []
  | r :: refs' =>
      match readPlan h r with
      | Some plan =>
          flat_map (fun session =>
            if SessionStatus_eqb (checkSessionStatus now session (date plan))
                 missed
            then
              let task := findTask tasks (taskId session) in
              [mkEntry session (date plan) planIndex task (priorityOf now task)]
            else []) (plannedTasks plan)
      | None => []
      end ++ findMissedFrom now tasks h (S planIndex) refs'
  end.

Record BusySlot : Type := mkBusy {
  b_start : option Instant;
  b_end : option Instant
}.

(** [updatedPlans.find(p => p.date === dateString)] *)
Fixpoint findPlanRef (h : Store) (refs : list Ref) (d : DateStr)
  : option (Ref * StudyPlan) :=
  match refs with
  | [] => None
  | r :: refs' =>
      match readPlan h r with
      | Some p => if date p =? d then Some (r, p) else findPlanRef h refs' d
      | None => findPlanRef h refs' d
      end
  end.

Definition busyStartLeb (a b : BusySlot) : bool :=
  match b_start a, b_start b with
  | Some x, Some y => x <=? y
  | _, _ => true
  end.

Definition getBusyTimeSlots (fixedCommitments : list FixedCommitment)
    (h : Store) (updatedPlans : list Ref) (dt : Instant) (dateString : DateStr)
  : list BusySlot :=
  let dayOfWeek := getDay dt in
  let dayCommitments :=
    filter (fun commitment =>
              if recurring commitment
              then includes (daysOfWeek commitment) dayOfWeek
              else optIncludes (specificDates commitment) dateString)
      fixedCommitments in
  let fromCommitments :=
    map (fun commitment =>
           mkBusy (setHoursOf dt (c_startTime commitment))
             (setHoursOf dt (c_endTime commitment))) dayCommitments in
  let fromSessions :=
    match findPlanRef h updatedPlans dateString with
    | Some (_, existingPlan) =>
        map (fun session =>
               mkBusy (setHoursOf dt (startTime session))
                 (setHoursOf dt (endTime session)))
          (filter (fun session => negb (statusIs session skipped))
             (plannedTasks existingPlan))
    | None => []
    end in
  Js.sort busyStartLeb (fromCommitments ++ fromSessions).

(** The gaps between the busy slots of a day that are long enough. *)
Fixpoint gapsBetween (minHours : Q) (busySlots : list BusySlot)
    (currentTime : option Instant) : list TimeSlot * option Instant :=
  match busySlots with
  | [] => ([], currentTime)
  | busySlot :: rest =>
      let here :=
        match currentTime, b_start busySlot with
        | Some ct, Some bs =>
            if (ct <? bs)
               && Js.Qleb minHours (inject_Z (bs - ct) / inject_Z HOUR_MS)
            then [mkTimeSlot ct bs] else []
        | _, _ => []
        end in
      let '(more, final) := gapsBetween minHours rest (b_end busySlot) in
      (here ++ more, final)
  end.

Definition findAvailableTimeSlots (settings : UserSettings)
    (fixedCommitments : list FixedCommitment) (h : Store)
    (updatedPlans : list Ref) (dt : Instant) (dateString : DateStr)
  : list TimeSlot :=
  let busySlots :=
    getBusyTimeSlots fixedCommitments h updatedPlans dt dateString in
  let studyWindowStart :=
    setHour dt (Js.orElse (studyWindowStartHour settings) 6) in
  let studyWindowEnd :=
    setHour dt (Js.orElse (studyWindowEndHour settings) 23) in
  let '(slots, currentTime) :=
    gapsBetween (minSessionHours settings) busySlots (Some studyWindowStart) in
  match currentTime with
  | Some ct =>
      if (ct <? studyWindowEnd)
         && Js.Qleb (minSessionHours settings)
              (inject_Z (studyWindowEnd - ct) / inject_Z HOUR_MS)
      then slots ++ [mkTimeSlot ct studyWindowEnd]
      else slots
  | None => slots
  end.

(** [`${d.getHours()...}:${d.getMinutes()...}`] *)
Definition clockOf (t : Instant) : TimeStr :=
  HM ((t mod DAY_MS) / HOUR_MS) (((t mod DAY_MS) / MINUTE_MS) mod 60).

Record MoveResult : Type := mkMove {
  targetDate : DateStr;
  targetTime : TimeStr
}.

(** The loop over the slots of one candidate day. *)
Fixpoint trySlots (now : Instant) (settings : UserSettings)
    (existing : list BusySlot) (session : StudySession) (sessionDuration : Q)
    (targetDateString : DateStr) (slots : list TimeSlot) : option MoveResult :=
  match slots with
  | [] => None
  | slot :: rest =>
      let slotDuration :=
        (inject_Z (ts_end slot - ts_start slot) / inject_Z HOUR_MS)%Q in
      let next :=
        trySlots now settings existing session sessionDuration targetDateString
          rest in
      if Js.Qleb sessionDuration slotDuration then
        let sessionStart := ts_start slot in
        let sessionEnd :=
          truncMs (inject_Z sessionStart
                   + sessionDuration * 60 * 60 * 1000) in
        let bufferMs :=
          Js.orElse (bufferTimeBetweenSessions settings) 0 * MINUTE_MS in
        let adjustedSessionStart := sessionStart - bufferMs in
        let adjustedSessionEnd := sessionEnd + bufferMs in
        let hasConflict :=
          existsb (fun existingSlot =>
                     instLt (Some adjustedSessionStart) (b_end existingSlot)
                     && instLt (b_start existingSlot)
                          (Some adjustedSessionEnd)) existing in
        if negb hasConflict then
          let isMissedSession :=
            SessionStatus_eqb
              (checkSessionStatus now session targetDateString) missed in
          if isMissedSession
             || (Js.Qleb (minSessionHours settings) sessionDuration
                 && Js.Qleb sessionDuration (maxSessionHours settings))
          then Some (mkMove targetDateString (clockOf sessionStart))
          else next
        else next
      else next
  end.

(** The loop over the day offsets 0 to 14. *)
Fixpoint tryDays (now : Instant) (settings : UserSettings)
    (fixedCommitments : list FixedCommitment) (h : Store)
    (updatedPlans : list Ref) (session : StudySession) (sessionDuration : Q)
    (dayOffsets : list Z) : option MoveResult :=
  match dayOffsets with
  | [] => None
  | dayOffset :: rest =>
      let dt := addDays (dateOfString (getLocalDateString now)) dayOffset in
      let targetDateString := toISODate dt in
      let next :=
        tryDays now settings fixedCommitments h updatedPlans session
          sessionDuration rest in
      if negb (includes (workDays settings) (getDay dt)) then next
      else
        let availableSlots :=
          findAvailableTimeSlots settings fixedCommitments h updatedPlans dt
            targetDateString in
        let existing :=
          getBusyTimeSlots fixedCommitments h updatedPlans dt targetDateString
        in
        match trySlots now settings existing session sessionDuration
                targetDateString availableSlots with
        | Some r => Some r
        | None => next
        end
  end.

Definition dayOffsets (n : nat) : list Z := map Z.of_nat (seq 0 (S n)).

Definition tryMoveSession (now : Instant) (settings : UserSettings)
    (fixedCommitments : list FixedCommitment) (h : Store)
    (updatedPlans : list Ref) (session : StudySession) (sessionDuration : Q)
  : option MoveResult :=
  tryDays now settings fixedCommitments h updatedPlans session sessionDuration
    (dayOffsets 14).

Record MoveState : Type := mkMoveState {
  st_store : Store;
  st_updatedPlans : list Ref;
  st_movedSessions : list StudySession;
  st_failedSessions : list StudySession
}.

Definition optZ_eqb (a b : option Z) : bool :=
  match a, b with
  | Some x, Some y => x =? y
  | None, None => true
  | _, _ => false
  end.

(** [l.splice(l.findIndex(pred), 1)] when the index is not -1. *)
Fixpoint removeFirst {A : Type} (pred : A -> bool) (l : list A) : list A :=
  match l with
  | [] => []
  | x :: l' => if pred x then l' else x :: removeFirst pred l'
  end.

Definition movedCopy (session : StudySession) (planDate : DateStr)
    (targetTime : TimeStr) (sessionDuration : Q) : StudySession :=
  let endTimeInMinutes :=
    minutesOf targetTime + Js.Math_round (sessionDuration * 60) in
  mkSession (taskId session) (scheduledTime session) targetTime
    (formatHM endTimeInMinutes) (allocatedHours session)
    (sessionNumber session) (isFlexible session) (isManualOverride session)
    (done session) (Some scheduled) (Some (startTime session))
    (Some planDate).

(** The body of the loop over the missed sessions of one task. *)
Definition moveOne (now : Instant) (settings : UserSettings)
    (fixedCommitments : list FixedCommitment) (st : MoveState)
    (e : MissedEntry) : MoveState :=
  let session := me_session e in
  let sessionDuration := allocatedHours session in
  match tryMoveSession now settings fixedCommitments (st_store st)
          (st_updatedPlans st) session sessionDuration with
  | Some moveResult =>
      let newSession :=
        movedCopy session (me_planDate e) (targetTime moveResult)
          sessionDuration in
      let '(h1, plans1, target) :=
        match findPlanRef (st_store st) (st_updatedPlans st)
                (targetDate moveResult) with
        | Some (r, _) => (st_store st, st_updatedPlans st, r)
        | None =>
            let r := List.length (st_store st) in
            (st_store st
               ++ [mkPlan (targetDate moveResult) (targetDate moveResult) []
                     0%Q (dailyAvailableHours settings) (Some false)],
             st_updatedPlans st ++ [r], r)
        end in
      let h2 :=
        modifyPlan h1 target (fun targetPlan =>
          withSessions targetPlan (plannedTasks targetPlan ++ [newSession])
            (Js.roundToMinute (totalStudyHours targetPlan + sessionDuration)))
      in
      let h3 :=
        match nth_error plans1 (me_planIndex e) with
        | Some r =>
            modifyPlan h2 r (fun originalPlan =>
              withSessions originalPlan
                (removeFirst (fun s =>
                                String.eqb (taskId s) (taskId session)
                                && optZ_eqb (sessionNumber s)
                                     (sessionNumber session))
                   (plannedTasks originalPlan))
                (totalStudyHours originalPlan))
        | None => h2
        end in
      mkMoveState h3 plans1 (st_movedSessions st ++ [newSession])
        (st_failedSessions st)
  | None =>
      mkMoveState (st_store st) (st_updatedPlans st) (st_movedSessions st)
        (st_failedSessions st ++ [session])
  end.

(** [for (const plan of plans) plan.plannedTasks = ...]: an update of each
    plan object in turn. *)
Definition forEachPlan (f : StudyPlan -> StudyPlan) (refs : list Ref)
    (h : Store) : Store :=
  fold_left (fun h r => modifyPlan h r f) refs h.

(** Enhanced session combination with validation, on the plan objects of
    an array. *)
Definition combineSessionsOnSameDayWithValidation (studyPlans : list Ref)
    (settings : UserSettings) (h : Store) : Store :=
  forEachPlan (combinePlanWithValidation settings) studyPlans h.

Definition isOrphaned (movedSessions : list StudySession) (plan : StudyPlan)
    (session : StudySession) : bool :=
  truthyTime (originalTime session)
  && truthyDate (originalDate session)
  && statusIs session scheduled
  && optZ_eqb (Some (date plan)) (originalDate session)
  && existsb (fun s =>
                String.eqb (taskId s) (taskId session)
                && optZ_eqb (sessionNumber s) (sessionNumber session)
                && optZ_eqb (originalDate s) (originalDate session))
       movedSessions.

Definition cleanupOrphanedSessions (movedSessions : list StudySession)
    (refs : list Ref) (h : Store) : Store :=
  forEachPlan (fun plan =>
    withSessions plan
      (filter (fun session => negb (isOrphaned movedSessions plan session))
         (plannedTasks plan))
      (totalStudyHours plan)) refs h.

Record MoveOutput : Type := mkOutput {
  updatedPlans : list Ref;
  movedSessions : list StudySession;
  failedSessions : list StudySession
}.

Definition moveMissedSessions (now : Instant) (h : Store)
    (studyPlans : list Ref) (settings : UserSettings)
    (fixedCommitments : list FixedCommitment) (tasks : list Task)
  : Store * MoveOutput :=
  let updatedPlans0 := studyPlans in
  let missedSessions :=
    Js.sort priorityLeb (findMissedFrom now tasks h 0 updatedPlans0) in
  let sessionsByTask :=
    fold_left (fun o e => pushGroup (taskId (me_session e)) e o)
      missedSessions [] in
  let st :=
    fold_left (fun st g =>
                 fold_left (moveOne now settings fixedCommitments)
                   (Js.sort priorityLeb (snd g)) st)
      (Js.entries sessionsByTask)
      (mkMoveState h updatedPlans0 [] []) in
  let h1 :=
    combineSessionsOnSameDayWithValidation (st_updatedPlans st) settings
      (st_store st) in
  let h2 :=
    cleanupOrphanedSessions (st_movedSessions st) (st_updatedPlans st) h1 in
  let hasConflicts :=
    validateStudyPlanConflicts now (deref h2 (st_updatedPlans st)) settings
      fixedCommitments in
  if hasConflicts then
    (h2, mkOutput studyPlans [] (map me_session missedSessions))
  else
    (h2, mkOutput (st_updatedPlans st) (st_movedSessions st)
           (st_failedSessions st)).

(** ** Pre-flight gate and feedback *)

Inductive Issue : Type :=
| NoMissedSessionsFound
| InsufficientAvailableTime (needed available : Q)
| NoAvailableWorkDays
| UrgentTasks (n : nat).

Record EdgeCaseCheck : Type := mkEdge {
  canRedistribute : bool;
  issues : list Issue;
  suggestions : list string
}.

Definition isMissedIn (now : Instant) (plan : StudyPlan)
    (session : StudySession) : bool :=
  SessionStatus_eqb (checkSessionStatus now session (date plan)) missed.

Definition countMissed (now : Instant) (studyPlans : list StudyPlan) : nat :=
  fold_left (fun count plan =>
               (count + List.length (filter (isMissedIn now plan)
                                       (plannedTasks plan)))%nat)
    studyPlans O.

Definition totalMissedHoursOf (now : Instant) (studyPlans : list StudyPlan)
  : Q :=
  fold_left (fun sum plan =>
               (sum + sumHours (filter (isMissedIn now plan)
                                  (plannedTasks plan)))%Q)
    studyPlans 0%Q.

(** The loop over the day offsets 0 to 7: total available hours and number
    of days with some. *)
Definition availabilityNextDays (now : Instant) (settings : UserSettings)
    (fixedCommitments : list FixedCommitment) : Q * nat :=
  fold_left (fun acc dayOffset =>
    let dt := addDays (dateOfString (getLocalDateString now)) dayOffset in
    if includes (workDays settings) (getDay dt) then
      let availableSlots :=
        getDailyAvailableTimeSlots dt (dailyAvailableHours settings)
          fixedCommitments (workDays settings)
          (Js.orElse (studyWindowStartHour settings) 6)
          (Js.orElse (studyWindowEndHour settings) 23) in
      let dayHours :=
        fold_left (fun sum slot =>
                     (sum + inject_Z (ts_end slot - ts_start slot)
                            / inject_Z HOUR_MS)%Q) availableSlots 0%Q in
      ((fst acc + dayHours)%Q,
       if Js.Qltb 0 dayHours then S (snd acc) else snd acc)
    else acc) (dayOffsets 7) (0%Q, O).

Definition daysUntilDeadlineOf (now : Instant) (task : Task) : Q :=
  (inject_Z (deadline task - now) / inject_Z DAY_MS)%Q.

Definition urgentTasksOf (now : Instant) (tasks : list Task) : list Task :=
  filter (fun task =>
            Js.Qltb 0 (daysUntilDeadlineOf now task)
            && Js.Qleb (daysUntilDeadlineOf now task) 1
            && isPending task) tasks.

Definition pastDeadlineTasksOf (now : Instant) (tasks : list Task)
  : list Task :=
  filter (fun task =>
            Js.Qltb (daysUntilDeadlineOf now task) 0 && isPending task) tasks.

Definition handleRedistributionEdgeCases (now : Instant)
    (studyPlans : list StudyPlan) (settings : UserSettings)
    (fixedCommitments : list FixedCommitment) (tasks : list Task)
  : EdgeCaseCheck :=
  let missedSessions := countMissed now studyPlans in
  if Nat.eqb missedSessions 0 then mkEdge false [NoMissedSessionsFound] []
  else
    let '(totalAvailableHours, availableDays) :=
      availabilityNextDays now settings fixedCommitments in
    let totalMissedHours := totalMissedHoursOf now studyPlans in
    let '(issues1, suggestions1) :=
      if Js.Qltb totalAvailableHours totalMissedHours
      then ([InsufficientAvailableTime totalMissedHours totalAvailableHours],
            ["Consider increasing daily available hours in settings";
             "Consider adjusting your study window hours";
             "Consider removing some fixed commitments"]%string)
      else ([], []) in
    let '(issues2, suggestions2) :=
      if Nat.eqb availableDays 0
      then (issues1 ++ [NoAvailableWorkDays],
            suggestions1 ++ ["Check your work days settings"%string])
      else (issues1, suggestions1) in
    let urgentTasks := urgentTasksOf now tasks in
    let '(issues3, suggestions3) :=
      match urgentTasks with
      | [] => (issues2, suggestions2)
      | _ => (issues2 ++ [UrgentTasks (List.length urgentTasks)],
              suggestions2
                ++ ["Consider extending deadlines for urgent tasks"%string])
      end in
    mkEdge (Nat.eqb (List.length issues3) 0) issues3 suggestions3.

Inductive FeedbackMessage : Type :=
| CannotRedistribute (reasons : list Issue)
| AllRedistributed (moved : nat)
| PartiallySuccessful (moved failed remaining : nat)
| NoneRedistributed (failed : nat)
| MissedRemain (remaining : nat)
| NothingToRedistribute.

Record Feedback : Type := mkFeedback {
  success : bool;
  message : FeedbackMessage;
  totalMissed : nat;
  successfullyMoved : nat;
  failedToMove : nat;
  remainingMissed : nat;
  conflictsDetected : bool;
  priorityOrderUsed : bool;
  fb_issues : list Issue;
  fb_suggestions : list string
}.

Definition countRemainingMissed (now : Instant) (plans : list StudyPlan)
  : nat :=
  fold_left (fun count plan =>
               Nat.add count
                 (List.length
                    (filter (fun session =>
                               isMissedIn now plan session
                               && (date plan <? getLocalDateString now))
                       (plannedTasks plan)))) plans O.

Definition redistributeMissedSessionsWithFeedback (now : Instant) (h : Store)
    (studyPlans : list Ref) (settings : UserSettings)
    (fixedCommitments : list FixedCommitment) (tasks : list Task)
  : Store * MoveOutput * Feedback :=
  let edgeCaseCheck :=
    handleRedistributionEdgeCases now (deref h studyPlans) settings
      fixedCommitments tasks in
  if negb (canRedistribute edgeCaseCheck) then
    (h, mkOutput studyPlans [] [],
     mkFeedback false (CannotRedistribute (issues edgeCaseCheck)) 0 0 0 0 true
       false (issues edgeCaseCheck) (suggestions edgeCaseCheck))
  else
    let '(h', result) :=
      moveMissedSessions now h studyPlans settings fixedCommitments tasks in
    let totalMissed := countMissed now (deref h' studyPlans) in
    let remainingMissedSessions :=
      countRemainingMissed now (deref h' (updatedPlans result)) in
    let moved := List.length (movedSessions result) in
    let failed := List.length (failedSessions result) in
    let message :=
      if Nat.ltb 0 moved && Nat.eqb failed 0
         && Nat.eqb remainingMissedSessions 0
      then AllRedistributed moved
      else if Nat.ltb 0 moved
              && (Nat.ltb 0 failed || Nat.ltb 0 remainingMissedSessions)
      then PartiallySuccessful moved failed remainingMissedSessions
      else if Nat.ltb 0 failed then NoneRedistributed failed
      else if Nat.ltb 0 remainingMissedSessions
      then MissedRemain remainingMissedSessions
      else NothingToRedistribute in
    (h', result,
     mkFeedback (Nat.ltb 0 moved) message totalMissed moved failed
       remainingMissedSessions (Nat.ltb 0 failed && Nat.eqb moved 0) true
       [] []).

(** ** Concrete inputs

    Friday 4 October 2024, ten in the morning, is the instant at which the
    examples run. *)

Module Scenario.

Definition today : DateStr := 20000.
Definition yesterday : DateStr := 19999.
Definition now : Instant := today * DAY_MS + 10 * HOUR_MS.
Definition everyDay : list Z := [0; 1; 2; 3; 4; 5; 6].

Definition session (tid : string) (st en : TimeStr) (hours : Q)
  : StudySession :=
  mkSession tid (yesterday, st) st en hours (Some 1) (Some true) None None
    (Some scheduled) None None.

Definition task (tid : string) (due : Instant) (important : bool) (hours : Q)
  : Task :=
  mkTask tid tid due important hours pending.

Definition settings (mode : StudyPlanMode) (daily : Q) (from to : Z)
  : UserSettings :=
  mkSettings daily everyDay 0 15 0 from to (Some mode).

(** A session that was moved from 14:00 on 24 September to 09:00 on the day
    before today, and was not worked on. *)
Definition movedIntoThePast : StudySession :=
  mkSession "math" (yesterday, HM 9 0) (HM 9 0) (HM 10 0) 1 (Some 1)
    (Some true) None None (Some scheduled) (Some (HM 14 0)) (Some 19990).

(** A day with a session from 08:00 to 17:00 and a commitment from 19:00 to
    20:00, in a study window from 8 to 18. *)
Definition longSession : StudySession :=
  session "thesis" (HM 8 0) (HM 17 0) 9.

Definition eveningClass : FixedCommitment :=
  mkCommitment "c1" "Evening class" (HM 19 0) (HM 20 0) true everyDay None
    None None.

(** A lecture from 09:00 to 10:00 that today takes place from 14:00 to
    15:00. *)
Definition movedLecture : FixedCommitment :=
  mkCommitment "c2" "Lecture" (HM 9 0) (HM 10 0) true everyDay None None
    (Some [(today, mkModified (Some (HM 14 0)) (Some (HM 15 0)))]).

(** Fourteen hours of work due in two days, eight hours a day. *)
Definition report : Task := task "report" ((today + 2) * DAY_MS) true 14.

(** Two hours of work due tomorrow. *)
Definition essay : Task := task "essay" ((today + 1) * DAY_MS) true 2.

(** Yesterday's plan holds a session that was not worked on; today's plan
    holds an hour of the project at 10:00 and an hour of reading at 14:00. *)
Definition missedReading : StudySession :=
  session "reading" (HM 9 0) (HM 10 0) 1.

Definition projectAtTen : StudySession :=
  session "project" (HM 10 0) (HM 11 0) 1.

Definition readingAtTwo : StudySession :=
  session "reading" (HM 14 0) (HM 15 0) 1.

Definition store : Store :=
  [ mkPlan yesterday yesterday [missedReading] 0 8 None;
    mkPlan today today [projectAtTen; readingAtTwo] 0 8 None ].

Definition storeTasks : list Task :=
  [ task "reading" ((today + 5) * DAY_MS) true 2;
    task "project" ((today + 5) * DAY_MS) false 1 ].

(** The same plan of yesterday alone, and a task due tonight at 20:00. *)
Definition smallStore : Store :=
  [ mkPlan yesterday yesterday [missedReading] 0 8 None ].

Definition dueTonight : Task :=
  task "reading" (today * DAY_MS + 20 * HOUR_MS) true 1.

(** A task due today. *)
Definition dueToday (tid : string) (important : bool) (hours : Q) : Task :=
  task tid (today * DAY_MS) important hours.

End Scenario.

(** * Vocabulary of the statements *)

(** [le a b] holds. *)
Definition holds {A : Type} (le : A -> A -> bool) (a b : A) : Prop :=
  le a b = true.

(** The order of array-index keys. *)
Definition idxLe {V : Type} (a b : string * V) : bool :=
  (Js.indexOf a <=? Js.indexOf b)%N.

(** A session that belongs to the group of task [k]. *)
Definition okFor (k : string) (s : StudySession) : Prop :=
  taskId s = k /\ statusIs s skipped = false.

Definition GroupOK (e : string * list StudySession) : Prop :=
  snd e <> [] /\ Forall (okFor (fst e)) (snd e).

(** Groups as [groupByTask] builds them: one per task, none empty. *)
Definition GroupsOK (o : list (string * list StudySession)) : Prop :=
  NoDup (map fst o) /\ Forall GroupOK o.

(** The body of the loop of [groupByTask]. *)
Definition groupStep (o : list (string * list StudySession))
    (s : StudySession) : list (string * list StudySession) :=
  if statusIs s skipped then o else pushGroup (taskId s) s o.

(** The combined sessions of a day, for a way [f] of merging one group. *)
Definition combineWith (f : list StudySession -> list StudySession)
    (l : list StudySession) : list StudySession :=
  flat_map (fun e => f (snd e)) (Js.entries (groupByTask l)).

Definition mergedGroups (f : list StudySession -> list StudySession)
    (l : list StudySession) : list (string * list StudySession) :=
  map (fun e => (fst e, f (snd e))) (Js.entries (groupByTask l)).

(** The comparator of [sortByStartTime]. *)
Definition startLeb (a b : StudySession) : bool :=
  timeLeb (startTime a) (startTime b).

(** [f] applied to the objects whose address is [touched]. *)
Fixpoint mapAt (f : StudyPlan -> StudyPlan) (touched : nat -> bool) (i : nat)
    (h : Store) : Store :=
  match h with
  | [] => []
  | p :: h' => (if touched i then f p else p) :: mapAt f touched (S i) h'
  end.

(** The sessions of a task in a plan that are not skipped, and their hours. *)
Definition liveSessionsOf (tid : string) (l : list StudySession)
  : list StudySession :=
  filter (fun s => String.eqb (taskId s) tid && negb (statusIs s skipped)) l.

Definition taskHours (tid : string) (plan : StudyPlan) : Q :=
  sumHours (liveSessionsOf tid (plannedTasks plan)).

Definition skippedSessionsOf (plan : StudyPlan) : list StudySession :=
  filter (fun session => statusIs session skipped) (plannedTasks plan).

(** The hours of a list of sessions, added from the right. *)
Definition sumQ (l : list StudySession) : Q :=
  fold_right (fun s acc => allocatedHours s + acc)%Q 0%Q l.

(** The hours a plan set gives to a task. *)
Definition allocatedTo (tid : string) (plans : list StudyPlan) : Q :=
  fold_right (fun plan acc => (taskHours tid plan + acc)%Q) 0%Q plans.

Definition hasSessionOf (tid : string) (plan : StudyPlan) : Prop :=
  exists s, In s (plannedTasks plan) /\ taskId s = tid.

(** A pending task whose deadline has passed. *)
Definition isPastDeadline (now : Instant) (task : Task) : bool :=
  Js.Qltb (daysUntilDeadlineOf now task) 0 && isPending task.

(** Hours that are a whole number of minutes. *)
Definition wholeMinutes (q : Q) : Prop :=
  exists k : Z, (q == inject_Z k / 60)%Q.

(** Linear arithmetic over hours, which are sixtieths of minutes. *)
Ltac hours_lra :=
  unfold Qdiv in *; change (/ 60)%Q with (1 # 60)%Q in *; lra.

(** The study window the generator passes to the slot finder. *)
Definition windowStart (settings : UserSettings) : Z :=
  Js.orElse (studyWindowStartHour settings) 6.

Definition windowEnd (settings : UserSettings) : Z :=
  Js.orElse (studyWindowEndHour settings) 23.

(** The session the Eisenhower pass creates. *)
Definition eisenhowerSession (task : Task) (d : DateStr) (slot : Slot)
    (allocated : Q) (number : Z) : StudySession :=
  mkSession (id task) (d, slot_start slot) (slot_start slot) (slot_end slot)
    allocated (Some number) (Some true) None None (Some scheduled) None None.

(** The state of the Eisenhower pass on two tasks while it works on the plan
    [cur]: the plans of the days before, the plans of the days to come, the
    hours left per day and the hours scheduled per task. *)
Definition focused (imp unimp : Task) (donePlans : list StudyPlan)
    (cur : StudyPlan) (later : list StudyPlan) (remaining : list (DateStr * Q))
    (si su : Q) : EisenState :=
  mkEisen (donePlans ++ cur :: later) remaining
    [(id imp, si); (id unimp, su)].

(** What the Eisenhower pass has for a task on the day [d] when the days
    before gave it [given] hours: nothing after the day of its deadline or on
    a day without hours, and otherwise all the day has or all the task still
    lacks, whichever is less. *)
Definition dayShare (settings : UserSettings) (task : Task) (given : Q)
    (d : DateStr) : Q :=
  if (d <=? deadlineDateStr settings task)
     && Js.Qltb 0 (dailyAvailableHours settings)
  then Qmin (estimatedHours task - given) (dailyAvailableHours settings)
  else 0%Q.

(** The hours [x] are the hours [y] to the minute: a whole number of minutes,
    within half a minute of [y]. *)
Definition toTheMinute (x y : Q) : Prop :=
  wholeMinutes x /\ (y - (1 # 120) <= x)%Q /\ (x <= y + (1 # 120))%Q.

(** The task is given its share of every day: each plan holds for it, to the
    minute, what [dayShare] says, given the hours of the plans before. *)
Definition givenDailyShare (settings : UserSettings) (task : Task)
    (plans : list StudyPlan) : Prop :=
  forall pre p post,
    plans = pre ++ p :: post ->
    toTheMinute (taskHours (id task) p)
      (dayShare settings task (allocatedTo (id task) pre) (date p)).

(** What a day of the pass leaves: the plan of the day, the hours it gave to
    each task, the important task served first and given its share. *)
Definition dayOutcome (settings : UserSettings) (imp unimp : Task)
    (donePlans later : list StudyPlan)
    (d : DateStr) (remaining : list (DateStr * Q)) (si su : Q)
    (st' : EisenState) : Prop :=
  exists p remaining' si' su',
    st' = focused imp unimp donePlans p later remaining' si' su'
    /\ date p = d
    /\ (forall d', d' <> d ->
        Js.get Z.eqb remaining' d' = Js.get Z.eqb remaining d')
    /\ (si' == si + taskHours (id imp) p)%Q
    /\ (su' == su + taskHours (id unimp) p)%Q
    /\ wholeMinutes si' /\ wholeMinutes su'
    /\ (si' <= estimatedHours imp)%Q
    /\ (hasSessionOf (id unimp) p -> (si' == estimatedHours imp)%Q)
    /\ toTheMinute (taskHours (id imp) p) (dayShare settings imp si d).

(** The important task comes first: a plan that holds a session of the
    unimportant task is reached only when the plans up to it, that plan
    included, give the important task all its hours. *)
Definition servedFirst (imp unimp : Task) (plans : list StudyPlan) : Prop :=
  forall pre p post,
    plans = pre ++ p :: post ->
    hasSessionOf (id unimp) p ->
    (allocatedTo (id imp) (pre ++ [p]) == estimatedHours imp)%Q.

(** The suggestion for the shortfall of a task. *)
Definition shortfallSuggestion (task : Task) (unscheduled : Q) : Suggestion :=
  mkSuggestion (title task) (Js.Math_round (unscheduled * 60))
    (Some (importance task)) (Some (deadline task)).

(** An entry of the suggestions that reports the shortfall of a task: it
    bears the title, the importance and the deadline of the task, and the
    shortfall to the nearest minute. *)
Definition reportsShortfall (task : Task) (unscheduled : Q) (s : Suggestion)
  : Prop :=
  taskTitle s = title task
  /\ sug_importance s = Some (importance task)
  /\ sug_deadline s = Some (deadline task)
  /\ (inject_Z (unscheduledMinutes s) - (1 # 2) <= unscheduled * 60)%Q
  /\ (unscheduled * 60 <= inject_Z (unscheduledMinutes s) + (1 # 2))%Q.

(** What the slot finder looks for. *)

(** The minutes [c, c + len) run into a busy interval. *)
Definition overlaps (c len : Z) (iv : Interval) : Prop :=
  c < i_end iv /\ i_start iv < c + len.

(** A start that is free: not before [from], over no busy interval, and the
    buffer after every busy interval that starts before it. *)
Definition freeStart (buffer from len : Z) (busy : list Interval) (c : Z)
  : Prop :=
  from <= c
  /\ (forall iv, In iv busy -> ~ overlaps c len iv)
  /\ (forall iv, In iv busy -> i_start iv < c -> i_end iv + buffer <= c).

(** * The rest of the engine: display, suggestions, reschedules, conflicts *)

(** ** Display of durations *)

(** [`${n}`] for an integer [n]. *)
Definition showZ (n : Z) : string := NilZero.string_of_int (Z.to_int n).

Definition formatTime (hours : Q) : string :=
  let totalMinutes := Js.Math_round (hours * 60) in
  let h := totalMinutes / 60 in
  let m := Z.rem totalMinutes 60 in
  if 0 <? h then (showZ h ++ "h " ++ showZ m ++ "m")%string
  else (showZ m ++ "m")%string.

Definition formatTimeForTimer (seconds : Q) : string :=
  let totalSeconds := Z.max 0 (Js.Math_round seconds) in
  let h := totalSeconds / 3600 in
  let m := Z.rem totalSeconds 3600 / 60 in
  let minutes :=
    if 0 <? m then (" " ++ showZ m ++ "m")%string else EmptyString in
  if 0 <? h then (showZ h ++ "h" ++ minutes)%string
  else (showZ m ++ "m")%string.

(** ** Smart suggestions *)

Inductive SuggestionType : Type := warning | suggestion | celebration.

Record SmartSuggestion : Type := mkSmart {
  sm_type : SuggestionType;
  sm_message : string;
  sm_action : string
}.

(** [Math.ceil((deadline.getTime() - now.getTime()) / (1000 * 60 * 60 * 24))] *)
Definition daysLeft (now : Instant) (task : Task) : Z :=
  Js.Math_ceil (daysUntilDeadlineOf now task).

Definition isCompleted (t : Task) : bool :=
  match task_status t with task_completed => true | _ => false end.

(** [`${l.length}`] *)
Definition showLength {A : Type} (l : list A) : string :=
  showZ (Z.of_nat (List.length l)).

Definition overdueWarning (n : string) : SmartSuggestion :=
  mkSmart warning
    ("You have " ++ n
       ++ " overdue task(s). Consider extending deadlines or increasing"
       ++ " study hours.")
    "Review and update deadlines for overdue tasks.".

Definition urgentImportantWarning (n : string) : SmartSuggestion :=
  mkSmart warning
    ("You have " ++ n ++ " important task(s) due within 3 days.")
    "Focus on these tasks first to avoid last-minute stress.".

Definition urgentNotImportantWarning (n : string) : SmartSuggestion :=
  mkSmart warning
    ("You have " ++ n
       ++ " urgent but not important task(s) due soon. These may not fit in"
       ++ " your schedule.")
    ("Consider increasing your daily hour limit, delegating, or rescheduling"
       ++ " these tasks.").

Definition unscheduledLowPriorityWarning : SmartSuggestion :=
  mkSmart warning
    ("Some low-priority tasks with urgent deadlines could not be scheduled"
       ++ " because higher-priority urgent tasks are taking precedence.")
    ("Consider increasing your daily available hours, rescheduling, or"
       ++ " marking some tasks as more important.").

Definition importantNotUrgentSuggestion (n : string) : SmartSuggestion :=
  mkSmart suggestion
    ("You have " ++ n
       ++ " important task(s) with more than 3 days until deadline.")
    "Schedule time for these now to avoid last-minute stress.".

Definition notImportantNotUrgentSuggestion (n : string) : SmartSuggestion :=
  mkSmart suggestion
    ("You have " ++ n ++ " task(s) that are neither urgent nor important.")
    "Do these only if you have extra time, or consider dropping them.".

Definition completedCelebration (n : string) : SmartSuggestion :=
  mkSmart celebration
    ("Great job! You've completed " ++ n ++ " task(s).")
    "Keep up the momentum!".

(** [if (l.length > 0) suggestions.push(mk(l.length))] *)
Definition pushIfAny {A : Type} (l : list A) (mk : string -> SmartSuggestion)
  : list SmartSuggestion :=
  match l with
  | [] => []
  | _ :: _ => [mk (showLength l)]
  end.

Definition generateSmartSuggestions (now : Instant) (tasks : list Task)
    (unscheduledTasks : option (list Task)) : list SmartSuggestion :=
  let overdueTasks :=
    filter (fun task => (deadline task <? now) && isPending task) tasks in
  let urgentTasks :=
    filter (fun task => (daysLeft now task <=? 3) && isPending task) tasks in
  let urgentImportant := filter (fun task => importance task) urgentTasks in
  let urgentNotImportant :=
    filter (fun task => negb (importance task)) urgentTasks in
  let unscheduledUrgentLowPriority :=
    match unscheduledTasks with
    | Some l =>
        filter (fun task =>
                  (daysLeft now task <=? 3) && negb (importance task)
                  && isPending task) l
    | None => []
    end in
  let importantNotUrgent :=
    filter (fun task =>
              (3 <? daysLeft now task) && importance task && isPending task)
      tasks in
  let notImportantNotUrgent :=
    filter (fun task =>
              (3 <? daysLeft now task) && negb (importance task)
              && isPending task) tasks in
  let completedTasks := filter isCompleted tasks in
  pushIfAny overdueTasks overdueWarning
    ++ pushIfAny urgentImportant urgentImportantWarning
    ++ pushIfAny urgentNotImportant urgentNotImportantWarning
    ++ pushIfAny unscheduledUrgentLowPriority
         (fun _ => unscheduledLowPriorityWarning)
    ++ pushIfAny importantNotUrgent importantNotUrgentSuggestion
    ++ pushIfAny notImportantNotUrgent notImportantNotUrgentSuggestion
    ++ pushIfAny completedTasks completedCelebration.

(** ** Next start time *)

(** The function returns a [Date] on every path, never [null]. *)
Definition findNextAvailableStartTime (startTime0 : Instant)
    (durationMinutes : Q) (existingSessions : list StudySession)
    (dt : Instant) (settings : UserSettings) : Instant :=
  let studyWindowStart :=
    setHour dt (Js.orElse (studyWindowStartHour settings) 6) in
  let studyWindowEnd :=
    setHour dt (Js.orElse (studyWindowEndHour settings) 23) in
  let proposedEndTime :=
    truncMs (inject_Z startTime0 + durationMinutes * 60 * 1000) in
  let startTime' :=
    fold_left (fun st session =>
      let sessionStart := setHoursOf dt (startTime session) in
      let sessionEnd := setHoursOf dt (endTime session) in
      if instLt (Some st) sessionEnd
         && instLt sessionStart (Some proposedEndTime)
      then match sessionEnd with Some e => e | None => st end
      else st) existingSessions startTime0 in
  if (studyWindowStart <=? startTime') && (startTime' <=? studyWindowEnd) then
    let endTime' :=
      truncMs (inject_Z startTime' + durationMinutes * 60 * 1000) in
    if endTime' <=? studyWindowEnd then startTime' else studyWindowStart
  else studyWindowStart.

(** ** Moving one session *)

Record IndividualMove : Type := mkIndividualMove {
  im_updatedPlans : list Ref;
  im_success : bool;
  newTime : option TimeStr;
  newDate : option DateStr
}.

Definition moveIndividualSession (now : Instant) (h : Store)
    (studyPlans : list Ref) (session : StudySession)
    (originalPlanDate : DateStr) (settings : UserSettings)
    (fixedCommitments : list FixedCommitment) : Store * IndividualMove :=
  let updatedPlans := studyPlans in
  let today := getLocalDateString now in
  let failure := (h, mkIndividualMove updatedPlans false None None) in
  match findPlanRef h updatedPlans today with
  | Some (r, _) =>
      if includes (workDays settings) (getDay now) then
        let availableSlots :=
          getDailyAvailableTimeSlots (dateOfString today)
            (dailyAvailableHours settings) fixedCommitments
            (workDays settings)
            (Js.orElse (studyWindowStartHour settings) 6)
            (Js.orElse (studyWindowEndHour settings) 23) in
        match availableSlots with
        | slot :: _ =>
            let endTime' :=
              truncMs (inject_Z (ts_start slot)
                       + allocatedHours session * 60 * 60 * 1000) in
            let newSession :=
              mkSession (taskId session) (scheduledTime session)
                (clockOf (ts_start slot)) (clockOf endTime')
                (allocatedHours session) (sessionNumber session)
                (isFlexible session) (isManualOverride session)
                (done session) (Some scheduled) (Some (startTime session))
                (Some originalPlanDate) in
            (modifyPlan h r (fun todayPlan =>
               withSessions todayPlan (plannedTasks todayPlan ++ [newSession])
                 (totalStudyHours todayPlan)),
             mkIndividualMove updatedPlans true (Some (startTime newSession))
               (Some today))
        | [] => failure
        end
      else failure
  | None => failure
  end.

(** ** User reschedules

    The dates of a reschedule are strings that may be empty ([None]); its
    [rescheduledAt] stamp is kept as the instant it denotes. *)

Inductive RescheduleStatus : Type := active | obsolete.

Record UserReschedule : Type := mkReschedule {
  r_id : string;
  originalSessionId : string;
  originalPlanDate : option DateStr;
  originalStartTime : TimeStr;
  originalEndTime : TimeStr;
  newPlanDate : option DateStr;
  newStartTime : TimeStr;
  newEndTime : TimeStr;
  rescheduledAt : Instant;
  r_status : RescheduleStatus;
  r_taskId : string;
  r_sessionNumber : option Z
}.

(** [updatedPlans.find(p => p.date === d)] for a date string that may be
    empty. *)
Definition findPlanOn (h : Store) (refs : list Ref) (d : option DateStr)
  : option (Ref * StudyPlan) :=
  match d with
  | Some d' => findPlanRef h refs d'
  | None => None
  end.

Record RescheduleState : Type := mkRescheduleState {
  rs_store : Store;
  validReschedules : list UserReschedule;
  obsoleteReschedules : list UserReschedule
}.

(** The copy of the original session that is pushed on the target plan. *)
Definition rescheduledCopy (originalSession : StudySession)
    (reschedule : UserReschedule) : StudySession :=
  mkSession (taskId originalSession) (scheduledTime originalSession)
    (newStartTime reschedule) (newEndTime reschedule)
    (allocatedHours originalSession) (sessionNumber originalSession)
    (isFlexible originalSession) (isManualOverride originalSession)
    (done originalSession) (Some rescheduled)
    (Some (originalStartTime reschedule)) (originalPlanDate reschedule).

(** The body of the loop of [applyUserReschedules]. *)
Definition applyOne (updatedPlans : list Ref) (st : RescheduleState)
    (reschedule : UserReschedule) : RescheduleState :=
  let originalSession :=
    match findPlanOn (rs_store st) updatedPlans (originalPlanDate reschedule)
    with
    | Some (_, originalPlan) =>
        find (fun s =>
                String.eqb (taskId s) (r_taskId reschedule)
                && optZ_eqb (sessionNumber s) (r_sessionNumber reschedule))
          (plannedTasks originalPlan)
    | None => None
    end in
  match originalSession with
  | None =>
      mkRescheduleState (rs_store st) (validReschedules st)
        (obsoleteReschedules st ++ [reschedule])
  | Some originalSession =>
      match findPlanOn (rs_store st) updatedPlans (newPlanDate reschedule) with
      | Some (r, _) =>
          mkRescheduleState
            (modifyPlan (rs_store st) r (fun targetPlan =>
               withSessions targetPlan
                 (plannedTasks targetPlan
                    ++ [rescheduledCopy originalSession reschedule])
                 (totalStudyHours targetPlan)))
            (validReschedules st ++ [reschedule])
            (obsoleteReschedules st)
      | None => st
      end
  end.

Definition applyUserReschedules (h : Store) (studyPlans : list Ref)
    (userReschedules : list UserReschedule)
  : list Ref * RescheduleState :=
  let updatedPlans := studyPlans in
  (updatedPlans,
   fold_left (applyOne updatedPlans) userReschedules
     (mkRescheduleState h [] [])).

(** [Date.now()] is [now]. *)
Definition createUserReschedule (now : Instant) (session : StudySession)
    (originalDate newDate : option DateStr)
    (newStartTime' newEndTime' : TimeStr) : UserReschedule :=
  mkReschedule (showZ now)
    (taskId session ++ "-"
       ++ match sessionNumber session with
          | Some n => showZ n
          | None => "undefined"
          end)
    originalDate (startTime session) (endTime session) newDate newStartTime'
    newEndTime' now active (taskId session)
    (Some (match sessionNumber session with
           | Some n => Js.orElse n 0
           | None => 0
           end)).

Definition validateUserReschedules (userReschedules : list UserReschedule)
  : list UserReschedule * list UserReschedule :=
  fold_left (fun acc reschedule =>
    if truthyDate (originalPlanDate reschedule)
       && truthyDate (newPlanDate reschedule)
       && hasTime (newStartTime reschedule)
       && hasTime (newEndTime reschedule)
    then (fst acc ++ [reschedule], snd acc)
    else (fst acc, snd acc ++ [reschedule])) userReschedules ([], []).

(** ** Conflicts between commitments *)

Record NewCommitment : Type := mkNewCommitment {
  n_startTime : TimeStr;
  n_endTime : TimeStr;
  n_recurring : bool;
  n_daysOfWeek : list Z;
  n_specificDates : option (list DateStr)
}.

(** A stored commitment passed where a new one is expected. *)
Definition asNewCommitment (c : FixedCommitment) : NewCommitment :=
  mkNewCommitment (c_startTime c) (c_endTime c) (recurring c) (daysOfWeek c)
    (specificDates c).

Inductive ConflictType : Type := strict | override.

Record ConflictCheck : Type := mkConflictCheck {
  hasConflict : bool;
  conflictingCommitment : option FixedCommitment;
  conflictType : option ConflictType;
  conflictingDates : option (list DateStr)
}.

(** [hours * 60 + minutes]: not a number for the empty string. *)
Definition timeToMinutes (timeStr : TimeStr) : option Z :=
  match timeStr with
  | NoTime => None
  | HM hours minutes => Some (hours * 60 + minutes)
  end.

(** [!(newEnd <= existingStart || newStart >= existingEnd)]; a comparison
    with not-a-number is false. *)
Definition hasTimeOverlap (newCommitment : NewCommitment)
    (existing : FixedCommitment) : bool :=
  negb (instLe (timeToMinutes (n_endTime newCommitment))
          (timeToMinutes (c_startTime existing))
        || instLe (timeToMinutes (c_endTime existing))
             (timeToMinutes (n_startTime newCommitment))).

(** The body of the loop: the conflict with one existing commitment, with
    its type and dates. *)
Definition conflictWith (newCommitment : NewCommitment)
    (existing : FixedCommitment) : option (ConflictType * list DateStr) :=
  if n_recurring newCommitment && recurring existing then
    if existsb (fun day => includes (daysOfWeek existing) day)
         (n_daysOfWeek newCommitment)
    then if hasTimeOverlap newCommitment existing then Some (strict, [])
         else None
    else None
  else if negb (n_recurring newCommitment) && negb (recurring existing) then
    let common :=
      match n_specificDates newCommitment with
      | Some dates =>
          filter (fun d => optIncludes (specificDates existing) d) dates
      | None => []
      end in
    let hasOverlappingDates :=
      match n_specificDates newCommitment with
      | Some dates =>
          existsb (fun d => optIncludes (specificDates existing) d) dates
      | None => false
      end in
    if hasOverlappingDates
    then if hasTimeOverlap newCommitment existing then Some (strict, common)
         else None
    else None
  else if n_recurring newCommitment && negb (recurring existing) then
    let overlappingDates :=
      match specificDates existing with
      | Some dates =>
          filter (fun d =>
                    includes (n_daysOfWeek newCommitment)
                      (getDay (dateOfString d))) dates
      | None => []
      end in
    match overlappingDates with
    | [] => None
    | _ :: _ =>
        if hasTimeOverlap newCommitment existing
        then Some (override, overlappingDates) else None
    end
  else
    let overlappingDates :=
      match n_specificDates newCommitment with
      | Some dates =>
          filter (fun d =>
                    includes (daysOfWeek existing) (getDay (dateOfString d)))
            dates
      | None => []
      end in
    match overlappingDates with
    | [] => None
    | _ :: _ =>
        if hasTimeOverlap newCommitment existing
        then Some (override, overlappingDates) else None
    end.

(** [excludeCommitmentId && existing.id === excludeCommitmentId] *)
Definition isExcluded (excludeCommitmentId : option string)
    (existing : FixedCommitment) : bool :=
  match excludeCommitmentId with
  | Some x =>
      negb (String.eqb x "") && String.eqb (commitment_id existing) x
  | None => false
  end.

Fixpoint checkCommitmentConflicts (newCommitment : NewCommitment)
    (existingCommitments : list FixedCommitment)
    (excludeCommitmentId : option string) : ConflictCheck :=
  match existingCommitments with
  | [] => mkConflictCheck false None None None
  | existing :: rest =>
      if isExcluded excludeCommitmentId existing
      then checkCommitmentConflicts newCommitment rest excludeCommitmentId
      else
        match conflictWith newCommitment existing with
        | Some (type, dates) =>
            mkConflictCheck true (Some existing) (Some type) (Some dates)
        | None =>
            checkCommitmentConflicts newCommitment rest excludeCommitmentId
        end
  end.

(** ** Redistribution after a task is deleted

    The helpers the function declares for itself are, word for word, those
    of [generateNewStudyPlan]; so are the computation of the available days,
    the loop that allocates each task and the assignment of time slots. *)

(** [dailyRemainingHours[plan.date] -= session.allocatedHours] for the
    regular sessions of the existing plans that fall on an available day. *)
Definition accountForExisting (now : Instant) (availableDays : list DateStr)
    (existingStudyPlans : list StudyPlan)
    (dailyRemainingHours : list (DateStr * Q)) : list (DateStr * Q) :=
  fold_left (fun o plan =>
    if includes availableDays (date plan) then
      fold_left (fun o session =>
        if negb (statusIs session skipped)
           && negb (isMissedOrRedistributedSession now session (date plan))
        then Js.set Z.eqb o (date plan)
               (match Js.get Z.eqb o (date plan) with
                | Some q => q | None => 0%Q end - allocatedHours session)%Q
        else o) (plannedTasks plan) o
    else o) existingStudyPlans dailyRemainingHours.

(** One pass of the global redistribution: the state after the pass, and
    whether any task got more hours. *)
Definition redistributionPass (settings : UserSettings)
    (availableDays : list DateStr) (taskScheduledHours : list (string * Q))
    (tasks : list Task) (st : GenState) : GenState * bool :=
  fold_left (fun acc task =>
    let unscheduledHours :=
      (estimatedHours task - scheduledOr0 taskScheduledHours (id task))%Q in
    if Js.Qleb unscheduledHours 0 then acc
    else
      let '(st', finalUnscheduledHours) :=
        redistributeUnscheduledHours settings task unscheduledHours
          (daysUpTo availableDays (deadlineDateStr settings task)) (fst acc) in
      (st', snd acc || Js.Qltb finalUnscheduledHours unscheduledHours))
    tasks (st, false).

(** The [while] loop over the passes; [passes] is what is left of
    [maxRedistributionPasses]. *)
Fixpoint redistributionPasses (settings : UserSettings)
    (availableDays : list DateStr) (tasksEven : list Task) (passes : nat)
    (st : GenState) : GenState :=
  match passes with
  | O => st
  | S passes' =>
      let taskScheduledHours := scheduledHoursByTask (studyPlans st) in
      let tasksWithUnscheduledHours :=
        filter (fun task =>
                  Js.Qltb (16 # 1000)
                    (estimatedHours task
                     - scheduledOr0 taskScheduledHours (id task)))
          tasksEven in
      match tasksWithUnscheduledHours with
      | [] => st
      | _ :: _ =>
          let '(st', redistributedThisPass) :=
            redistributionPass settings availableDays taskScheduledHours
              (Js.sort taskLeb tasksWithUnscheduledHours) st in
          if negb redistributedThisPass then st'
          else redistributionPasses settings availableDays tasksEven passes'
                 (withPlans st' (combineSessionsOnSameDay (studyPlans st')))
      end
  end.

Definition redistributeAfterTaskDeletion (now : Instant) (tasks : list Task)
    (settings : UserSettings) (fixedCommitments : list FixedCommitment)
    (existingStudyPlans : list StudyPlan) : list StudyPlan :=
  match studyPlanMode settings with
  | Some even =>
      let tasksEven := schedulable tasks in
      let availableDays := computeAvailableDays now settings tasksEven in
      let st0 :=
        mkGen (map (emptyPlan settings) availableDays)
          (accountForExisting now availableDays existingStudyPlans
             (fold_left (fun o d =>
                           Js.set Z.eqb o d (dailyAvailableHours settings))
                availableDays [])) in
      let st1 :=
        fold_left (allocateTaskEven settings availableDays) tasksEven st0 in
      let st2 := withPlans st1 (combineSessionsOnSameDay (studyPlans st1)) in
      let st3 := redistributionPasses settings availableDays tasksEven 3 st2 in
      map (placePlan settings tasksEven fixedCommitments) (studyPlans st3)
  | _ => fst (generateNewStudyPlan now tasks settings fixedCommitments [])
  end.

(** * Vocabulary of the further statements *)

(** A session that carries the time and the date it was moved from. *)
Definition isRedistributed (session : StudySession) : bool :=
  truthyTime (originalTime session) && truthyDate (originalDate session).

(** A session that is neither done, nor completed, nor skipped. *)
Definition isOpen (session : StudySession) : bool :=
  negb (isTrue (done session)) && negb (statusIs session completed)
  && negb (statusIs session skipped).

(** The sum of a list of session lengths. *)
Definition sumOf (l : list Q) : Q := fold_right Qplus 0%Q l.

(** The task ids of the sessions of a plan that are not skipped. *)
Definition liveTaskIds (plan : StudyPlan) : list string :=
  map taskId (filterSkippedSessions (plannedTasks plan)).

(** The milliseconds a list of time slots covers. *)
Definition slotMs (slots : list TimeSlot) : Z :=
  fold_right (fun slot acc => ts_end slot - ts_start slot + acc) 0 slots.

(** A time of the day of [dt] that falls on a whole minute. *)
Definition onTheMinute (dt t : Instant) : Prop :=
  exists k, t = startOfDay dt + k * MINUTE_MS.

(** What the loop of [getDailyAvailableTimeSlots] keeps true: the slots are
    not empty, they cover the minutes that are counted as used, and no more
    minutes are used than the day has. *)
Definition slotsInv (dt : Instant) (totalAvailableMinutes : Q)
    (slots : list TimeSlot) (currentTime : option Instant) (usedMinutes : Q)
  : Prop :=
  Forall (fun slot => ts_start slot < ts_end slot) slots
  /\ (exists u, (usedMinutes == inject_Z u)%Q
                /\ slotMs slots = u * MINUTE_MS)
  /\ (usedMinutes <= totalAvailableMinutes)%Q
  /\ (forall c, currentTime = Some c -> onTheMinute dt c).

(** A session that was moved: it is scheduled again and remembers the date
    it was missed on. *)
Definition movedMark (s : StudySession) : Prop :=
  status s = Some scheduled /\ truthyDate (originalDate s) = true.

(** The sessions the engine has reported so far, moved or failed. *)
Definition reported (st : MoveState) : nat :=
  (List.length (st_movedSessions st) + List.length (st_failedSessions st))%nat.

(** The dates a list that may be missing holds. *)
Definition datesOf (l : option (list DateStr)) : list DateStr :=
  match l with Some dates => dates | None => [] end.

(** The time [a] is at or before the time [b]; it is not when one of the two
    is not a time of day. *)
Definition atOrBefore (a b : TimeStr) : Prop :=
  match a, b with
  | HM h1 m1, HM h2 m2 => h1 * 60 + m1 <= h2 * 60 + m2
  | _, _ => False
  end.

(** Neither commitment is over when the other starts. *)
Definition timesOverlap (newCommitment : NewCommitment)
    (existing : FixedCommitment) : Prop :=
  ~ atOrBefore (n_endTime newCommitment) (c_startTime existing)
  /\ ~ atOrBefore (c_endTime existing) (n_startTime newCommitment).

(** The two commitments are of the same kind: both weekly, or both
    one-time. *)
Definition sameKind (newCommitment : NewCommitment)
    (existing : FixedCommitment) : bool :=
  Bool.eqb (n_recurring newCommitment) (recurring existing).

(** Two commitments of the same kind share a day: a weekday of the week for
    weekly ones, a date for one-time ones. *)
Definition commonDay (newCommitment : NewCommitment)
    (existing : FixedCommitment) : Prop :=
  if n_recurring newCommitment
  then exists day,
         In day (n_daysOfWeek newCommitment) /\ In day (daysOfWeek existing)
  else exists d,
         In d (datesOf (n_specificDates newCommitment))
         /\ In d (datesOf (specificDates existing)).

(** Two commitments of the same kind that share a day and a time. *)
Definition clashes (newCommitment : NewCommitment)
    (existing : FixedCommitment) : Prop :=
  sameKind newCommitment existing = true
  /\ commonDay newCommitment existing
  /\ timesOverlap newCommitment existing.

(** A commitment the check may pass over: it is excluded, or it does not
    clash with the new one. *)
Definition letThrough (newCommitment : NewCommitment)
    (excludeCommitmentId : option string) (existing : FixedCommitment)
  : Prop :=
  isExcluded excludeCommitmentId existing = true
  \/ ~ clashes newCommitment existing.

(** The dates reported with a conflict: none for two weekly commitments, the
    dates they have in common for two one-time commitments, and some dates
    of the one-time commitment when the other is weekly. *)
Definition reportedDates (newCommitment : NewCommitment)
    (existing : FixedCommitment) (dates : list DateStr) : Prop :=
  match n_recurring newCommitment, recurring existing with
  | true, true => dates = []
  | false, false =>
      dates <> []
      /\ forall d,
           In d dates
           <-> In d (datesOf (n_specificDates newCommitment))
               /\ In d (datesOf (specificDates existing))
  | true, false =>
      dates <> [] /\ incl dates (datesOf (specificDates existing))
  | false, true =>
      dates <> [] /\ incl dates (datesOf (n_specificDates newCommitment))
  end.

(** A reschedule that [validateUserReschedules] keeps: both dates and both
    new times are there. *)
Definition isComplete (reschedule : UserReschedule) : bool :=
  truthyDate (originalPlanDate reschedule)
  && truthyDate (newPlanDate reschedule)
  && hasTime (newStartTime reschedule)
  && hasTime (newEndTime reschedule).

(** The plan [plan] with the sessions [added] pushed on it. *)
Definition withAdded (plan : StudyPlan) (added : list StudySession)
  : StudyPlan :=
  withSessions plan (plannedTasks plan ++ added) (totalStudyHours plan).

(** The store [h'] holds the plans of [h], each with sessions that satisfy
    [mark] pushed on it and nothing else changed. *)
Definition grownBy (mark : StudySession -> Prop) (h h' : Store) : Prop :=
  List.length h' = List.length h
  /\ forall r plan,
       readPlan h r = Some plan ->
       exists added,
         readPlan h' r = Some (withAdded plan added) /\ Forall mark added.

(** The number of sessions the plans of a store hold. *)
Definition sessionCount (h : Store) : nat :=
  fold_right (fun plan acc => (List.length (plannedTasks plan) + acc)%nat)
    O h.

(** The test by which [applyUserReschedules] looks for the session of a
    reschedule. *)
Definition sameSession (tid : string) (number : option Z) (s : StudySession)
  : bool :=
  String.eqb (taskId s) tid && optZ_eqb (sessionNumber s) number.

(** A task that is being worked on: neither pending nor completed. *)
Definition isInProgress (t : Task) : bool :=
  match task_status t with task_in_progress => true | _ => false end.

(** The suggestions report [n] tasks under the heading [mk]: the entry with
    that count is there, or no entry of that heading when [n] is zero.  The
    headings differ in their advice. *)
Definition reportsCount (mk : string -> SmartSuggestion)
    (suggestions : list SmartSuggestion) (n : nat) : Prop :=
  match n with
  | O =>
      forall s, In s suggestions -> sm_action s <> sm_action (mk EmptyString)
  | S _ => In (mk (showZ (Z.of_nat n))) suggestions
  end.

(** The pending tasks of a quadrant of the Eisenhower matrix. *)
Definition quadrant (now : Instant) (urgent important : bool)
    (tasks : list Task) : list Task :=
  filter (fun task =>
            Bool.eqb (daysLeft now task <=? 3) urgent
            && Bool.eqb (importance task) important
            && isPending task) tasks.

(** The length of a time slot, in hours. *)
Definition slotHours (slot : TimeSlot) : Q :=
  (inject_Z (ts_end slot - ts_start slot) / inject_Z HOUR_MS)%Q.

(** A session the generator makes: a flexible, scheduled session of a
    pending task that has hours, not done, not edited by hand and not moved
    from anywhere. *)
Definition freshSession (tasks : list Task) (s : StudySession) : Prop :=
  (exists task,
      In task tasks /\ isPending task = true
      /\ (0 < estimatedHours task)%Q /\ taskId s = id task)
  /\ status s = Some scheduled /\ done s = None
  /\ isFlexible s = Some true /\ isManualOverride s = None
  /\ originalTime s = None /\ originalDate s = None.

(** A plan that holds fresh sessions only. *)
Definition freshPlan (tasks : list Task) (plan : StudyPlan) : Prop :=
  Forall (freshSession tasks) (plannedTasks plan).

(** A plan whose sessions and remaining hours make up the daily hours: the
    hours the day has left are a whole number of minutes, not negative, and
    together with the hours of the sessions they are the daily hours; the
    total of the plan is the hours of its sessions. *)
Definition withinCapacity (daily : Q) (remaining : list (DateStr * Q))
    (plan : StudyPlan) : Prop :=
  exists rem,
    Js.get Z.eqb remaining (date plan) = Some rem
    /\ wholeMinutes rem /\ (0 <= rem)%Q
    /\ (sumQ (plannedTasks plan) + rem == daily)%Q
    /\ (totalStudyHours plan == sumQ (plannedTasks plan))%Q.

(** [dailyRemainingHours[date]], zero when the date is no key. *)
Definition remainingAt (remaining : list (DateStr * Q)) (d : DateStr) : Q :=
  match Js.get Z.eqb remaining d with Some q => q | None => 0%Q end.

(** * Properties *)

(** ** The stable sort *)

Section SortFacts.
Context {A : Type} (le : A -> A -> bool).

Lemma insert_perm (x : A) (l : list A) :
  Permutation (Js.insert le x l) (x :: l).
Proof.
  induction l as [|y l IH]; simpl.
  - reflexivity.
  - destruct (le x y).
    + reflexivity.
    + rewrite IH. apply perm_swap.
Qed.

Lemma sort_perm (l : list A) : Permutation (Js.sort le l) l.
Proof.
  induction l as [|x l IH]; simpl.
  - constructor.
  - rewrite insert_perm. now constructor.
Qed.

Lemma sort_In (l : list A) (x : A) : In x (Js.sort le l) <-> In x l.
Proof.
  split; apply Permutation_in;
    [apply sort_perm | apply Permutation_sym, sort_perm].
Qed.

Lemma sort_length (l : list A) : List.length (Js.sort le l) = List.length l.
Proof. apply Permutation_length, sort_perm. Qed.

(** A list that is already in order is left as it is. *)
Lemma sort_sorted_id (l : list A) : Sorted (holds le) l -> Js.sort le l = l.
Proof.
  induction 1 as [|x l Hs IH Hd]; simpl.
  - reflexivity.
  - rewrite IH. destruct Hd as [|y l' Hxy]; simpl.
    + reflexivity.
    + now rewrite Hxy.
Qed.

Hypothesis le_total : forall a b, le a b = false -> le b a = true.

Lemma insert_sorted (x : A) (l : list A) :
  Sorted (holds le) l -> Sorted (holds le) (Js.insert le x l).
Proof.
  induction 1 as [|y l Hs IH Hd]; simpl.
  - repeat constructor.
  - destruct (le x y) eqn:Hxy.
    + constructor; [now constructor | now constructor].
    + constructor; [exact IH|].
      destruct Hd as [|z l' Hyz]; simpl.
      * constructor. now apply le_total.
      * destruct (le x z); constructor; [now apply le_total | exact Hyz].
Qed.

Lemma sort_sorted (l : list A) : Sorted (holds le) (Js.sort le l).
Proof.
  induction l as [|x l IH]; simpl.
  - constructor.
  - now apply insert_sorted.
Qed.

Lemma sort_idempotent (l : list A) :
  Js.sort le (Js.sort le l) = Js.sort le l.
Proof. apply sort_sorted_id, sort_sorted. Qed.

End SortFacts.

Lemma sort_map {A B : Type} (leA : A -> A -> bool) (leB : B -> B -> bool)
    (g : A -> B) (l : list A) :
  (forall a b, leB (g a) (g b) = leA a b) ->
  Js.sort leB (map g l) = map g (Js.sort leA l).
Proof.
  intros Hg. induction l as [|x l IH]; simpl; [reflexivity|].
  rewrite IH. generalize (Js.sort leA l). intros s.
  induction s as [|y s IHs]; simpl; [reflexivity|].
  rewrite Hg. destruct (leA x y); simpl; [reflexivity | now rewrite IHs].
Qed.

(** ** Enumeration order of an object's keys *)

Section EntriesFacts.
Context {V : Type}.

Lemma idxLe_total (a b : string * V) :
  idxLe a b = false -> idxLe b a = true.
Proof. unfold idxLe. rewrite N.leb_gt, N.leb_le. lia. Qed.

Lemma filter_partition_perm {A : Type} (p : A -> bool) (l : list A) :
  Permutation (filter p l ++ filter (fun x => negb (p x)) l) l.
Proof.
  induction l as [|x l IH]; simpl; [constructor|].
  destruct (p x); simpl.
  - now constructor.
  - rewrite <- Permutation_middle. now constructor.
Qed.

Lemma entries_perm (o : list (string * V)) : Permutation (Js.entries o) o.
Proof.
  unfold Js.entries. rewrite sort_perm. apply filter_partition_perm.
Qed.

Lemma entries_In (o : list (string * V)) (e : string * V) :
  In e (Js.entries o) <-> In e o.
Proof.
  split; apply Permutation_in;
    [apply entries_perm | apply Permutation_sym, entries_perm].
Qed.

Lemma filter_all {A : Type} (p : A -> bool) (l : list A) :
  (forall x, In x l -> p x = true) -> filter p l = l.
Proof.
  induction l as [|x l IH]; simpl; intros H; [reflexivity|].
  rewrite (H x (or_introl eq_refl)). f_equal. apply IH. auto.
Qed.

Lemma filter_none {A : Type} (p : A -> bool) (l : list A) :
  (forall x, In x l -> p x = false) -> filter p l = [].
Proof.
  induction l as [|x l IH]; simpl; intros H; [reflexivity|].
  rewrite (H x (or_introl eq_refl)). apply IH. auto.
Qed.

(** Enumerating twice gives the order of the first enumeration. *)
Lemma entries_idempotent (o : list (string * V)) :
  Js.entries (Js.entries o) = Js.entries o.
Proof.
  set (ix := Js.sort idxLe (filter Js.isIndexKey o)).
  set (rest := filter (fun e => negb (Js.isIndexKey e)) o).
  assert (Hix : forall x, In x ix -> Js.isIndexKey x = true).
  { intros x Hx. apply sort_In in Hx. now apply filter_In in Hx. }
  assert (Hrest : forall x, In x rest -> Js.isIndexKey x = false).
  { intros x Hx. apply filter_In in Hx. destruct Hx as [_ Hx].
    now apply negb_true_iff in Hx. }
  change (Js.entries o) with (ix ++ rest).
  unfold Js.entries. rewrite !filter_app.
  rewrite (filter_all Js.isIndexKey ix Hix).
  rewrite (filter_none Js.isIndexKey rest Hrest), app_nil_r.
  rewrite (filter_none (fun e => negb (Js.isIndexKey e)) ix).
  - rewrite (filter_all (fun e => negb (Js.isIndexKey e)) rest).
    + simpl. f_equal. apply (sort_idempotent idxLe), idxLe_total.
    + intros x Hx. now rewrite (Hrest x Hx).
  - intros x Hx. now rewrite (Hix x Hx).
Qed.

End EntriesFacts.

Lemma filter_map_comm {A B : Type} (p : B -> bool) (g : A -> B) (l : list A) :
  filter p (map g l) = map g (filter (fun x => p (g x)) l).
Proof.
  induction l as [|x l IH]; simpl; [reflexivity|].
  destruct (p (g x)); simpl; now rewrite IH.
Qed.

(** The order depends on the keys only. *)
Lemma entries_map_values {V W : Type} (g : V -> W) (o : list (string * V)) :
  Js.entries (map (fun e => (fst e, g (snd e))) o)
  = map (fun e => (fst e, g (snd e))) (Js.entries o).
Proof.
  unfold Js.entries. rewrite map_app, !filter_map_comm. f_equal.
  apply sort_map. reflexivity.
Qed.

(** ** Grouping the sessions of a day by task *)

Lemma groupByTask_fold (l : list StudySession) :
  groupByTask l = fold_left groupStep l [].
Proof. reflexivity. Qed.

Lemma pushGroup_new {A : Type} (k : string) (s : A)
    (o : list (string * list A)) :
  ~ In k (map fst o) -> pushGroup k s o = o ++ [(k, [s])].
Proof.
  induction o as [|[k' g] o IH]; simpl; intros Hk; [reflexivity|].
  destruct (String.eqb_spec k k') as [->|Hne].
  - exfalso. apply Hk. now left.
  - rewrite IH; [reflexivity|]. intros Hin. apply Hk. now right.
Qed.

Lemma pushGroup_last {A : Type} (k : string) (s : A) (g : list A)
    (o : list (string * list A)) :
  ~ In k (map fst o) ->
  pushGroup k s (o ++ [(k, g)]) = o ++ [(k, g ++ [s])].
Proof.
  induction o as [|[k' g'] o IH]; simpl; intros Hk.
  - now rewrite String.eqb_refl.
  - destruct (String.eqb_spec k k') as [->|Hne].
    + exfalso. apply Hk. now left.
    + rewrite IH; [reflexivity|]. intros Hin. apply Hk. now right.
Qed.

Lemma pushGroup_keys {A : Type} (k : string) (s : A)
    (o : list (string * list A)) :
  In k (map fst o) -> map fst (pushGroup k s o) = map fst o.
Proof.
  induction o as [|[k' g] o IH]; simpl; intros Hk; [contradiction|].
  destruct (String.eqb_spec k k') as [->|Hne]; simpl; [reflexivity|].
  f_equal. apply IH. destruct Hk as [Hk|Hk]; [congruence | exact Hk].
Qed.

Lemma pushGroup_flat {A : Type} (k : string) (s : A)
    (o : list (string * list A)) :
  Permutation (flat_map snd (pushGroup k s o)) (flat_map snd o ++ [s]).
Proof.
  induction o as [|[k' g] o IH]; simpl.
  - reflexivity.
  - destruct (String.eqb k k'); simpl.
    + rewrite <- !app_assoc. apply Permutation_app_head.
      apply Permutation_app_comm.
    + rewrite IH. now rewrite app_assoc.
Qed.

Lemma pushGroup_ok (s : StudySession)
    (o : list (string * list StudySession)) :
  statusIs s skipped = false ->
  Forall GroupOK o -> Forall GroupOK (pushGroup (taskId s) s o).
Proof.
  intros Hs. induction 1 as [|[k' g] o Hg Ho IH]; simpl.
  - constructor; [|constructor]. split; simpl.
    + discriminate.
    + constructor; [now split | constructor].
  - destruct (String.eqb_spec (taskId s) k') as [He|Hne].
    + constructor; [|exact Ho]. destruct Hg as [_ Hg]. split; simpl in *.
      * now destruct g.
      * apply Forall_app. split; [exact Hg|]. constructor; [now split|].
        constructor.
    + constructor; [exact Hg | exact IH].
Qed.

Lemma NoDup_snoc {A : Type} (l : list A) (x : A) :
  NoDup l -> ~ In x l -> NoDup (l ++ [x]).
Proof.
  intros Hl Hx. apply (Permutation_NoDup (l := x :: l)).
  - apply Permutation_cons_append.
  - now constructor.
Qed.

Lemma groupStep_ok (o : list (string * list StudySession)) (s : StudySession) :
  GroupsOK o -> GroupsOK (groupStep o s).
Proof.
  intros [Hnd Hok]. unfold groupStep.
  destruct (statusIs s skipped) eqn:Hs; [now split|].
  split; [|now apply pushGroup_ok].
  destruct (in_dec string_dec (taskId s) (map fst o)) as [Hin|Hnin].
  - now rewrite pushGroup_keys.
  - rewrite pushGroup_new by exact Hnin. rewrite map_app. simpl.
    now apply NoDup_snoc.
Qed.

Lemma groupStep_kept (o : list (string * list StudySession))
    (s : StudySession) :
  statusIs s skipped = false -> groupStep o s = pushGroup (taskId s) s o.
Proof. intros Hs. unfold groupStep. now rewrite Hs. Qed.

Lemma groupStep_skipped (o : list (string * list StudySession))
    (s : StudySession) :
  statusIs s skipped = true -> groupStep o s = o.
Proof. intros Hs. unfold groupStep. now rewrite Hs. Qed.

Lemma fold_groupStep_ok (l : list StudySession)
    (o : list (string * list StudySession)) :
  GroupsOK o -> GroupsOK (fold_left groupStep l o).
Proof.
  revert o. induction l as [|s l IH]; simpl; intros o Ho; [exact Ho|].
  apply IH. now apply groupStep_ok.
Qed.

Lemma groupByTask_ok (l : list StudySession) : GroupsOK (groupByTask l).
Proof.
  rewrite groupByTask_fold. apply fold_groupStep_ok.
  split; constructor.
Qed.

(** The groups hold the sessions that are not skipped, each exactly once. *)
Lemma groupByTask_perm (l : list StudySession) :
  Permutation (flat_map snd (groupByTask l)) (filterSkippedSessions l).
Proof.
  rewrite groupByTask_fold.
  assert (H : forall o,
             Permutation (flat_map snd (fold_left groupStep l o))
               (flat_map snd o ++ filterSkippedSessions l)).
  { induction l as [|s l IH]; simpl; intros o.
    - now rewrite app_nil_r.
    - rewrite IH. unfold groupStep.
      destruct (statusIs s skipped); simpl; [reflexivity|].
      rewrite pushGroup_flat. now rewrite <- app_assoc. }
  apply (H []).
Qed.

(** Sessions of one group, fed to the grouping after the groups before
    them, rebuild that group. *)
Lemma fold_groupStep_group (k : string) (g2 g1 : list StudySession)
    (o : list (string * list StudySession)) :
  ~ In k (map fst o) -> Forall (okFor k) g2 ->
  fold_left groupStep g2 (o ++ [(k, g1)]) = o ++ [(k, g1 ++ g2)].
Proof.
  intros Hk. revert g1. induction g2 as [|s g2 IH]; simpl; intros g1 Hg.
  - now rewrite app_nil_r.
  - inversion Hg as [|? ? [Hid Hs] Hg']; subst.
    rewrite groupStep_kept, pushGroup_last by assumption.
    rewrite IH by exact Hg'. now rewrite <- app_assoc.
Qed.

Lemma fold_groupStep_groups (G o : list (string * list StudySession)) :
  NoDup (map fst (o ++ G)) -> Forall GroupOK G ->
  fold_left groupStep (flat_map snd G) o = o ++ G.
Proof.
  revert o. induction G as [|[k g] G IH]; simpl; intros o Hnd HG.
  - now rewrite app_nil_r.
  - inversion HG as [|? ? [Hne Hg] HG']; subst. simpl in *.
    rewrite fold_left_app.
    assert (Hk : ~ In k (map fst o)).
    { rewrite map_app in Hnd. simpl in Hnd.
      apply NoDup_remove_2 in Hnd. intros Hin. apply Hnd.
      apply in_or_app. now left. }
    destruct g as [|s g]; [contradiction|]. simpl.
    inversion Hg as [|? ? [Hid Hs] Hg']; subst.
    rewrite groupStep_kept, pushGroup_new by assumption.
    rewrite fold_groupStep_group by assumption. simpl.
    rewrite IH.
    + now rewrite <- app_assoc.
    + now rewrite <- app_assoc.
    + exact HG'.
Qed.

Lemma fold_groupStep_skipped (S : list StudySession)
    (o : list (string * list StudySession)) :
  Forall (fun s => statusIs s skipped = true) S ->
  fold_left groupStep S o = o.
Proof.
  induction 1 as [|s S Hs HS IH]; simpl; [reflexivity|].
  now rewrite groupStep_skipped.
Qed.

(** Regrouping the sessions of well-formed groups, followed by skipped
    sessions, gives the groups back. *)
Lemma groupByTask_groups (G : list (string * list StudySession))
    (S : list StudySession) :
  GroupsOK G -> Forall (fun s => statusIs s skipped = true) S ->
  groupByTask (flat_map snd G ++ S) = G.
Proof.
  intros [Hnd HG] HS. rewrite groupByTask_fold, fold_left_app.
  rewrite fold_groupStep_groups by assumption. simpl.
  now apply fold_groupStep_skipped.
Qed.

(** ** The combination pass, for any way of merging one group *)

Section CombineFacts.
Variable f : list StudySession -> list StudySession.
Hypothesis f_nonempty : forall g, g <> [] -> f g <> [].
Hypothesis f_member : forall k g, Forall (okFor k) g -> Forall (okFor k) (f g).
Hypothesis f_idempotent : forall g, f (f g) = f g.

Lemma combineWith_groups (l : list StudySession) :
  combineWith f l = flat_map snd (mergedGroups f l).
Proof.
  unfold combineWith, mergedGroups.
  induction (Js.entries (groupByTask l)) as [|e E IH]; simpl;
    [reflexivity | now rewrite IH].
Qed.

Lemma mergedGroups_ok (l : list StudySession) : GroupsOK (mergedGroups f l).
Proof.
  destruct (groupByTask_ok l) as [Hnd HG]. unfold mergedGroups. split.
  - rewrite map_map. simpl.
    apply (Permutation_NoDup (l := map fst (groupByTask l))); [|exact Hnd].
    apply Permutation_map, Permutation_sym, entries_perm.
  - apply Forall_forall. intros e He. apply in_map_iff in He.
    destruct He as [e0 [<- He0]]. apply (proj1 (entries_In _ _)) in He0.
    rewrite Forall_forall in HG. destruct (HG e0 He0) as [Hne Hok].
    split; simpl; [now apply f_nonempty | now apply f_member].
Qed.

Lemma mergedGroups_entries (l : list StudySession) :
  Js.entries (mergedGroups f l) = mergedGroups f l.
Proof.
  unfold mergedGroups. rewrite entries_map_values.
  now rewrite entries_idempotent.
Qed.

Lemma combineWith_nonskipped (l : list StudySession) :
  Forall (fun s => statusIs s skipped = false) (combineWith f l).
Proof.
  rewrite combineWith_groups. destruct (mergedGroups_ok l) as [_ HG].
  induction HG as [|e G [_ He] HG IH]; simpl; [constructor|].
  apply Forall_app. split; [|exact IH].
  eapply Forall_impl; [|exact He]. now intros s [_ Hs].
Qed.

(** Combining what a first combination produced, with skipped sessions after
    it, changes nothing. *)
Lemma combineWith_idempotent (l S : list StudySession) :
  Forall (fun s => statusIs s skipped = true) S ->
  combineWith f (combineWith f l ++ S) = combineWith f l.
Proof.
  intros HS. unfold combineWith at 1.
  rewrite combineWith_groups.
  rewrite groupByTask_groups by (apply mergedGroups_ok || exact HS).
  rewrite mergedGroups_entries. unfold combineWith, mergedGroups.
  induction (Js.entries (groupByTask l)) as [|e E IH]; simpl;
    [reflexivity | now rewrite IH, f_idempotent].
Qed.

End CombineFacts.

(** ** Merging one group *)

Lemma startLeb_total (a b : StudySession) :
  startLeb a b = false -> startLeb b a = true.
Proof.
  unfold startLeb, timeLeb.
  destruct (startTime a) as [|h1 m1], (startTime b) as [|h2 m2];
    try (intros; reflexivity || discriminate).
  rewrite orb_false_iff, andb_false_iff, Z.ltb_ge, Z.eqb_neq, Z.leb_gt.
  intros [H1 H2]. apply orb_true_iff.
  rewrite andb_true_iff, Z.ltb_lt, Z.eqb_eq, Z.leb_le. lia.
Qed.

Lemma sortByStartTime_idempotent (l : list StudySession) :
  sortByStartTime (sortByStartTime l) = sortByStartTime l.
Proof. apply (sort_idempotent startLeb), startLeb_total. Qed.

Lemma sortByStartTime_two (a b : StudySession) (l : list StudySession) :
  exists x y l', sortByStartTime (a :: b :: l) = x :: y :: l'.
Proof.
  pose proof (sort_length startLeb (a :: b :: l)) as Hlen.
  change (Js.sort startLeb (a :: b :: l))
    with (sortByStartTime (a :: b :: l)) in Hlen.
  destruct (sortByStartTime (a :: b :: l)) as [|x [|y l']];
    try discriminate.
  now exists x, y, l'.
Qed.

Lemma sortByStartTime_In (l : list StudySession) (s : StudySession) :
  In s (sortByStartTime l) <-> In s l.
Proof. apply (sort_In startLeb). Qed.

Lemma okFor_combined (k : string) (a b : StudySession) (total : Q) :
  okFor k a -> okFor k (combinedSession a b total).
Proof. intros [Hid Hs]. now split. Qed.

Lemma okFor_sorted (k : string) (g : list StudySession) :
  Forall (okFor k) g -> Forall (okFor k) (sortByStartTime g).
Proof.
  rewrite !Forall_forall. intros H s Hs. apply H.
  now apply sortByStartTime_In.
Qed.

Lemma combineGroup_nonempty (g : list StudySession) :
  g <> [] -> combineGroup g <> [].
Proof.
  destruct g as [|a [|b l]]; [contradiction | discriminate |].
  intros _. unfold combineGroup.
  destruct (sortByStartTime_two a b l) as [x [y [l' ->]]]. discriminate.
Qed.

Lemma combineGroup_member (k : string) (g : list StudySession) :
  Forall (okFor k) g -> Forall (okFor k) (combineGroup g).
Proof.
  intros Hg. destruct g as [|a [|b l]]; [constructor | exact Hg |].
  apply okFor_sorted in Hg. unfold combineGroup.
  destruct (sortByStartTime (a :: b :: l)) as [|x s]; [constructor|].
  constructor; [|constructor]. apply okFor_combined.
  now inversion Hg.
Qed.

Lemma combineGroup_idempotent (g : list StudySession) :
  combineGroup (combineGroup g) = combineGroup g.
Proof.
  destruct g as [|a [|b l]]; try reflexivity.
  unfold combineGroup.
  now destruct (sortByStartTime (a :: b :: l)).
Qed.

Lemma combineGroupWithValidation_nonempty (settings : UserSettings)
    (g : list StudySession) :
  g <> [] -> combineGroupWithValidation settings g <> [].
Proof.
  destruct g as [|a [|b l]]; [contradiction | discriminate |].
  intros _. unfold combineGroupWithValidation.
  destruct (sortByStartTime_two a b l) as [x [y [l' ->]]].
  destruct (_ && _); discriminate.
Qed.

Lemma combineGroupWithValidation_member (settings : UserSettings) (k : string)
    (g : list StudySession) :
  Forall (okFor k) g ->
  Forall (okFor k) (combineGroupWithValidation settings g).
Proof.
  intros Hg. destruct g as [|a [|b l]]; [constructor | exact Hg |].
  apply okFor_sorted in Hg. unfold combineGroupWithValidation.
  destruct (_ && _); [|exact Hg].
  destruct (sortByStartTime (a :: b :: l)) as [|x s]; [constructor|].
  constructor; [|constructor]. apply okFor_combined.
  now inversion Hg.
Qed.

Lemma combineGroupWithValidation_idempotent (settings : UserSettings)
    (g : list StudySession) :
  combineGroupWithValidation settings (combineGroupWithValidation settings g)
  = combineGroupWithValidation settings g.
Proof.
  destruct g as [|a [|b l]]; try reflexivity.
  pose proof (sortByStartTime_idempotent (a :: b :: l)) as Hidem.
  destruct (sortByStartTime_two a b l) as [x [y [l' Hs]]].
  assert (Hg : combineGroupWithValidation settings (a :: b :: l)
               = if Js.Qleb (minSessionHours settings)
                      (sumHours (x :: y :: l'))
                    && Js.Qleb (sumHours (x :: y :: l'))
                         (maxSessionHours settings)
                 then [combinedSession x (last (x :: y :: l') x)
                         (sumHours (x :: y :: l'))]
                 else x :: y :: l').
  { unfold combineGroupWithValidation. now rewrite Hs. }
  rewrite Hg.
  destruct (Js.Qleb (minSessionHours settings) (sumHours (x :: y :: l'))
            && Js.Qleb (sumHours (x :: y :: l')) (maxSessionHours settings))
    eqn:Hc; [reflexivity|].
  rewrite Hs in Hidem.
  unfold combineGroupWithValidation. now rewrite Hidem, Hc.
Qed.

(** ** Idempotence of the combination passes *)

Lemma filter_skipped_idempotent (l : list StudySession) :
  Forall (fun s => statusIs s skipped = true)
    (filter (fun session => statusIs session skipped) l).
Proof.
  apply Forall_forall. intros s Hs. now apply filter_In in Hs.
Qed.

Lemma combinePlan_sessions (plan : StudyPlan) :
  plannedTasks (combinePlan plan)
  = combineWith combineGroup (plannedTasks plan)
      ++ filter (fun session => statusIs session skipped) (plannedTasks plan).
Proof. reflexivity. Qed.

Lemma combinePlan_idempotent (plan : StudyPlan) :
  combinePlan (combinePlan plan) = combinePlan plan.
Proof.
  set (S := filter (fun session => statusIs session skipped)
              (plannedTasks plan)).
  assert (HS : Forall (fun s => statusIs s skipped = true) S)
    by apply filter_skipped_idempotent.
  assert (Hl : plannedTasks (combinePlan (combinePlan plan))
               = plannedTasks (combinePlan plan)).
  { rewrite (combinePlan_sessions (combinePlan plan)).
    rewrite (combinePlan_sessions plan). fold S.
    rewrite combineWith_idempotent;
      [| apply combineGroup_nonempty | apply combineGroup_member
       | apply combineGroup_idempotent | exact HS ].
    f_equal. rewrite filter_app.
    rewrite filter_none.
    - simpl. apply filter_all. now rewrite Forall_forall in HS.
    - apply Forall_forall.
      apply (combineWith_nonskipped combineGroup);
        [apply combineGroup_nonempty | apply combineGroup_member]. }
  unfold combinePlan at 1. fold (combineWith combineGroup
                                   (plannedTasks (combinePlan plan))).
  change (combineWith combineGroup (plannedTasks (combinePlan plan))
            ++ filter (fun session => statusIs session skipped)
                 (plannedTasks (combinePlan plan)))
    with (plannedTasks (combinePlan (combinePlan plan))).
  rewrite Hl. reflexivity.
Qed.

Lemma combinePlanWithValidation_idempotent (settings : UserSettings)
    (plan : StudyPlan) :
  combinePlanWithValidation settings (combinePlanWithValidation settings plan)
  = combinePlanWithValidation settings plan.
Proof.
  assert (Hl : combineWith (combineGroupWithValidation settings)
                 (plannedTasks (combinePlanWithValidation settings plan))
               = plannedTasks (combinePlanWithValidation settings plan)).
  { change (plannedTasks (combinePlanWithValidation settings plan))
      with (combineWith (combineGroupWithValidation settings)
              (plannedTasks plan)).
    rewrite <- (app_nil_r (combineWith _ (plannedTasks plan))) at 1.
    apply combineWith_idempotent;
      [ apply combineGroupWithValidation_nonempty
      | apply combineGroupWithValidation_member
      | apply combineGroupWithValidation_idempotent | constructor ]. }
  unfold combinePlanWithValidation at 1.
  fold (combineWith (combineGroupWithValidation settings)
          (plannedTasks (combinePlanWithValidation settings plan))).
  rewrite Hl. reflexivity.
Qed.

(** ** Updating plan objects in place *)

Section StoreFacts.
Variable f : StudyPlan -> StudyPlan.

Lemma mapAt_ext (t1 t2 : nat -> bool) (i : nat) (h : Store) :
  (forall j, t1 j = t2 j) -> mapAt f t1 i h = mapAt f t2 i h.
Proof.
  intros Ht. revert i. induction h as [|p h IH]; simpl; intros i;
    [reflexivity | now rewrite Ht, IH].
Qed.

Lemma mapAt_untouched (t : nat -> bool) (i : nat) (h : Store) :
  (forall j, (i <= j)%nat -> t j = false) -> mapAt f t i h = h.
Proof.
  revert i. induction h as [|p h IH]; simpl; intros i Ht; [reflexivity|].
  rewrite Ht by lia. f_equal. apply IH. intros j Hj. apply Ht. lia.
Qed.

Lemma modifyPlan_mapAt (h : Store) (r i : nat) :
  modifyPlan h r f = mapAt f (fun j => Nat.eqb j (r + i)) i h.
Proof.
  unfold modifyPlan, readPlan. revert r i.
  induction h as [|p h IH]; intros r i; simpl.
  - now destruct r.
  - destruct r as [|r]; simpl.
    + rewrite Nat.eqb_refl. f_equal. symmetry. apply mapAt_untouched.
      intros j Hj. apply Nat.eqb_neq. lia.
    + replace (Nat.eqb i (S (r + i))) with false
        by (symmetry; apply Nat.eqb_neq; lia).
      specialize (IH r (S i)).
      replace (r + S i)%nat with (S (r + i)) in IH by lia.
      rewrite <- IH. now destruct (nth_error h r).
Qed.

Hypothesis f_idempotent : forall p, f (f p) = f p.

Lemma mapAt_twice (t1 t2 : nat -> bool) (i : nat) (h : Store) :
  mapAt f t1 i (mapAt f t2 i h) = mapAt f (fun j => t1 j || t2 j) i h.
Proof.
  revert i. induction h as [|p h IH]; simpl; intros i; [reflexivity|].
  rewrite IH. f_equal.
  destruct (t1 i), (t2 i); simpl; auto.
Qed.

Lemma forEachPlan_mapAt (refs : list Ref) (h : Store) :
  forEachPlan f refs h = mapAt f (fun j => existsb (Nat.eqb j) refs) 0 h.
Proof.
  unfold forEachPlan. revert h.
  induction refs as [|r refs IH]; simpl; intros h.
  - symmetry. now apply mapAt_untouched.
  - rewrite IH, (modifyPlan_mapAt h r 0), mapAt_twice.
    apply mapAt_ext. intros j. rewrite Nat.add_0_r. apply orb_comm.
Qed.

(** Running an idempotent update over the same array twice is running it
    once, whether or not two entries of the array are one object. *)
Lemma forEachPlan_idempotent (refs : list Ref) (h : Store) :
  forEachPlan f refs (forEachPlan f refs h) = forEachPlan f refs h.
Proof.
  rewrite !forEachPlan_mapAt, mapAt_twice. apply mapAt_ext.
  intros j. apply orb_diag.
Qed.

End StoreFacts.

(** C9.  The session-combination pass is idempotent.  Applying
    [combineSessionsOnSameDay] twice to a plan set gives exactly the plan set
    that applying it once gives: the same sessions with the same fields in the
    same order, and the same [totalStudyHours].  The same holds for the
    validated pass of the redistribution engine, which updates the plan
    objects of an array in place: running it a second time leaves every
    object as the first run left it. *)
Theorem combine_passes_idempotent (studyPlans : list StudyPlan)
    (refs : list Ref) (h : Store) (settings : UserSettings) :
  combineSessionsOnSameDay (combineSessionsOnSameDay studyPlans)
  = combineSessionsOnSameDay studyPlans
  /\ combineSessionsOnSameDayWithValidation refs settings
       (combineSessionsOnSameDayWithValidation refs settings h)
     = combineSessionsOnSameDayWithValidation refs settings h.
Proof.
  split.
  - unfold combineSessionsOnSameDay. rewrite map_map.
    apply map_ext. apply combinePlan_idempotent.
  - unfold combineSessionsOnSameDayWithValidation.
    apply forEachPlan_idempotent.
    apply combinePlanWithValidation_idempotent.
Qed.

(** ** Hours of a task in a plan *)

Lemma sumHours_from (l : list StudySession) (acc : Q) :
  (fold_left (fun sum session => sum + allocatedHours session) l acc
   == acc + sumQ l)%Q.
Proof.
  revert acc. induction l as [|s l IH]; simpl; intros acc.
  - ring.
  - rewrite IH. ring.
Qed.

Lemma sumHours_sumQ (l : list StudySession) : (sumHours l == sumQ l)%Q.
Proof. unfold sumHours. rewrite sumHours_from. ring. Qed.

Lemma sumQ_app (l1 l2 : list StudySession) :
  (sumQ (l1 ++ l2) == sumQ l1 + sumQ l2)%Q.
Proof.
  induction l1 as [|s l1 IH]; simpl.
  - ring.
  - rewrite IH. ring.
Qed.

Lemma sumQ_perm (l1 l2 : list StudySession) :
  Permutation l1 l2 -> (sumQ l1 == sumQ l2)%Q.
Proof.
  induction 1 as [| s l1 l2 _ IH | s1 s2 l | l1 l2 l3 _ IH1 _ IH2]; simpl.
  - reflexivity.
  - now rewrite IH.
  - ring.
  - now rewrite IH1.
Qed.

Lemma filter_perm {A : Type} (p : A -> bool) (l1 l2 : list A) :
  Permutation l1 l2 -> Permutation (filter p l1) (filter p l2).
Proof.
  induction 1 as [| x l1 l2 _ IH | x y l | l1 l2 l3 _ IH1 _ IH2]; simpl.
  - constructor.
  - destruct (p x); [now constructor | exact IH].
  - destruct (p x), (p y); try reflexivity. apply perm_swap.
  - now transitivity (filter p l2).
Qed.

Lemma filter_implied {A : Type} (p q : A -> bool) (l : list A) :
  (forall x, p x = true -> q x = true) ->
  filter p (filter q l) = filter p l.
Proof.
  intros Hpq. induction l as [|x l IH]; simpl; [reflexivity|].
  destruct (q x) eqn:Hq; simpl.
  - now rewrite IH.
  - destruct (p x) eqn:Hp; [|exact IH].
    rewrite (Hpq x Hp) in Hq. discriminate.
Qed.

Lemma liveSessionsOf_own (k : string) (g : list StudySession) :
  Forall (okFor k) g -> liveSessionsOf k g = g.
Proof.
  intros Hg. apply filter_all. rewrite Forall_forall in Hg.
  intros s Hs. destruct (Hg s Hs) as [-> Hsk].
  now rewrite String.eqb_refl, Hsk.
Qed.

Lemma liveSessionsOf_other (k tid : string) (g : list StudySession) :
  k <> tid -> Forall (okFor k) g -> liveSessionsOf tid g = [].
Proof.
  intros Hk Hg. apply filter_none. rewrite Forall_forall in Hg.
  intros s Hs. destruct (Hg s Hs) as [Hid _].
  apply andb_false_iff. left. apply String.eqb_neq. congruence.
Qed.

(** Merging a group keeps its hours. *)
Lemma combineGroup_hours (g : list StudySession) :
  (sumQ (combineGroup g) == sumQ g)%Q.
Proof.
  destruct g as [|a [|b l]]; try reflexivity.
  unfold combineGroup.
  pose proof (sort_perm startLeb (a :: b :: l)) as Hp.
  change (Js.sort startLeb (a :: b :: l))
    with (sortByStartTime (a :: b :: l)) in Hp.
  destruct (sortByStartTime_two a b l) as [x [y [l' Hs]]].
  rewrite Hs in *. rewrite <- (sumQ_perm _ _ Hp).
  cbn [sumQ fold_right combinedSession allocatedHours].
  rewrite sumHours_sumQ. cbn [sumQ fold_right]. ring.
Qed.

Lemma combineWith_hours (tid : string) (E : list (string * list StudySession)) :
  Forall GroupOK E ->
  (sumQ (liveSessionsOf tid (flat_map (fun e => combineGroup (snd e)) E))
   == sumQ (liveSessionsOf tid (flat_map snd E)))%Q.
Proof.
  induction 1 as [|[k g] E [_ Hg] HE IH]; simpl in *; [reflexivity|].
  unfold liveSessionsOf in *. rewrite !filter_app, !sumQ_app, IH.
  apply Qplus_inj_r.
  pose proof (combineGroup_member k g Hg) as Hc.
  destruct (string_dec k tid) as [<-|Hne].
  - fold (liveSessionsOf k (combineGroup g)). fold (liveSessionsOf k g).
    rewrite !liveSessionsOf_own by assumption. apply combineGroup_hours.
  - fold (liveSessionsOf tid (combineGroup g)). fold (liveSessionsOf tid g).
    now rewrite !(liveSessionsOf_other k tid).
Qed.

Lemma combinePlan_taskHours (tid : string) (plan : StudyPlan) :
  (taskHours tid (combinePlan plan) == taskHours tid plan)%Q.
Proof.
  unfold taskHours. rewrite !sumHours_sumQ, combinePlan_sessions.
  unfold liveSessionsOf at 1. rewrite filter_app, sumQ_app.
  rewrite (filter_none _ (filter _ (plannedTasks plan))).
  - unfold combineWith. fold (liveSessionsOf tid
      (flat_map (fun e => combineGroup (snd e))
         (Js.entries (groupByTask (plannedTasks plan))))).
    rewrite combineWith_hours.
    + simpl. rewrite Qplus_0_r. apply sumQ_perm.
      unfold liveSessionsOf.
      rewrite <- (filter_implied _ (fun s => negb (statusIs s skipped))
                    (plannedTasks plan)).
      * apply filter_perm. fold (filterSkippedSessions (plannedTasks plan)).
        rewrite <- groupByTask_perm.
        apply Permutation_flat_map, entries_perm.
      * intros s Hs. now apply andb_true_iff in Hs.
    + destruct (groupByTask_ok (plannedTasks plan)) as [_ HG].
      rewrite Forall_forall in *. intros e He. apply HG.
      now apply (proj1 (entries_In _ _)).
  - intros s Hs. apply filter_In in Hs. destruct Hs as [_ Hs].
    rewrite Hs. apply andb_false_r.
Qed.

Lemma combinePlan_skipped (plan : StudyPlan) :
  skippedSessionsOf (combinePlan plan) = skippedSessionsOf plan.
Proof.
  unfold skippedSessionsOf. rewrite combinePlan_sessions, filter_app.
  rewrite filter_none.
  - simpl. apply filter_all. intros s Hs. now apply filter_In in Hs.
  - apply Forall_forall.
    apply (combineWith_nonskipped combineGroup);
      [apply combineGroup_nonempty | apply combineGroup_member].
Qed.

(** C10.  The combination pass conserves allocated time.  For every plan of
    the plan set and every task, the allocated hours of the task's sessions
    that are not skipped add up to the same total before and after
    [combineSessionsOnSameDay]; the skipped sessions of the plan are the same
    sessions, unmodified and in the same order; the plan keeps its date. *)
Theorem combine_conserves_task_hours (studyPlans : list StudyPlan) :
  Forall2 (fun before after =>
             date after = date before
             /\ (forall tid, (taskHours tid after == taskHours tid before)%Q)
             /\ skippedSessionsOf after = skippedSessionsOf before)
    studyPlans (combineSessionsOnSameDay studyPlans).
Proof.
  unfold combineSessionsOnSameDay.
  induction studyPlans as [|plan plans IH]; simpl; constructor; [|exact IH].
  split; [reflexivity|]. split.
  - intros tid. apply combinePlan_taskHours.
  - apply combinePlan_skipped.
Qed.

(** ** Comparisons of rationals *)

Lemma Qltb_lt (x y : Q) : Js.Qltb x y = true <-> (x < y)%Q.
Proof.
  unfold Js.Qltb. rewrite negb_true_iff, <- not_true_iff_false, Qle_bool_iff.
  split; [apply Qnot_le_lt | apply Qlt_not_le].
Qed.

Lemma Qltb_ge (x y : Q) : Js.Qltb x y = false <-> (y <= x)%Q.
Proof.
  unfold Js.Qltb. rewrite negb_false_iff. apply Qle_bool_iff.
Qed.

Lemma Qleb_le (x y : Q) : Js.Qleb x y = true <-> (x <= y)%Q.
Proof. apply Qle_bool_iff. Qed.

Lemma Qleb_gt (x y : Q) : Js.Qleb x y = false <-> (y < x)%Q.
Proof.
  unfold Js.Qleb. rewrite <- not_true_iff_false, Qle_bool_iff.
  split; [apply Qnot_le_lt | apply Qlt_not_le].
Qed.

(** ** Session status *)

(** A session that carries its original time and date and is neither done
    nor skipped is reported as rescheduled, whatever its date. *)
Lemma checkSessionStatus_redistributed (now : Instant) (session : StudySession)
    (planDate : DateStr) :
  isTrue (done session) = false ->
  statusIs session completed = false ->
  statusIs session skipped = false ->
  truthyTime (originalTime session) = true ->
  truthyDate (originalDate session) = true ->
  checkSessionStatus now session planDate = rescheduled.
Proof.
  intros Hd Hc Hs Ht Ho. unfold checkSessionStatus.
  now rewrite Hd, Hc, Hs, Ht, Ho.
Qed.

(** The session of yesterday that was moved there from the week before. *)
Lemma checkSessionStatus_redistributed_witness :
  checkSessionStatus Scenario.now Scenario.movedIntoThePast Scenario.yesterday
  = rescheduled.
Proof.
  apply (checkSessionStatus_redistributed Scenario.now
           Scenario.movedIntoThePast Scenario.yesterday); reflexivity.
Defined.

(** C3.  The code does not do what the claim says.  A session that is not
    done, not completed and not skipped, that has both [originalTime] and
    [originalDate], and whose plan date is before today is classified
    [rescheduled] by [checkSessionStatus]: the test for the original time and
    date comes first and returns, so that the branch of the past-date rule
    that would answer [scheduled] is never reached. *)
Theorem past_redistributed_session_is_rescheduled :
  (Scenario.yesterday < getLocalDateString Scenario.now)%Z
  /\ isTrue (done Scenario.movedIntoThePast) = false
  /\ status Scenario.movedIntoThePast = Some scheduled
  /\ checkSessionStatus Scenario.now Scenario.movedIntoThePast
       Scenario.yesterday = rescheduled.
Proof. repeat split. Qed.

(** ** Slot finder *)

(** C4.  The code does not do what the claim says.  With a study window from
    8 to 18, a session from 08:00 to 17:00 and a commitment from 19:00 to
    20:00, the slot found for two hours is 17:00 to 19:00: it ends an hour
    after the study window does.  A gap found in front of a busy interval is
    returned without a look at the end of the window. *)
Theorem slot_found_past_the_study_window :
  findNextAvailableTimeSlot 2 [Scenario.longSession] [Scenario.eveningClass]
    8 18 0 (Some Scenario.today)
  = Some (mkSlot (HM 17 0) (HM 19 0))
  /\ (18 * 60 < minutesOf (HM 19 0))%Z.
Proof. split; [vm_compute; reflexivity | reflexivity]. Qed.

(** C7.  The code does not do what the claim says.  A commitment from 09:00 to
    10:00 whose occurrence of today is moved to 14:00 to 15:00 makes the slot
    finder busy from 14:00 (minute 840) to 10:00 (minute 600): the start is
    the override's, the end is still the base commitment's, because the end of
    the override is read only when the override has no start. *)
Theorem override_with_both_times_keeps_base_end :
  busyIntervals [] [Scenario.movedLecture] (Some Scenario.today)
  = [mkInterval 840 600]
  /\ minutesOf (HM 14 0) = 840 /\ minutesOf (HM 15 0) = 900
  /\ minutesOf (HM 10 0) = 600.
Proof. repeat split. Qed.

(** ** What the slot finder guarantees *)

Section FirstFit.
Variables (requiredMinutes buffer endOfDay : Z).
Hypothesis buffer_nonneg : 0 <= buffer.
Hypothesis required_nonneg : 0 <= requiredMinutes.

(** The start found is free with respect to the intervals that were
    walked, given that those before [current] end the buffer before it. *)
Lemma firstFit_free (intervals : list Interval) :
  forall current c,
    StronglySorted (fun a b => i_start a <= i_start b) intervals ->
    firstFit requiredMinutes buffer endOfDay current intervals = Some c ->
    current <= c
    /\ (forall iv, In iv intervals -> ~ overlaps c requiredMinutes iv)
    /\ (forall iv, In iv intervals -> i_start iv < c ->
                   i_end iv + buffer <= c).
Proof.
  induction intervals as [|iv rest IH]; intros current c Hs Hfit; simpl in Hfit.
  - destruct (requiredMinutes <=? endOfDay - current); [|discriminate].
    injection Hfit as <-. repeat split; [lia | intros ? [] | intros ? []].
  - inversion Hs as [|? ? Hrest Hall]; subst.
    rewrite Forall_forall in Hall.
    destruct (Z.leb_spec requiredMinutes (i_start iv - current)) as [Hgap|Hgap].
    + injection Hfit as <-. split; [lia|]. split.
      * intros iv' [<-|Hin] [_ Hov]; [lia|]. specialize (Hall _ Hin). lia.
      * intros iv' [<-|Hin] Hlt; [lia|]. specialize (Hall _ Hin). lia.
    + destruct (IH _ _ Hrest Hfit) as [Hc [Hno Hbuf]].
      split; [lia|]. split.
      * intros iv' [<-|Hin]; [|now apply Hno]. intros [Hov _]. lia.
      * intros iv' [<-|Hin] Hlt; [lia | now apply Hbuf].
Qed.

(** First fit is earliest fit: no free start comes before the one found,
    as long as every busy interval ends after it starts. *)
Lemma firstFit_earliest (intervals : list Interval) :
  forall current c c',
    Forall (fun iv => i_start iv < i_end iv) intervals ->
    firstFit requiredMinutes buffer endOfDay current intervals = Some c ->
    freeStart buffer current requiredMinutes intervals c' ->
    c <= c'.
Proof.
  induction intervals as [|iv rest IH];
    intros current c c' Hwf Hfit [Hfrom [Hno Hbuf]]; simpl in Hfit.
  - destruct (requiredMinutes <=? endOfDay - current); [|discriminate].
    injection Hfit as <-. exact Hfrom.
  - inversion Hwf as [|? ? Hiv Hwf']; subst.
    destruct (Z.leb_spec requiredMinutes (i_start iv - current)) as [Hgap|Hgap].
    + injection Hfit as <-. exact Hfrom.
    + apply (IH _ _ c' Hwf' Hfit). split; [|split].
      * destruct (Z.lt_ge_cases (i_start iv) c') as [Hlt|Hge].
        -- specialize (Hbuf iv (or_introl eq_refl) Hlt). lia.
        -- exfalso. apply (Hno iv (or_introl eq_refl)). unfold overlaps. lia.
      * intros iv' Hin. apply Hno. now right.
      * intros iv' Hin. apply Hbuf. now right.
Qed.

End FirstFit.

Lemma Sorted_holds {A : Type} (le : A -> A -> bool) (R : A -> A -> Prop)
    (l : list A) :
  (forall a b, le a b = true -> R a b) -> Sorted (holds le) l -> Sorted R l.
Proof.
  intros Hle Hs. induction Hs as [|x l _ IH Hd]; constructor; [exact IH|].
  destruct Hd as [|y l Hxy]; constructor. now apply Hle.
Qed.

Lemma busyIntervals_sorted (existingSessions : list StudySession)
    (commitments : list FixedCommitment) (targetDate : option DateStr) :
  StronglySorted (fun a b => i_start a <= i_start b)
    (busyIntervals existingSessions commitments targetDate).
Proof.
  apply Sorted_StronglySorted.
  - intros x y z. apply Z.le_trans.
  - unfold busyIntervals.
    apply (Sorted_holds (fun a b => i_start a <=? i_start b)).
    + intros a b. apply Z.leb_le.
    + apply sort_sorted. intros a b. rewrite Z.leb_gt, Z.leb_le. lia.
Qed.

Lemma minutesOf_formatHM (c : Z) : 0 <= c -> minutesOf (formatHM c) = c.
Proof.
  intros Hc. unfold minutesOf, formatHM.
  rewrite Z.rem_mod_nonneg by lia.
  pose proof (Z.div_mod c 60). lia.
Qed.

(** The slot the slot finder returns lasts a whole number of minutes, at
    least the required time and less than two minutes more: the required
    time is rounded up to the minute, and the source rounds the floating
    point product of the hours by sixty, which can exceed a whole number of
    minutes.  For a slot of that length, the start is at or after the start
    of the study window, runs into no busy interval, leaves the buffer after
    every busy interval that starts before it, and no start with these
    properties is earlier, provided every busy interval ends after it starts.
    The slot may end after the study window does. *)
Theorem slot_is_first_free_slot (requiredHours : Q)
    (existingSessions : list StudySession) (commitments : list FixedCommitment)
    (studyWindowStartHour studyWindowEndHour buffer : Z)
    (targetDate : option DateStr) (slot : Slot) :
  0 <= buffer -> 0 <= studyWindowStartHour -> (0 <= requiredHours)%Q ->
  findNextAvailableTimeSlot requiredHours existingSessions commitments
    studyWindowStartHour studyWindowEndHour buffer targetDate = Some slot ->
  let busy := busyIntervals existingSessions commitments targetDate in
  let start := minutesOf (slot_start slot) in
  let len := minutesOf (slot_end slot) - start in
  (requiredHours * 60 <= inject_Z len)%Q
  /\ (inject_Z len < requiredHours * 60 + 2)%Q
  /\ freeStart buffer (studyWindowStartHour * 60) len busy start
  /\ (Forall (fun iv => i_start iv < i_end iv) busy ->
      forall c, freeStart buffer (studyWindowStartHour * 60) len busy c ->
                start <= c).
Proof.
  intros Hbuf Hfrom Hreq Hfind busy start len.
  unfold findNextAvailableTimeSlot in Hfind.
  fold busy in Hfind.
  set (requiredMinutes := Js.Math_ceil (requiredHours * 60)) in Hfind.
  destruct (firstFit requiredMinutes buffer (studyWindowEndHour * 60)
              (studyWindowStartHour * 60) busy) as [c|] eqn:Hfit;
    [|discriminate].
  injection Hfind as <-.
  assert (Hlen : 0 <= requiredMinutes).
  { unfold requiredMinutes, Js.Math_ceil. rewrite <- (Qceiling_Z 0).
    apply Qceiling_resp_le. change (inject_Z 0) with 0%Q. lra. }
  destruct (firstFit_free requiredMinutes buffer (studyWindowEndHour * 60)
              Hbuf Hlen busy _ _
              (busyIntervals_sorted existingSessions commitments targetDate)
              Hfit) as [Hc [Hno Hafter]].
  assert (Hl : len = requiredMinutes).
  { subst len start. cbn [slot_start slot_end].
    rewrite !minutesOf_formatHM by lia. lia. }
  assert (Hs : start = c).
  { subst start. cbn [slot_start]. apply minutesOf_formatHM. lia. }
  rewrite Hl, Hs. clear Hl Hs.
  split; [apply Qle_ceiling|]. split.
  - pose proof (Qceiling_lt (requiredHours * 60)) as Hlt.
    fold (Js.Math_ceil (requiredHours * 60)) in Hlt.
    fold requiredMinutes in Hlt.
    unfold Z.sub in Hlt. rewrite inject_Z_plus, inject_Z_opp in Hlt.
    change (inject_Z 1) with 1%Q in Hlt. lra.
  - split; [now split|].
    intros Hwf c' Hfree.
    exact (firstFit_earliest requiredMinutes buffer (studyWindowEndHour * 60)
             busy _ _ c' Hwf Hfit Hfree).
Qed.

(** Two hours on a day with a session from 08:00 to 17:00 and a class from
    19:00 to 20:00: the slot from 17:00 is the first free one. *)
Lemma slot_is_first_free_slot_witness :
  let busy :=
    busyIntervals [Scenario.longSession] [Scenario.eveningClass]
      (Some Scenario.today) in
  let start := minutesOf (HM 17 0) in
  let len := minutesOf (HM 19 0) - start in
  (2 * 60 <= inject_Z len)%Q
  /\ (inject_Z len < 2 * 60 + 2)%Q
  /\ freeStart 0 (8 * 60) len busy start
  /\ (Forall (fun iv => i_start iv < i_end iv) busy ->
      forall c, freeStart 0 (8 * 60) len busy c -> start <= c).
Proof.
  apply (slot_is_first_free_slot 2 [Scenario.longSession]
           [Scenario.eveningClass] 8 18 0 (Some Scenario.today)
           (mkSlot (HM 17 0) (HM 19 0))).
  - lia.
  - lia.
  - unfold Qle. simpl. lia.
  - vm_compute. reflexivity.
Defined.

(** The busy interval of a commitment on a date: the start is the override's
    start where the occurrence of that date has one and the commitment's
    otherwise; the end is the override's end only where the occurrence has no
    start of its own, and the commitment's end where it has. *)
Theorem commitment_interval_characterised (d : DateStr) (c : FixedCommitment) :
  let interval := commitmentInterval (Some d) c in
  let overridesStart :=
    match modifiedOn c d with
    | Some modified => truthyTime (mod_startTime modified)
    | None => false
    end in
  i_start interval = minutesOf (effectiveStart d c)
  /\ i_end interval
     = minutesOf (if overridesStart then c_endTime c else effectiveEnd d c).
Proof.
  unfold commitmentInterval, effectiveStart, effectiveEnd, timeOr.
  destruct (modifiedOn c d) as [modified|]; [|split; reflexivity].
  destruct (mod_startTime modified) as [[|h m]|];
    destruct (mod_endTime modified) as [[|h' m']|]; split; reflexivity.
Qed.

(** ** Plan generation on concrete inputs *)

(** C2.  The code does not do what the claim says.  In even mode, fourteen
    hours due in two days with eight hours a day give sessions of six, four
    and four hours: the four hour cap is applied before the two hours that are
    left are added to the first session, and the day only clips the session at
    its eight hours.  The six hour session is a regular one (it carries no
    redistribution data) and is longer than [min(4, dailyAvailableHours)]. *)
Theorem even_mode_session_longer_than_cap :
  let settings := Scenario.settings even 8 6 23 in
  let plans :=
    fst (generateNewStudyPlan Scenario.now [Scenario.report] settings [] []) in
  map (fun plan => map (fun s => Qred (allocatedHours s)) (plannedTasks plan))
    plans
  = [[6%Q]; [4%Q]; [4%Q]]
  /\ Forall (fun plan =>
               Forall (fun s => originalDate s = None
                                /\ isManualOverride s = None)
                 (plannedTasks plan)) plans
  /\ (maxSessionHours settings == 4)%Q.
Proof.
  split; [vm_compute; reflexivity|]. split.
  - vm_compute. repeat constructor.
  - reflexivity.
Qed.

(** C5.  The code does not do what the claim says.  In Eisenhower mode the
    plan of a day counts the hours of every session it is given: two hours
    due tomorrow give a plan whose [totalStudyHours] is two although none of
    its sessions is done or skipped.  After a redistribution the plan a missed
    session moved to counts the hours of all its sessions as well.  Only
    [combineSessionsOnSameDay], which even mode runs last, stores the sum over
    the done and the skipped sessions. *)
Theorem total_study_hours_counts_scheduled_sessions :
  (let plans :=
     fst (generateNewStudyPlan Scenario.now [Scenario.essay]
            (Scenario.settings eisenhower 8 6 23) [] []) in
   map (fun plan => (Qred (totalStudyHours plan),
                     Qred (calculateTotalStudyHours (plannedTasks plan))))
     plans
   = [(2%Q, 0%Q); (0%Q, 0%Q)])
  /\ (let '(h, out) :=
        moveMissedSessions Scenario.now Scenario.smallStore [0%nat]
          (Scenario.settings eisenhower 8 8 18) []
          [Scenario.task "reading" ((Scenario.today + 5) * DAY_MS) true 1] in
      List.length (movedSessions out) = 1%nat
      /\ map (fun plan => (date plan, Qred (totalStudyHours plan),
                           Qred (calculateTotalStudyHours (plannedTasks plan))))
           (deref h (updatedPlans out))
         = [(Scenario.yesterday, 0%Q, 0%Q); (Scenario.today, 1%Q, 0%Q)]).
Proof. split; vm_compute; repeat split; reflexivity. Qed.

(** ** Redistribution on concrete inputs *)

(** C1.  The code does not do what the claim says.  Yesterday's plan holds a
    missed hour of reading; today's plan holds the project at 10:00 and
    reading at 14:00, and has no conflict.  The missed session is moved to
    08:00 today, the combination pass then merges the two reading sessions
    into one from 08:00 to 15:00, and the validation finds it over the
    project.  The result is rolled back: every candidate is reported failed
    and the array that is returned is the input array.  But its plan objects
    are the ones the pass has already changed, since the working array is a
    shallow copy: yesterday's plan comes back without its session, and
    today's plan comes back with the merged session and its conflict. *)
Theorem rollback_returns_modified_plans :
  let settings := Scenario.settings eisenhower 8 8 18 in
  let before := deref Scenario.store [0%nat; 1%nat] in
  let '(h, out) :=
    moveMissedSessions Scenario.now Scenario.store [0%nat; 1%nat] settings []
      Scenario.storeTasks in
  let after := deref h (updatedPlans out) in
  validateStudyPlanConflicts Scenario.now before settings [] = false
  /\ updatedPlans out = [0%nat; 1%nat]
  /\ movedSessions out = []
  /\ failedSessions out = [Scenario.missedReading]
  /\ map plannedTasks before
     = [[Scenario.missedReading];
        [Scenario.projectAtTen; Scenario.readingAtTwo]]
  /\ map (fun plan =>
            map (fun s => (taskId s, startTime s, endTime s,
                           Qred (allocatedHours s))) (plannedTasks plan))
       after
     = [[];
        [("project", HM 10 0, HM 11 0, 1%Q);
         ("reading", HM 8 0, HM 15 0, 2%Q)]]%string
  /\ validateStudyPlanConflicts Scenario.now after settings [] = true.
Proof. vm_compute. repeat split; reflexivity. Qed.

(** ** Pre-flight gate *)

Lemma urgentTasksOf_without_past (now : Instant) (tasks : list Task) :
  urgentTasksOf now
    (filter (fun task => negb (isPastDeadline now task)) tasks)
  = urgentTasksOf now tasks.
Proof.
  unfold urgentTasksOf. apply filter_implied.
  intros task H. apply andb_true_iff in H. destruct H as [H Hp].
  apply andb_true_iff in H. destruct H as [Hpos _].
  unfold isPastDeadline. rewrite Hp, andb_true_r.
  apply negb_true_iff, Qltb_ge. apply Qlt_le_weak. now apply Qltb_lt.
Qed.



(** ** Rounding to whole minutes *)

Lemma Qfloor_unique (x : Q) (n : Z) :
  (inject_Z n <= x)%Q -> (x < inject_Z (n + 1))%Q -> Qfloor x = n.
Proof.
  intros Hl Hu.
  pose proof (Qfloor_le x) as Hfl. pose proof (Qlt_floor x) as Hfu.
  assert (H1 : (n < Qfloor x + 1)%Z).
  { rewrite Zlt_Qlt. eapply Qle_lt_trans; eassumption. }
  assert (H2 : (Qfloor x < n + 1)%Z).
  { rewrite Zlt_Qlt. eapply Qle_lt_trans; eassumption. }
  lia.
Qed.

Lemma Math_round_Z (k : Z) : Js.Math_round (inject_Z k) = k.
Proof.
  apply Qfloor_unique.
  - lra.
  - rewrite inject_Z_plus. change (inject_Z 1) with 1%Q. lra.
Qed.

Lemma Math_round_comp (x y : Q) :
  (x == y)%Q -> Js.Math_round x = Js.Math_round y.
Proof. intros H. unfold Js.Math_round. now rewrite H. Qed.

Lemma roundToMinute_comp (x y : Q) :
  (x == y)%Q -> (Js.roundToMinute x == Js.roundToMinute y)%Q.
Proof.
  intros H. unfold Js.roundToMinute.
  rewrite (Math_round_comp (x * 60) (y * 60)); [reflexivity|].
  now rewrite H.
Qed.

Lemma roundToMinute_whole (x : Q) : wholeMinutes (Js.roundToMinute x).
Proof. now exists (Js.Math_round (x * 60)). Qed.

Lemma roundToMinute_id (x : Q) :
  wholeMinutes x -> (Js.roundToMinute x == x)%Q.
Proof.
  intros [k Hk]. unfold Js.roundToMinute.
  rewrite (Math_round_comp (x * 60) (inject_Z k)).
  - rewrite Math_round_Z. now symmetry.
  - rewrite Hk. field.
Qed.

Lemma wholeMinutes_comp (x y : Q) :
  (x == y)%Q -> wholeMinutes x -> wholeMinutes y.
Proof. intros H [k Hk]. exists k. now rewrite <- H. Qed.

Lemma wholeMinutes_0 : wholeMinutes 0.
Proof. now exists 0. Qed.

Lemma wholeMinutes_plus (x y : Q) :
  wholeMinutes x -> wholeMinutes y -> wholeMinutes (x + y).
Proof.
  intros [k Hk] [m Hm]. exists (k + m).
  rewrite Hk, Hm, inject_Z_plus. field.
Qed.

Lemma wholeMinutes_minus (x y : Q) :
  wholeMinutes x -> wholeMinutes y -> wholeMinutes (x - y).
Proof.
  intros [k Hk] [m Hm]. exists (k - m).
  rewrite Hk, Hm. unfold Z.sub. rewrite inject_Z_plus, inject_Z_opp. field.
Qed.

(** What rounding leaves of a day is less than half a minute, and rounds
    to nothing. *)
Lemma roundToMinute_residue (x : Q) :
  (Js.roundToMinute (x - Js.roundToMinute x) == 0)%Q.
Proof.
  unfold Js.roundToMinute at 1.
  assert (H : Js.Math_round ((x - Js.roundToMinute x) * 60) = 0).
  { unfold Js.roundToMinute, Js.Math_round.
    pose proof (Qfloor_le (x * 60 + (1 # 2))) as Hl.
    pose proof (Qlt_floor (x * 60 + (1 # 2))) as Hu.
    rewrite inject_Z_plus in Hu. change (inject_Z 1) with 1%Q in Hu.
    set (r := inject_Z (Qfloor (x * 60 + (1 # 2)))) in *. clearbody r.
    apply Qfloor_unique.
    - change (inject_Z 0) with 0%Q. hours_lra.
    - change (inject_Z (0 + 1)) with 1%Q. hours_lra. }
  rewrite H. reflexivity.
Qed.

Lemma roundToMinute_below (x y : Q) :
  wholeMinutes y -> (x <= y)%Q -> (Js.roundToMinute x <= y)%Q.
Proof.
  intros [k Hk] Hxy. unfold Js.roundToMinute, Js.Math_round.
  assert (H : (Qfloor (x * 60 + (1 # 2)) <= k)%Z).
  { rewrite <- (Math_round_Z k). unfold Js.Math_round.
    apply Qfloor_resp_le. rewrite Hk in Hxy. hours_lra. }
  rewrite Zle_Qle in H. rewrite Hk. hours_lra.
Qed.

Lemma roundToMinute_nonneg (x : Q) :
  (0 <= x)%Q -> (0 <= Js.roundToMinute x)%Q.
Proof.
  intros Hx. unfold Js.roundToMinute, Js.Math_round.
  assert (H : (0 <= Qfloor (x * 60 + (1 # 2)))%Z).
  { rewrite <- (Qfloor_Z 0). apply Qfloor_resp_le.
    change (inject_Z 0) with 0%Q. lra. }
  rewrite Zle_Qle in H. change (inject_Z 0) with 0%Q in H. hours_lra.
Qed.

(** ** The Eisenhower pass on two tasks *)

Lemma updatePlan_focus (d : DateStr) (f : StudyPlan -> StudyPlan)
    (donePlans later : list StudyPlan) (cur : StudyPlan) :
  Forall (fun p => date p <> d) donePlans -> date cur = d ->
  updatePlan d f (donePlans ++ cur :: later) = donePlans ++ f cur :: later.
Proof.
  intros Hd Hc. induction Hd as [|p ps Hp _ IH]; simpl.
  - rewrite Hc, Z.eqb_refl. reflexivity.
  - apply Z.eqb_neq in Hp. now rewrite Hp, IH.
Qed.

Lemma findPlan_focus (d : DateStr) (donePlans later : list StudyPlan)
    (cur : StudyPlan) :
  Forall (fun p => date p <> d) donePlans -> date cur = d ->
  findPlan d (donePlans ++ cur :: later) = Some cur.
Proof.
  intros Hd Hc. unfold findPlan. induction Hd as [|p ps Hp _ IH]; simpl.
  - rewrite Hc, Z.eqb_refl. reflexivity.
  - apply Z.eqb_neq in Hp. now rewrite Hp.
Qed.

Lemma get_set_other (o : list (DateStr * Q)) (d d' : DateStr) (v : Q) :
  d' <> d -> Js.get Z.eqb (Js.set Z.eqb o d v) d' = Js.get Z.eqb o d'.
Proof.
  intros Hne. induction o as [|[k w] o IH]; simpl.
  - apply Z.eqb_neq in Hne. now rewrite Hne.
  - destruct (Z.eqb_spec d k) as [->|Hdk]; simpl.
    + apply Z.eqb_neq in Hne. now rewrite Hne.
    + destruct (d' =? k); [reflexivity | exact IH].
Qed.

Lemma get_set_same (o : list (DateStr * Q)) (d : DateStr) (v : Q) :
  Js.get Z.eqb (Js.set Z.eqb o d v) d = Some v.
Proof.
  induction o as [|[k w] o IH]; simpl.
  - now rewrite Z.eqb_refl.
  - destruct (Z.eqb_spec d k) as [->|Hdk]; simpl.
    + now rewrite Z.eqb_refl.
    + apply Z.eqb_neq in Hdk. now rewrite Hdk.
Qed.

(** With nothing placed and no commitment, a block that fits in the study
    window is placed at its start. *)
Lemma slot_in_empty_day (hours : Q) (from to buffer : Z) (d : DateStr) :
  (hours <= inject_Z (to - from))%Q ->
  findNextAvailableTimeSlot hours [] [] from to buffer (Some d)
  = Some (mkSlot (formatHM (from * 60))
            (formatHM (from * 60 + Js.Math_ceil (hours * 60)))).
Proof.
  intros H. unfold findNextAvailableTimeSlot.
  cbn [busyIntervals filter map app Js.sort firstFit].
  assert (Hc : (Js.Math_ceil (hours * 60) <= to * 60 - from * 60)%Z).
  { replace (to * 60 - from * 60)%Z
      with (Qceiling (inject_Z ((to - from) * 60)))
      by (rewrite Qceiling_Z; lia).
    apply Qceiling_resp_le. rewrite inject_Z_mult.
    change (inject_Z 60) with 60%Q. lra. }
  apply Z.leb_le in Hc. now rewrite Hc.
Qed.

(** ** The available days *)

Lemma toISODate_next (t : Instant) : toISODate (addDays t 1) = toISODate t + 1.
Proof.
  unfold toISODate, addDays. apply Z.div_add. discriminate.
Qed.

Lemma horizonLoop_increasing (fuel : nat) (workDays : list Z)
    (t latest : Instant) :
  Forall (fun d => toISODate t <= d) (horizonLoop fuel workDays t latest)
  /\ NoDup (horizonLoop fuel workDays t latest).
Proof.
  revert t. induction fuel as [|fuel IH]; intros t; simpl.
  - split; constructor.
  - destruct (t <=? latest); [|split; constructor].
    destruct (IH (addDays t 1)) as [Hge Hnd].
    rewrite toISODate_next in Hge.
    destruct (includes workDays (getDay t)); simpl.
    + split.
      * constructor; [lia|]. eapply Forall_impl; [|exact Hge].
        simpl. intros; lia.
      * constructor; [|exact Hnd]. intros Hin.
        rewrite Forall_forall in Hge. specialize (Hge _ Hin). lia.
    + split; [|exact Hnd]. eapply Forall_impl; [|exact Hge].
      simpl. intros; lia.
Qed.

(** The fuel of the loop over the horizon is enough: more of it changes
    nothing. *)
Lemma horizonLoop_fuel (workDays : list Z) (latest : Instant) (extra : nat)
    (fuel : nat) (t : Instant) :
  (latest - t) / DAY_MS + 1 <= Z.of_nat fuel ->
  horizonLoop (fuel + extra) workDays t latest
  = horizonLoop fuel workDays t latest.
Proof.
  revert t. induction fuel as [|fuel IH]; intros t Hfuel.
  - assert (Hlt : latest < t).
    { destruct (Z.lt_ge_cases (latest - t) 0) as [H|H]; [lia|].
      pose proof (Z.div_pos (latest - t) DAY_MS H eq_refl). lia. }
    destruct extra; simpl; [reflexivity|].
    apply Z.leb_gt in Hlt. now rewrite Hlt.
  - simpl. destruct (t <=? latest); [|reflexivity].
    rewrite IH; [reflexivity|].
    unfold addDays.
    replace (latest - (t + 1 * DAY_MS)) with (latest - t + (-1) * DAY_MS)
      by ring.
    rewrite Z.div_add by discriminate. lia.
Qed.

Lemma includes_false (l : list Z) (x : Z) : includes l x = false -> ~ In x l.
Proof.
  unfold includes. intros H Hin.
  assert (Ht : existsb (Z.eqb x) l = true).
  { apply existsb_exists. exists x. split; [exact Hin | apply Z.eqb_refl]. }
  congruence.
Qed.

Lemma computeAvailableDays_NoDup (now : Instant) (settings : UserSettings)
    (tasks : list Task) :
  NoDup (computeAvailableDays now settings tasks).
Proof.
  unfold computeAvailableDays.
  apply (Permutation_NoDup (Permutation_sym (sort_perm Z.leb _))).
  set (start := match latestDeadlineOf tasks with
                | Some latest => _ | None => [] end).
  assert (Hstart : NoDup start).
  { unfold start. destruct (latestDeadlineOf tasks); [|constructor].
    apply horizonLoop_increasing. }
  clearbody start. revert start Hstart.
  induction tasks as [|task tasks IH]; simpl; intros start Hstart;
    [exact Hstart|].
  apply IH.
  match goal with |- NoDup (if ?c then _ else _) => destruct c eqn:Hc end;
    [|exact Hstart].
  apply andb_true_iff in Hc. destruct Hc as [Hc _].
  apply negb_true_iff in Hc. apply NoDup_snoc; [exact Hstart|].
  now apply includes_false.
Qed.

Lemma Zleb_total (a b : Z) : (a <=? b) = false -> (b <=? a) = true.
Proof. rewrite Z.leb_gt, Z.leb_le. lia. Qed.

(** The available days come in order, each once. *)
Lemma computeAvailableDays_sorted (now : Instant) (settings : UserSettings)
    (tasks : list Task) :
  StronglySorted Z.lt (computeAvailableDays now settings tasks).
Proof.
  pose proof (computeAvailableDays_NoDup now settings tasks) as Hnd.
  assert (Hs : Sorted (holds Z.leb) (computeAvailableDays now settings tasks)).
  { unfold computeAvailableDays. apply sort_sorted, Zleb_total. }
  apply Sorted_StronglySorted; [intros x y z; apply Z.lt_trans|].
  induction Hs as [|x l Hs IH Hd]; constructor.
  - apply IH. now inversion Hnd.
  - inversion Hnd as [|? ? Hx _]; subst.
    destruct Hd as [|y l Hxy]; constructor.
    unfold holds in Hxy. apply Z.leb_le in Hxy.
    assert (x <> y) by (intros ->; apply Hx; now left). lia.
Qed.

Lemma allocatedTo_app (tid : string) (l1 l2 : list StudyPlan) :
  (allocatedTo tid (l1 ++ l2) == allocatedTo tid l1 + allocatedTo tid l2)%Q.
Proof.
  induction l1 as [|p l1 IH]; simpl.
  - ring.
  - rewrite IH. ring.
Qed.

Lemma allocatedTo_empty (settings : UserSettings) (tid : string)
    (days : list DateStr) :
  (allocatedTo tid (map (emptyPlan settings) days) == 0)%Q.
Proof.
  induction days as [|d days IH]; simpl; [reflexivity|].
  rewrite IH. change (taskHours tid (emptyPlan settings d)) with 0%Q. ring.
Qed.

Lemma snoc_cases {A : Type} (l : list A) :
  l = [] \/ exists l' x, l = l' ++ [x].
Proof.
  induction l as [|x l _] using rev_ind; [now left | right].
  now exists l, x.
Qed.

Lemma servedFirst_snoc (imp unimp : Task) (donePlans : list StudyPlan)
    (p : StudyPlan) :
  servedFirst imp unimp donePlans ->
  (hasSessionOf (id unimp) p ->
   (allocatedTo (id imp) (donePlans ++ [p]) == estimatedHours imp)%Q) ->
  servedFirst imp unimp (donePlans ++ [p]).
Proof.
  intros Hdone Hp pre q post Heq Hq.
  destruct (snoc_cases post) as [->|[post' [x ->]]].
  - apply app_inj_tail in Heq. destruct Heq as [<- <-]. now apply Hp.
  - change (pre ++ q :: post' ++ [x]) with (pre ++ (q :: post') ++ [x]) in Heq.
    rewrite app_assoc in Heq. apply app_inj_tail in Heq.
    destruct Heq as [-> _]. now apply (Hdone pre q post').
Qed.

Lemma givenDailyShare_snoc (settings : UserSettings) (task : Task)
    (donePlans : list StudyPlan) (p : StudyPlan) :
  givenDailyShare settings task donePlans ->
  toTheMinute (taskHours (id task) p)
    (dayShare settings task (allocatedTo (id task) donePlans) (date p)) ->
  givenDailyShare settings task (donePlans ++ [p]).
Proof.
  intros Hdone Hp pre q post Heq.
  destruct (snoc_cases post) as [->|[post' [x ->]]].
  - apply app_inj_tail in Heq. destruct Heq as [<- <-]. exact Hp.
  - change (pre ++ q :: post' ++ [x]) with (pre ++ (q :: post') ++ [x]) in Heq.
    rewrite app_assoc in Heq. apply app_inj_tail in Heq.
    destruct Heq as [-> _]. now apply (Hdone pre q post').
Qed.

Lemma toTheMinute_comp (x x' y y' : Q) :
  (x == x')%Q -> (y == y')%Q -> toTheMinute x y -> toTheMinute x' y'.
Proof.
  intros Hx Hy (Hw & Hl & Hu). split; [|split].
  - destruct Hw as [k Hk]. exists k. now rewrite <- Hx.
  - now rewrite <- Hx, <- Hy.
  - now rewrite <- Hx, <- Hy.
Qed.

Lemma toTheMinute_0 : toTheMinute 0 0.
Proof. split; [apply wholeMinutes_0 | split; lra]. Qed.

(** Rounding to the minute moves by half a minute at most. *)
Lemma roundToMinute_near (x : Q) : toTheMinute (Js.roundToMinute x) x.
Proof.
  split; [apply roundToMinute_whole|].
  unfold Js.roundToMinute, Js.Math_round.
  pose proof (Qfloor_le (x * 60 + (1 # 2))) as Hl.
  pose proof (Qlt_floor (x * 60 + (1 # 2))) as Hu.
  rewrite inject_Z_plus in Hu. change (inject_Z 1) with 1%Q in Hu.
  split; hours_lra.
Qed.

Lemma dayShare_comp (settings : UserSettings) (task : Task) (x y : Q)
    (d : DateStr) :
  (x == y)%Q -> (dayShare settings task x d == dayShare settings task y d)%Q.
Proof.
  intros H. unfold dayShare. destruct (_ && _); [|reflexivity].
  now rewrite H.
Qed.

(** A task that has all its hours is given nothing more. *)
Lemma dayShare_full (settings : UserSettings) (task : Task) (given : Q)
    (d : DateStr) :
  (given == estimatedHours task)%Q ->
  (dayShare settings task given d == 0)%Q.
Proof.
  intros H. unfold dayShare.
  destruct (d <=? _); [|reflexivity]. cbn [andb].
  destruct (Js.Qltb 0 (dailyAvailableHours settings)) eqn:Hd; [|reflexivity].
  apply Qltb_lt in Hd. rewrite Q.min_l by lra. lra.
Qed.

(** The entry the helper makes reports the shortfall. *)
Lemma shortfallSuggestion_reports (task : Task) (unscheduled : Q) :
  reportsShortfall task unscheduled (shortfallSuggestion task unscheduled).
Proof.
  unfold reportsShortfall, shortfallSuggestion.
  cbn [taskTitle unscheduledMinutes sug_importance sug_deadline].
  repeat split; try reflexivity.
  - unfold Js.Math_round.
    pose proof (Qfloor_le (unscheduled * 60 + (1 # 2))). lra.
  - unfold Js.Math_round.
    pose proof (Qlt_floor (unscheduled * 60 + (1 # 2))) as H.
    rewrite inject_Z_plus in H. change (inject_Z 1) with 1%Q in H. lra.
Qed.

Lemma get_fold_set (v : Q) (d : DateStr) (days : list DateStr)
    (o : list (DateStr * Q)) :
  In d days \/ Js.get Z.eqb o d = Some v ->
  Js.get Z.eqb (fold_left (fun o d => Js.set Z.eqb o d v) days o) d = Some v.
Proof.
  revert o. induction days as [|x days IH]; simpl; intros o H.
  - destruct H as [[]|H]. exact H.
  - apply IH. destruct (Z.eq_dec x d) as [->|Hne].
    + right. apply get_set_same.
    + destruct H as [[H|H]|H]; [contradiction | now left |].
      right. rewrite get_set_other by congruence. exact H.
Qed.


Section TwoTasks.
Variables (settings : UserSettings) (imp unimp : Task).
Hypothesis ids_differ : id imp <> id unimp.

Lemma eqb_imp_unimp : String.eqb (id imp) (id unimp) = false.
Proof. now apply String.eqb_neq. Qed.

Lemma eqb_unimp_imp : String.eqb (id unimp) (id imp) = false.
Proof. apply String.eqb_neq. congruence. Qed.

(** One iteration of the inner loop, for the first task of the list. *)
Lemma eisenhowerTasks_focused (task : Task) (rest : list Task) (d : DateStr)
    (availableHours : Q) (donePlans later : list StudyPlan) (cur : StudyPlan)
    (remaining : list (DateStr * Q)) (si su : Q) :
  Forall (fun p => date p <> d) donePlans -> date cur = d ->
  let st := focused imp unimp donePlans cur later remaining si su in
  let sched := scheduledOr0 (e_taskScheduledHours st) (id task) in
  let hours := Qmin (estimatedHours task - sched) availableHours in
  let allocated := Js.roundToMinute hours in
  eisenhowerTasks settings [] d (task :: rest) availableHours st
  = if Js.Qleb availableHours 0 then st
    else if Js.Qleb (estimatedHours task - sched) 0
    then eisenhowerTasks settings [] d rest availableHours st
    else if Js.Qltb 0 hours then
      match findNextAvailableTimeSlot hours (plannedTasks cur) []
              (windowStart settings) (windowEnd settings)
              (Js.orElse (bufferTimeBetweenSessions settings) 0) (Some d)
      with
      | None => eisenhowerTasks settings [] d rest availableHours st
      | Some slot =>
          eisenhowerTasks settings [] d rest
            (Js.roundToMinute (availableHours - allocated))
            (mkEisen
               (donePlans
                  ++ withSessions cur
                       (plannedTasks cur
                          ++ [eisenhowerSession task d slot allocated
                                (nextSessionNumber cur task)])
                       (Js.roundToMinute (totalStudyHours cur + allocated))
                  :: later)
               (Js.set Z.eqb remaining d
                  (Js.roundToMinute
                     (match Js.get Z.eqb remaining d with
                      | Some q => q | None => 0%Q end - allocated)))
               (Js.set String.eqb (e_taskScheduledHours st) (id task)
                  (Js.roundToMinute (sched + allocated))))
      end
    else eisenhowerTasks settings [] d rest availableHours st.
Proof.
  intros Hd Hc st sched hours allocated.
  cbn [eisenhowerTasks].
  subst st. unfold focused.
  cbn [e_plans e_dailyRemainingHours e_taskScheduledHours].
  rewrite (findPlan_focus d donePlans later cur Hd Hc).
  destruct (Js.Qleb availableHours 0); [reflexivity|].
  destruct (Js.Qleb _ 0); [reflexivity|].
  destruct (Js.Qltb 0 _); [|reflexivity].
  fold (windowStart settings). fold (windowEnd settings).
  destruct (findNextAvailableTimeSlot _ _ _ _ _ _ _) as [slot|];
    [|reflexivity].
  rewrite (updatePlan_focus d _ donePlans later cur Hd Hc).
  reflexivity.
Qed.


Lemma sched_imp (si su : Q) :
  scheduledOr0 [(id imp, si); (id unimp, su)] (id imp) = si.
Proof. unfold scheduledOr0. simpl. now rewrite String.eqb_refl. Qed.

Lemma sched_unimp (si su : Q) :
  scheduledOr0 [(id imp, si); (id unimp, su)] (id unimp) = su.
Proof.
  unfold scheduledOr0. simpl. now rewrite eqb_unimp_imp, String.eqb_refl.
Qed.

Lemma set_imp (si su v : Q) :
  Js.set String.eqb [(id imp, si); (id unimp, su)] (id imp) v
  = [(id imp, v); (id unimp, su)].
Proof. simpl. now rewrite String.eqb_refl. Qed.

Lemma set_unimp (si su v : Q) :
  Js.set String.eqb [(id imp, si); (id unimp, su)] (id unimp) v
  = [(id imp, si); (id unimp, v)].
Proof. simpl. now rewrite eqb_unimp_imp, String.eqb_refl. Qed.

(** Hours of a task in a plan that was given one more session. *)
Lemma taskHours_snoc_own (task : Task) (cur : StudyPlan) (d : DateStr)
    (slot : Slot) (allocated total : Q) (number : Z) :
  (taskHours (id task)
     (withSessions cur
        (plannedTasks cur ++ [eisenhowerSession task d slot allocated number])
        total)
   == taskHours (id task) cur + allocated)%Q.
Proof.
  unfold taskHours, liveSessionsOf. cbn [plannedTasks withSessions].
  rewrite filter_app. cbn [filter eisenhowerSession taskId].
  rewrite String.eqb_refl. cbn.
  rewrite !sumHours_sumQ, sumQ_app. cbn. ring.
Qed.

Lemma taskHours_snoc_other (task other : Task) (cur : StudyPlan) (d : DateStr)
    (slot : Slot) (allocated total : Q) (number : Z) :
  id task <> id other ->
  taskHours (id other)
    (withSessions cur
       (plannedTasks cur ++ [eisenhowerSession task d slot allocated number])
       total)
  = taskHours (id other) cur.
Proof.
  intros Hne. unfold taskHours, liveSessionsOf. cbn [plannedTasks withSessions].
  rewrite filter_app. cbn [filter eisenhowerSession taskId].
  apply String.eqb_neq in Hne. rewrite Hne. cbn. now rewrite app_nil_r.
Qed.

(** What the attempt for the unimportant task, the last of the day, leaves. *)
Lemma attempt_unimportant (d : DateStr) (availableHours : Q)
    (donePlans later : list StudyPlan) (cur : StudyPlan)
    (remaining : list (DateStr * Q)) (si su : Q) :
  Forall (fun p => date p <> d) donePlans -> date cur = d ->
  wholeMinutes su ->
  exists cur' remaining' su',
    eisenhowerTasks settings [] d [unimp] availableHours
      (focused imp unimp donePlans cur later remaining si su)
    = focused imp unimp donePlans cur' later remaining' si su'
    /\ date cur' = d
    /\ (forall d', d' <> d ->
        Js.get Z.eqb remaining' d' = Js.get Z.eqb remaining d')
    /\ (su' + taskHours (id unimp) cur == su + taskHours (id unimp) cur')%Q
    /\ taskHours (id imp) cur' = taskHours (id imp) cur
    /\ wholeMinutes su'.
Proof.
  intros Hd Hc Hsu.
  assert (Hsame : exists cur' remaining' su',
             focused imp unimp donePlans cur later remaining si su
             = focused imp unimp donePlans cur' later remaining' si su'
             /\ date cur' = d
             /\ (forall d', d' <> d ->
                 Js.get Z.eqb remaining' d' = Js.get Z.eqb remaining d')
             /\ (su' + taskHours (id unimp) cur
                 == su + taskHours (id unimp) cur')%Q
             /\ taskHours (id imp) cur' = taskHours (id imp) cur
             /\ wholeMinutes su').
  { exists cur, remaining, su. repeat split; auto. }
  rewrite (eisenhowerTasks_focused unimp [] d availableHours donePlans later
             cur remaining si su Hd Hc).
  cbn [eisenhowerTasks].
  destruct (Js.Qleb availableHours 0); [exact Hsame|].
  destruct (Js.Qleb _ 0); [exact Hsame|].
  destruct (Js.Qltb 0 _); [|exact Hsame].
  destruct (findNextAvailableTimeSlot _ _ _ _ _ _ _) as [slot|];
    [|exact Hsame].
  clear Hsame. unfold focused. cbn [e_taskScheduledHours].
  rewrite sched_unimp, set_unimp.
  eexists _, _, _. split; [reflexivity|].
  split; [exact Hc|]. split; [|split; [|split]].
  - intros d' Hd'. now apply get_set_other.
  - rewrite taskHours_snoc_own.
    rewrite (roundToMinute_id (su + _)).
    + ring.
    + apply wholeMinutes_plus; [exact Hsu | apply roundToMinute_whole].
  - apply taskHours_snoc_other. congruence.
  - apply roundToMinute_whole.
Qed.


Lemma get_imp (si su : Q) :
  Js.get String.eqb [(id imp, si); (id unimp, su)] (id imp) = Some si.
Proof. simpl. now rewrite String.eqb_refl. Qed.

Lemma get_unimp (si su : Q) :
  Js.get String.eqb [(id imp, si); (id unimp, su)] (id unimp) = Some su.
Proof. simpl. now rewrite eqb_unimp_imp, String.eqb_refl. Qed.

Hypothesis same_deadline : deadline unimp = deadline imp.
Hypothesis whole_estimate : wholeMinutes (estimatedHours imp).
Hypothesis day_fits_window :
  (dailyAvailableHours settings
   <= inject_Z (windowEnd settings - windowStart settings))%Q.

Lemma same_deadlineDateStr :
  deadlineDateStr settings unimp = deadlineDateStr settings imp.
Proof. unfold deadlineDateStr. now rewrite same_deadline. Qed.

Lemma dayOutcome_unchanged (donePlans later : list StudyPlan) (d : DateStr)
    (remaining : list (DateStr * Q)) (si su : Q) :
  wholeMinutes si -> wholeMinutes su -> (si <= estimatedHours imp)%Q ->
  (dayShare settings imp si d == 0)%Q ->
  dayOutcome settings imp unimp donePlans later d remaining si su
    (focused imp unimp donePlans (emptyPlan settings d) later remaining si su).
Proof.
  intros Hsi Hsu Hle Hshare.
  assert (Hq : toTheMinute (taskHours (id imp) (emptyPlan settings d))
                 (dayShare settings imp si d)).
  { change (taskHours (id imp) (emptyPlan settings d)) with 0%Q.
    apply (toTheMinute_comp 0 0 0 (dayShare settings imp si d));
      [reflexivity | now symmetry | exact toTheMinute_0]. }
  destruct Hq as (Hq1 & Hq2 & Hq3).
  exists (emptyPlan settings d), remaining, si, su.
  repeat split; auto.
  - change (taskHours (id imp) (emptyPlan settings d)) with 0%Q. ring.
  - change (taskHours (id unimp) (emptyPlan settings d)) with 0%Q. ring.
  - intros [s [[] _]].
Qed.

Lemma eisenhowerDay_outcome (donePlans later : list StudyPlan) (d : DateStr)
    (remaining : list (DateStr * Q)) (si su : Q) :
  Forall (fun p => date p <> d) donePlans ->
  Js.get Z.eqb remaining d = Some (dailyAvailableHours settings) ->
  wholeMinutes si -> wholeMinutes su -> (si <= estimatedHours imp)%Q ->
  dayOutcome settings imp unimp donePlans later d remaining si su
    (eisenhowerDay settings [] [imp; unimp]
       (focused imp unimp donePlans (emptyPlan settings d) later remaining
          si su) d).
Proof.
  intros Hd Hrem Hsi Hsu Hle.
  pose proof (dayOutcome_unchanged donePlans later d remaining si su
                Hsi Hsu Hle) as Hsame.
  assert (Hempty : date (emptyPlan settings d) = d) by reflexivity.
  unfold eisenhowerDay.
  cbn [focused e_dailyRemainingHours e_taskScheduledHours filter
         commitmentsOn].
  rewrite Hrem, get_imp, get_unimp, same_deadlineDateStr.
  destruct (d <=? deadlineDateStr settings imp) eqn:Hdl;
    [|rewrite !andb_false_r; apply Hsame; unfold dayShare; rewrite Hdl;
      reflexivity].
  rewrite !andb_true_r.
  destruct (Js.Qltb si (estimatedHours imp)) eqn:Hneed.
  - (* the important task still needs hours: it comes first *)
    apply Qltb_lt in Hneed.
    set (rest := if Js.Qltb su (estimatedHours unimp) then [unimp] else []).
    rewrite (eisenhowerTasks_focused imp rest d _ donePlans later _ remaining
               si su Hd Hempty).
    cbn [focused e_taskScheduledHours]. rewrite sched_imp, set_imp.
    fold (focused imp unimp donePlans (emptyPlan settings d) later remaining
            si su).
    destruct (Js.Qleb (dailyAvailableHours settings) 0) eqn:Hday.
    { apply Hsame. unfold dayShare. rewrite Hdl. cbn [andb].
      apply Qleb_le, Qltb_ge in Hday. rewrite Hday. reflexivity. }
    apply Qleb_gt in Hday.
    destruct (Js.Qleb (estimatedHours imp - si) 0) eqn:Hrem0.
    { apply Qleb_le in Hrem0. exfalso. lra. }
    clear Hrem0.
    set (hours := Qmin (estimatedHours imp - si)
                    (dailyAvailableHours settings)).
    assert (Hpos : (0 < hours)%Q).
    { unfold hours. apply Q.min_glb_lt; lra. }
    assert (Hfit : (hours <= dailyAvailableHours settings)%Q)
      by apply Q.le_min_r.
    assert (Hneedle : (hours <= estimatedHours imp - si)%Q)
      by apply Q.le_min_l.
    apply Qltb_lt in Hpos. rewrite Hpos. apply Qltb_lt in Hpos.
    cbn [plannedTasks emptyPlan].
    rewrite slot_in_empty_day by lra.
    set (slot := mkSlot _ _).
    set (allocated := Js.roundToMinute hours).
    assert (Hshare : forall x,
               (x == allocated)%Q ->
               toTheMinute x (dayShare settings imp si d)).
    { intros x Hx.
      apply (toTheMinute_comp allocated x hours
               (dayShare settings imp si d));
        [now symmetry | | apply roundToMinute_near].
      unfold dayShare. rewrite Hdl. cbn [andb].
      apply Qltb_lt in Hday. rewrite Hday. reflexivity. }
    assert (Hwrem : wholeMinutes (estimatedHours imp - si))
      by now apply wholeMinutes_minus.
    assert (Halloc : (allocated <= estimatedHours imp - si)%Q)
      by now apply roundToMinute_below.
    assert (Hsi1 : (Js.roundToMinute (si + allocated) == si + allocated)%Q).
    { apply roundToMinute_id, wholeMinutes_plus;
        [exact Hsi | apply roundToMinute_whole]. }
    set (p1 := withSessions (emptyPlan settings d) _ _).
    assert (Hp1i : (taskHours (id imp) p1 == allocated)%Q).
    { unfold p1. rewrite taskHours_snoc_own.
      change (taskHours (id imp) (emptyPlan settings d)) with 0%Q. ring. }
    assert (Hp1u : taskHours (id unimp) p1 = 0%Q).
    { unfold p1. now rewrite taskHours_snoc_other. }
    set (remaining1 := Js.set Z.eqb remaining d _).
    assert (Hrem1 : forall d', d' <> d ->
               Js.get Z.eqb remaining1 d' = Js.get Z.eqb remaining d').
    { intros d' Hd'. now apply get_set_other. }
    fold (focused imp unimp donePlans p1 later remaining1
            (Js.roundToMinute (si + allocated)) su).
    destruct (Qlt_le_dec (dailyAvailableHours settings)
                (estimatedHours imp - si)) as [Hshort|Henough].
    + (* the day cannot take all that is left: the day is used up *)
      assert (Hused : Js.Qleb (Js.roundToMinute
                                 (dailyAvailableHours settings - allocated))
                        0 = true).
      { apply Qleb_le. unfold allocated.
        rewrite (roundToMinute_comp _
                   (dailyAvailableHours settings
                    - Js.roundToMinute (dailyAvailableHours settings))).
        - rewrite roundToMinute_residue. apply Qle_refl.
        - rewrite (roundToMinute_comp hours (dailyAvailableHours settings));
            [reflexivity|].
          unfold hours. apply Q.min_r. now apply Qlt_le_weak. }
      assert (Hstop : forall st,
                 eisenhowerTasks settings [] d rest
                   (Js.roundToMinute
                      (dailyAvailableHours settings - allocated)) st = st).
      { intros st. unfold rest.
        destruct (Js.Qltb su (estimatedHours unimp)); [|reflexivity].
        cbn [eisenhowerTasks]. now rewrite Hused. }
      rewrite Hstop.
      destruct (Hshare _ Hp1i) as (Hq1 & Hq2 & Hq3).
      exists p1, remaining1, (Js.roundToMinute (si + allocated)), su.
      repeat split; auto.
      * rewrite Hsi1, Hp1i. reflexivity.
      * rewrite Hp1u. ring.
      * apply roundToMinute_whole.
      * rewrite Hsi1. lra.
      * intros [s [Hs Hid]]. unfold p1 in Hs. cbn in Hs.
        destruct Hs as [<-|[]]. cbn in Hid. congruence.
    + (* the day takes all that is left of the important task *)
      assert (Hall : (allocated == estimatedHours imp - si)%Q).
      { unfold allocated.
        rewrite (roundToMinute_comp hours (estimatedHours imp - si)).
        - now apply roundToMinute_id.
        - unfold hours. now apply Q.min_l. }
      assert (Hfull : (Js.roundToMinute (si + allocated)
                       == estimatedHours imp)%Q).
      { rewrite Hsi1, Hall. ring. }
      unfold rest. destruct (Js.Qltb su (estimatedHours unimp)).
      * destruct (attempt_unimportant d
                    (Js.roundToMinute
                       (dailyAvailableHours settings - allocated))
                    donePlans later p1 remaining1
                    (Js.roundToMinute (si + allocated)) su Hd eq_refl Hsu)
          as [cur' [remaining' [su' [Heq [Hdate [Hget [Hsu' [Hi' Hw']]]]]]]].
        rewrite Heq.
        destruct (Hshare (taskHours (id imp) cur')) as (Hq1 & Hq2 & Hq3);
          [now rewrite Hi'|].
        exists cur', remaining', (Js.roundToMinute (si + allocated)), su'.
        repeat split; auto.
        -- intros d' Hd'. rewrite Hget by exact Hd'. now apply Hrem1.
        -- rewrite Hi', Hsi1, Hp1i. reflexivity.
        -- rewrite Hp1u in Hsu'. lra.
        -- apply roundToMinute_whole.
        -- rewrite Hfull. apply Qle_refl.
      * cbn [eisenhowerTasks].
        destruct (Hshare _ Hp1i) as (Hq1 & Hq2 & Hq3).
        exists p1, remaining1, (Js.roundToMinute (si + allocated)), su.
        repeat split; auto.
        -- rewrite Hsi1, Hp1i. reflexivity.
        -- rewrite Hp1u. ring.
        -- apply roundToMinute_whole.
        -- rewrite Hfull. apply Qle_refl.
  - (* the important task has all its hours *)
    apply Qltb_ge in Hneed.
    assert (Hzero : (dayShare settings imp si d == 0)%Q).
    { apply dayShare_full. now apply Qle_antisym. }
    destruct (Js.Qltb su (estimatedHours unimp)); [|now apply Hsame].
    destruct (attempt_unimportant d (dailyAvailableHours settings) donePlans
                later (emptyPlan settings d) remaining si su Hd Hempty Hsu)
      as [cur' [remaining' [su' [Heq [Hdate [Hget [Hsu' [Hi' Hw']]]]]]]].
    rewrite Heq. exists cur', remaining', si, su'.
    change (taskHours (id unimp) (emptyPlan settings d)) with 0%Q in Hsu'.
    change (taskHours (id imp) (emptyPlan settings d)) with 0%Q in Hi'.
    assert (Hq : toTheMinute (taskHours (id imp) cur')
                   (dayShare settings imp si d)).
    { rewrite Hi'.
      apply (toTheMinute_comp 0 0 0 (dayShare settings imp si d));
        [reflexivity | now symmetry | exact toTheMinute_0]. }
    destruct Hq as (Hq1 & Hq2 & Hq3).
    repeat split; auto.
    + rewrite Hi'. ring.
    + lra.
    + intros _. now apply Qle_antisym.
Qed.


(** The loop over the days, from any day on. *)
Lemma eisenhower_days (rest : list DateStr) :
  forall (donePlans : list StudyPlan) (remaining : list (DateStr * Q))
         (si su : Q),
    NoDup rest ->
    (forall d, In d rest -> Forall (fun p => date p <> d) donePlans) ->
    (forall d,
        In d rest ->
        Js.get Z.eqb remaining d = Some (dailyAvailableHours settings)) ->
    wholeMinutes si -> wholeMinutes su -> (si <= estimatedHours imp)%Q ->
    (si == allocatedTo (id imp) donePlans)%Q ->
    (su == allocatedTo (id unimp) donePlans)%Q ->
    servedFirst imp unimp donePlans ->
    givenDailyShare settings imp donePlans ->
    exists plans remaining' si' su',
      fold_left (eisenhowerDay settings [] [imp; unimp]) rest
        (mkEisen (donePlans ++ map (emptyPlan settings) rest) remaining
           [(id imp, si); (id unimp, su)])
      = mkEisen plans remaining' [(id imp, si'); (id unimp, su')]
      /\ map date plans = map date donePlans ++ rest
      /\ (si' == allocatedTo (id imp) plans)%Q
      /\ (su' == allocatedTo (id unimp) plans)%Q
      /\ servedFirst imp unimp plans
      /\ givenDailyShare settings imp plans.
Proof.
  induction rest as [|d rest IH];
    intros donePlans remaining si su Hnd Hdone Hrem Hsi Hsu Hle Hai Hau Hfirst
      Hgiven.
  - simpl. rewrite app_nil_r. exists donePlans, remaining, si, su.
    rewrite app_nil_r. split; [reflexivity|]. split; [reflexivity|].
    split; [exact Hai|]. split; [exact Hau|].
    split; [exact Hfirst | exact Hgiven].
  - cbn [fold_left map].
    destruct (eisenhowerDay_outcome donePlans
                (map (emptyPlan settings) rest) d remaining si su
                (Hdone d (or_introl eq_refl)) (Hrem d (or_introl eq_refl))
                Hsi Hsu Hle)
      as [p [remaining' [si' [su' [Heq [Hdate [Hget [Hsi' [Hsu' [Hwi [Hwu
            [Hle' [Hserved Hshare]]]]]]]]]]]]].
    fold (focused imp unimp donePlans (emptyPlan settings d)
            (map (emptyPlan settings) rest) remaining si su).
    rewrite Heq. unfold focused.
    replace (donePlans ++ p :: map (emptyPlan settings) rest)
      with ((donePlans ++ [p]) ++ map (emptyPlan settings) rest)
      by now rewrite <- app_assoc.
    apply NoDup_cons_iff in Hnd. destruct Hnd as [Hd Hnd'].
    assert (Hai' : (si' == allocatedTo (id imp) (donePlans ++ [p]))%Q).
    { rewrite allocatedTo_app, Hsi', Hai. simpl. ring. }
    destruct (IH (donePlans ++ [p]) remaining' si' su') as
      [plans [remaining'' [si'' [su'' [Hfold [Hdates [Hi [Hu [Hf Hg]]]]]]]]];
      auto.
    + intros d' Hd'. apply Forall_app. split.
      * apply Hdone. now right.
      * constructor; [|constructor].
        intros He. apply Hd. rewrite <- Hdate, He. exact Hd'.
    + intros d' Hd'. rewrite Hget.
      * apply Hrem. now right.
      * intros ->. contradiction.
    + rewrite allocatedTo_app, Hsu', Hau. simpl. ring.
    + apply servedFirst_snoc; [exact Hfirst|].
      intros Hp. rewrite <- Hai'. now apply Hserved.
    + apply givenDailyShare_snoc; [exact Hgiven|].
      rewrite Hdate.
      apply (toTheMinute_comp _ _ _ _ (Qeq_refl _)
               (dayShare_comp settings imp _ _ d Hai) Hshare).
    + exists plans, remaining'', si'', su''.
      split; [exact Hfold|]. split; [|auto].
      rewrite Hdates, map_app, <- app_assoc. simpl. now rewrite Hdate.
Qed.


Hypothesis imp_important : importance imp = true.
Hypothesis unimp_unimportant : importance unimp = false.
Hypothesis imp_pending : task_status imp = pending.
Hypothesis unimp_pending : task_status unimp = pending.
Hypothesis imp_positive : (0 < estimatedHours imp)%Q.
Hypothesis unimp_positive : (0 < estimatedHours unimp)%Q.

Lemma schedulable_two (tasks : list Task) :
  tasks = [imp; unimp] \/ tasks = [unimp; imp] ->
  schedulable tasks = [imp; unimp].
Proof.
  apply Qltb_lt in imp_positive, unimp_positive.
  intros [-> | ->]; unfold schedulable, isPending; cbn [filter];
    rewrite imp_pending, unimp_pending, imp_positive, unimp_positive;
    cbn [andb Js.sort Js.insert]; unfold taskLeb;
    rewrite imp_important, unimp_unimportant; reflexivity.
Qed.

Lemma suggestions_two (si su hours : Q) :
  (su == hours)%Q ->
  let unscheduled := Qmax 0 (estimatedHours unimp - hours) in
  let suggestions :=
    getUnscheduledMinutesForTasks [imp; unimp]
      [(id imp, si); (id unimp, su)] settings in
  ((minSessionLengthHours settings < unscheduled)%Q ->
   In (shortfallSuggestion unimp unscheduled) suggestions)
  /\ (forall s,
        In s suggestions -> sug_importance s = Some false ->
        (minSessionLengthHours settings < unscheduled)%Q).
Proof.
  intros Hsu unscheduled suggestions.
  assert (Hu : (Qmax 0 (estimatedHours unimp - su) == unscheduled)%Q).
  { unfold unscheduled. now rewrite Hsu. }
  unfold suggestions, getUnscheduledMinutesForTasks, shortfallSuggestion,
    isPending.
  cbn [filter].
  rewrite imp_pending, unimp_pending. cbn [flat_map].
  rewrite sched_imp, sched_unimp.
  rewrite app_nil_r.
  rewrite imp_important, unimp_unimportant.
  split.
  - intros Hlt. apply in_app_iff. right. rewrite <- Hu in Hlt.
    apply Qltb_lt in Hlt. rewrite Hlt. left. f_equal.
    apply Math_round_comp. now rewrite Hu.
  - intros s Hin Himp. apply in_app_iff in Hin. destruct Hin as [Hin|Hin].
    + destruct (Js.Qltb _ _); [|contradiction].
      destruct Hin as [<-|[]]. discriminate.
    + destruct (Js.Qltb _ (Qmax 0 (estimatedHours unimp - su))) eqn:Hc;
        [|contradiction].
      apply Qltb_lt in Hc. now rewrite <- Hu.
Qed.

Lemma generateEisenhower_two (now : Instant) (tasks : list Task) :
  tasks = [imp; unimp] \/ tasks = [unimp; imp] ->
  let result := generateEisenhower now tasks settings [] in
  let unscheduled :=
    Qmax 0 (estimatedHours unimp - allocatedTo (id unimp) (fst result)) in
  map date (fst result) = computeAvailableDays now settings [imp; unimp]
  /\ givenDailyShare settings imp (fst result)
  /\ servedFirst imp unimp (fst result)
  /\ ((minSessionLengthHours settings < unscheduled)%Q ->
      In (shortfallSuggestion unimp unscheduled) (snd result))
  /\ (forall s,
        In s (snd result) -> sug_importance s = Some false ->
        (minSessionLengthHours settings < unscheduled)%Q).
Proof.
  intros Htasks. unfold generateEisenhower.
  rewrite (schedulable_two tasks Htasks).
  set (days := computeAvailableDays now settings [imp; unimp]).
  cbn [fold_left Js.set]. rewrite eqb_unimp_imp.
  destruct (eisenhower_days days []
              (fold_left (fun o d =>
                            Js.set Z.eqb o d (dailyAvailableHours settings))
                 days []) 0%Q 0%Q) as
    [plans [remaining' [si' [su' [Hfold [Hdates [Hi [Hu [Hf Hg]]]]]]]]].
  - apply computeAvailableDays_NoDup.
  - intros; constructor.
  - intros d Hd. apply get_fold_set. left. exact Hd.
  - apply wholeMinutes_0.
  - apply wholeMinutes_0.
  - now apply Qlt_le_weak.
  - reflexivity.
  - reflexivity.
  - intros [|? ?] p post Heq; discriminate.
  - intros [|? ?] p post Heq; discriminate.
  - cbn [app] in Hfold. cbv zeta. rewrite Hfold.
    cbn [fst snd e_plans e_taskScheduledHours].
    split; [exact Hdates|]. split; [exact Hg|]. split; [exact Hf|].
    now apply suggestions_two.
Qed.

End TwoTasks.




(** * Further properties *)

(** ** Display of durations *)

(** [Math.round] gives the integer a number is within a half of. *)
Lemma Math_round_nearest (x : Q) (n : Z) :
  (inject_Z n - (1 # 2) <= x)%Q -> (x < inject_Z n + (1 # 2))%Q ->
  Js.Math_round x = n.
Proof.
  intros Hl Hu. unfold Js.Math_round. apply Qfloor_unique.
  - lra.
  - rewrite inject_Z_plus. change (inject_Z 1) with 1%Q. lra.
Qed.

(** [formatTime] shows a duration to the nearest minute, as hours and minutes
    of that number of minutes; the hours are left out when there is none. *)
Theorem formatTime_hours_and_minutes (hours : Q) (h m : Z) :
  0 <= h -> 0 <= m < 60 ->
  (inject_Z (60 * h + m) - (1 # 2) <= hours * 60)%Q ->
  (hours * 60 < inject_Z (60 * h + m) + (1 # 2))%Q ->
  formatTime hours
  = if 0 <? h then (showZ h ++ "h " ++ showZ m ++ "m")%string
    else (showZ m ++ "m")%string.
Proof.
  intros Hh Hm Hl Hu. unfold formatTime.
  rewrite (Math_round_nearest _ _ Hl Hu).
  replace ((60 * h + m) / 60) with h
    by (apply (Z.div_unique _ 60 h m); lia).
  replace (Z.rem (60 * h + m) 60) with m; [reflexivity|].
  rewrite Z.rem_mod_nonneg by lia.
  apply (Z.mod_unique _ 60 h m); lia.
Qed.

Lemma formatTime_hours_and_minutes_witness :
  formatTime (3 # 2) = "1h 30m"%string.
Proof.
  apply (formatTime_hours_and_minutes (3 # 2) 1 30);
    [lia | lia | unfold Qle; simpl; lia | unfold Qlt; simpl; lia].
Defined.

Lemma Qfloor_below (x : Q) (n : Z) : (x < inject_Z n)%Q -> Qfloor x < n.
Proof.
  intros Hx. rewrite Zlt_Qlt.
  apply Qle_lt_trans with (y := x); [apply Qfloor_le | exact Hx].
Qed.

(** The hours, minutes and seconds of a number of seconds. *)
Lemma clock_fields (h m s : Z) :
  0 <= h -> 0 <= m < 60 -> 0 <= s < 60 ->
  (3600 * h + 60 * m + s) / 3600 = h
  /\ Z.rem (3600 * h + 60 * m + s) 3600 / 60 = m
  /\ Z.rem (3600 * h + 60 * m + s) 60 = s.
Proof.
  intros Hh Hm Hs. rewrite !Z.rem_mod_nonneg by lia. repeat split.
  - symmetry. apply (Z.div_unique _ 3600 h (60 * m + s)); lia.
  - replace ((3600 * h + 60 * m + s) mod 3600) with (60 * m + s)
      by (apply (Z.mod_unique _ 3600 h (60 * m + s)); lia).
    symmetry. apply (Z.div_unique _ 60 m s); lia.
  - symmetry. apply (Z.mod_unique _ 60 (60 * h + m) s); lia.
Qed.

(** [formatTimeForTimer] shows zero minutes for anything below half a
    second, negative numbers of seconds included; otherwise it shows the
    hours and minutes of the nearest whole second and never the seconds,
    leaving out the minutes after the hours when there is none. *)
Theorem formatTimeForTimer_hours_and_minutes (seconds : Q) :
  ((seconds < 1 # 2)%Q -> formatTimeForTimer seconds = "0m"%string)
  /\ (forall h m s : Z,
        0 <= h -> 0 <= m < 60 -> 0 <= s < 60 ->
        (inject_Z (3600 * h + 60 * m + s) - (1 # 2) <= seconds)%Q ->
        (seconds < inject_Z (3600 * h + 60 * m + s) + (1 # 2))%Q ->
        let minutes :=
          if 0 <? m then (" " ++ showZ m ++ "m")%string else EmptyString in
        formatTimeForTimer seconds
        = if 0 <? h then (showZ h ++ "h" ++ minutes)%string
          else (showZ m ++ "m")%string).
Proof.
  split.
  - intros Hs.
    assert (Ht : Z.max 0 (Js.Math_round seconds) = 0).
    { apply Z.max_l. unfold Js.Math_round.
      assert (Qfloor (seconds + (1 # 2)) < 1); [|lia].
      apply Qfloor_below. change (inject_Z 1) with 1%Q. lra. }
    unfold formatTimeForTimer. rewrite Ht. reflexivity.
  - intros h m s Hh Hm Hs Hl Hu. unfold formatTimeForTimer.
    rewrite (Math_round_nearest _ _ Hl Hu).
    rewrite Z.max_r by lia.
    destruct (clock_fields h m s Hh Hm Hs) as (-> & -> & _). reflexivity.
Qed.

(** ** More on the status of a session *)

(** A session is missed exactly when it is open (not done, not completed,
    not skipped), carries no original time and date, and belongs to a plan
    of a day before today. *)
Theorem checkSessionStatus_missed_iff (now : Instant) (session : StudySession)
    (planDate : DateStr) :
  checkSessionStatus now session planDate = missed
  <-> isOpen session = true /\ isRedistributed session = false
      /\ planDate < getLocalDateString now.
Proof.
  unfold checkSessionStatus, isOpen, isRedistributed.
  destruct (isTrue (done session)); simpl;
    [split; [discriminate | intros [H _]; discriminate]|].
  destruct (statusIs session completed); simpl;
    [split; [discriminate | intros [H _]; discriminate]|].
  destruct (statusIs session skipped); simpl;
    [split; [discriminate | intros [H _]; discriminate]|].
  destruct (truthyTime (originalTime session)
            && truthyDate (originalDate session));
    [split; [discriminate | intros (_ & H & _); discriminate]|].
  destruct (Z.ltb_spec planDate (getLocalDateString now)) as [Hlt|Hge].
  - split; auto.
  - split.
    + repeat match goal with
             | |- context [if ?b then _ else _] => destruct b
             end; discriminate.
    + intros (_ & _ & H). lia.
Qed.

(** An open session of today's plan whose start is not a time of day (the
    empty string of a session that found no slot) is overdue at any time of
    the day. *)
Theorem unplaced_session_of_today_is_overdue (now : Instant)
    (session : StudySession) (planDate : DateStr) :
  isOpen session = true -> isRedistributed session = false ->
  planDate = getLocalDateString now ->
  dateAt planDate (startTime session) = None ->
  checkSessionStatus now session planDate = overdue.
Proof.
  unfold checkSessionStatus, isOpen, isRedistributed.
  intros Ho Hr -> Hs.
  apply andb_true_iff in Ho. destruct Ho as [Ho Hsk].
  apply andb_true_iff in Ho. destruct Ho as [Hd Hc].
  rewrite negb_true_iff in *. rewrite Hd, Hc, Hsk, Hr, Hs. simpl.
  rewrite Z.ltb_irrefl, Z.eqb_refl. reflexivity.
Qed.

Lemma unplaced_session_of_today_is_overdue_witness :
  checkSessionStatus Scenario.now
    (mkSession "essay" (Scenario.today, NoTime) NoTime NoTime 1 (Some 1)
       (Some true) None None (Some scheduled) None None) Scenario.today
  = overdue.
Proof.
  apply unplaced_session_of_today_is_overdue; reflexivity.
Defined.

(** ** Unscheduled minutes *)

Lemma Math_round_above (x : Q) (n : Z) :
  (inject_Z n - (1 # 2) <= x)%Q -> n <= Js.Math_round x.
Proof.
  intros H. unfold Js.Math_round. rewrite <- (Qfloor_Z n).
  apply Qfloor_resp_le. lra.
Qed.

(** Every entry of [getUnscheduledMinutesForTasks] stands for a pending task
    that has fewer hours scheduled than estimated, and reports at least one
    minute and at least the minimum session length, when that setting is not
    negative. *)
Theorem unscheduled_minutes_above_minimum (tasks : list Task)
    (taskScheduledHours : list (string * Q)) (settings : UserSettings)
    (entry : Suggestion) :
  0 <= minSessionLength settings ->
  In entry (getUnscheduledMinutesForTasks tasks taskScheduledHours settings) ->
  1 <= unscheduledMinutes entry
  /\ minSessionLength settings <= unscheduledMinutes entry
  /\ exists task,
       In task tasks /\ isPending task = true
       /\ taskTitle entry = title task
       /\ (scheduledOr0 taskScheduledHours (id task) < estimatedHours task)%Q.
Proof.
  intros Hmin Hin. unfold getUnscheduledMinutesForTasks in Hin.
  apply in_flat_map in Hin. destruct Hin as [task [Ht Hin]].
  apply filter_In in Ht. destruct Ht as [Ht Hp].
  set (u := Qmax 0 (estimatedHours task
                    - scheduledOr0 taskScheduledHours (id task))) in *.
  destruct (Js.Qltb (minSessionLengthHours settings) u) eqn:Hu;
    [|contradiction].
  destruct Hin as [<-|[]]. simpl.
  apply Qltb_lt in Hu.
  assert (Hthr : (inject_Z (Z.max 1 (minSessionLength settings)) - (1 # 2)
                  <= u * 60)%Q).
  { unfold minSessionLengthHours in Hu.
    destruct (Z.eqb_spec (minSessionLength settings) 0) as [E|E].
    - rewrite E. change (inject_Z (Z.max 1 0)) with 1%Q. lra.
    - rewrite Z.max_r by lia.
      assert ((inject_Z (minSessionLength settings) / 60 * 60
               == inject_Z (minSessionLength settings))%Q) by field.
      lra. }
  apply Math_round_above in Hthr.
  split; [lia|]. split; [lia|].
  exists task. repeat split; try assumption.
  assert (Hpos : (0 < u)%Q).
  { unfold minSessionLengthHours in Hu.
    destruct (minSessionLength settings =? 0) eqn:E; [lra|].
    apply Z.eqb_neq in E.
    assert ((0 <= inject_Z (minSessionLength settings) / 60)%Q).
    { apply Qle_shift_div_l; [reflexivity|]. rewrite Qmult_0_l.
      change 0%Q with (inject_Z 0). rewrite <- Zle_Qle. lia. }
    lra. }
  unfold u in Hpos.
  destruct (Q.max_spec 0 (estimatedHours task
                          - scheduledOr0 taskScheduledHours (id task)))
    as [[Hlt Hm]|[Hle Hm]]; rewrite Hm in Hpos; lra.
Qed.

Lemma unscheduled_minutes_above_minimum_witness :
  let entry := mkSuggestion "essay" 120 (Some true)
                 (Some ((Scenario.today + 1) * DAY_MS)) in
  1 <= unscheduledMinutes entry
  /\ minSessionLength (Scenario.settings eisenhower 8 6 23)
     <= unscheduledMinutes entry
  /\ exists task,
       In task [Scenario.essay] /\ isPending task = true
       /\ taskTitle entry = title task
       /\ (scheduledOr0 [] (id task) < estimatedHours task)%Q.
Proof.
  apply (unscheduled_minutes_above_minimum [Scenario.essay] []
           (Scenario.settings eisenhower 8 6 23)).
  - simpl. lia.
  - vm_compute. left. reflexivity.
Defined.

(** ** Session lengths of even mode *)

Lemma sumOf_app (l1 l2 : list Q) : (sumOf (l1 ++ l2) == sumOf l1 + sumOf l2)%Q.
Proof.
  induction l1 as [|x l1 IH]; simpl; [ring | rewrite IH; ring].
Qed.

(** What the loop of [optimizeSessionDistribution] adds to the sessions it
    starts from. *)
Lemma optimizeLoop_adds (settings : UserSettings) (numSessions : Z)
    (left : nat) :
  forall (i : Z) (remainingHours : Q) (optimalSessions : list Q),
  exists new,
    fst (optimizeLoop settings numSessions left i remainingHours
           optimalSessions) = optimalSessions ++ new
    /\ (sumOf new
        + snd (optimizeLoop settings numSessions left i remainingHours
                 optimalSessions) == remainingHours)%Q
    /\ ((0 <= remainingHours)%Q \/ new <> [] ->
        (0 <= snd (optimizeLoop settings numSessions left i remainingHours
                     optimalSessions))%Q)
    /\ Forall (fun x => (minSessionHours settings <= x)%Q
                        /\ (x <= maxSessionHours settings)%Q) new
    /\ (List.length new <= left)%nat.
Proof.
  induction left as [|left IH]; intros i rem acc; simpl.
  - exists []. rewrite app_nil_r. simpl. repeat split.
    + ring.
    + intros [H|H]; [exact H | contradiction].
    + constructor.
    + lia.
  - destruct (Js.Qltb 0 rem) eqn:Hrem.
    + set (sl := Qmin (Qmin (rem / inject_Z (numSessions - i))
                         (maxSessionHours settings)) rem).
      destruct (Js.Qleb (minSessionHours settings) sl) eqn:Hsl.
      * destruct (IH (i + 1) (rem - sl)%Q (acc ++ [sl]))
          as (new & Hl & Hsum & Hpos & Hall & Hlen).
        exists (sl :: new). rewrite Hl, <- app_assoc. simpl.
        assert (Hle : (sl <= rem)%Q) by apply Q.le_min_r.
        repeat split.
        -- rewrite <- Qplus_assoc, Hsum. ring.
        -- intros _. apply Hpos. left. lra.
        -- constructor; [|exact Hall]. split.
           ++ now apply Qleb_le.
           ++ unfold sl. eapply Qle_trans; [apply Q.le_min_l|].
              apply Q.le_min_r.
        -- lia.
      * destruct (IH (i + 1) rem acc) as (new & Hl & Hsum & Hpos & Hall & Hlen).
        exists new. repeat split; try assumption. lia.
    + exists []. rewrite app_nil_r. simpl. repeat split.
      * ring.
      * intros [H|H]; [exact H | contradiction].
      * constructor.
      * lia.
Qed.

(** The number of sessions [optimizeSessionDistribution] aims at is at most
    the number of days. *)
Lemma numSessions_le_days (n len : Z) :
  0 <= len ->
  (if Z.min len n =? 0 then len else Z.min len n) <= len.
Proof. intros H. destruct (Z.eqb_spec (Z.min len n) 0); lia. Qed.

Lemma optimizeSessionDistribution_lengths (settings : UserSettings)
    (totalHours : Q) (daysForTask : list DateStr) :
  let sessions :=
    optimizeSessionDistribution settings totalHours daysForTask in
  (List.length sessions <= List.length daysForTask)%nat
  /\ Forall (fun x => (minSessionHours settings <= x)%Q) sessions
  /\ Forall (fun x => (x <= maxSessionHours settings)%Q) (tl sessions).
Proof.
  unfold optimizeSessionDistribution.
  set (len := Z.of_nat (List.length daysForTask)).
  set (n := if Z.min len _ =? 0 then len else Z.min len _).
  destruct (optimizeLoop_adds settings n (Z.to_nat n) 0 totalHours [])
    as (new & Hl & Hsum & Hpos & Hall & Hlen).
  assert (Hn : n <= len) by (apply numSessions_le_days; unfold len; lia).
  destruct (optimizeLoop settings n (Z.to_nat n) 0 totalHours [])
    as [l r]. simpl in *. subst l.
  assert (Hlen' : (List.length new <= List.length daysForTask)%nat)
    by (unfold len in Hn; lia).
  destruct new as [|first others]; simpl.
  - repeat split; [lia | constructor | constructor].
  - inversion Hall as [|? ? [Hmin Hmax] Hall']; subst.
    assert (Hge : Forall (fun x => (minSessionHours settings <= x)%Q) others).
    { eapply Forall_impl; [|exact Hall']. now intros x [H _]. }
    assert (Hle : Forall (fun x => (x <= maxSessionHours settings)%Q) others).
    { eapply Forall_impl; [|exact Hall']. now intros x [_ H]. }
    destruct (Js.Qltb 0 r) eqn:Hr; simpl.
    + apply Qltb_lt in Hr. repeat split; try assumption.
      constructor; [lra | exact Hge].
    + repeat split; try assumption. now constructor.
Qed.

Lemma optimizeSessionDistribution_sum (settings : UserSettings)
    (totalHours : Q) (daysForTask : list DateStr) :
  let sessions :=
    optimizeSessionDistribution settings totalHours daysForTask in
  (sessions <> [] -> (sumOf sessions == totalHours)%Q)
  /\ (daysForTask <> [] ->
      (0 < minSessionHours settings)%Q ->
      (minSessionHours settings <= totalHours)%Q ->
      (minSessionHours settings <= maxSessionHours settings)%Q ->
      sessions <> []).
Proof.
  unfold optimizeSessionDistribution.
  set (len := Z.of_nat (List.length daysForTask)).
  set (k := Js.Math_floor (totalHours / minSessionHours settings)).
  set (n := if Z.min len k =? 0 then len else Z.min len k).
  split.
  - destruct (optimizeLoop_adds settings n (Z.to_nat n) 0 totalHours [])
      as (new & Hl & Hsum & Hpos & Hall & Hlen).
    destruct (optimizeLoop settings n (Z.to_nat n) 0 totalHours [])
      as [l r]. simpl in *. subst l.
    destruct new as [|first others]; [intros H; now contradiction H|].
    intros _. simpl in Hsum.
    destruct (Js.Qltb 0 r) eqn:Hr; simpl.
    + lra.
    + apply Qltb_ge in Hr.
      assert (0 <= r)%Q by (apply Hpos; right; discriminate). lra.
  - intros Hdays Hmin Htot Hmax.
    assert (Hlen : 1 <= len).
    { unfold len. destruct daysForTask; [contradiction|]. simpl. lia. }
    assert (Hk : 1 <= k).
    { unfold k, Js.Math_floor. rewrite <- (Qfloor_Z 1).
      apply Qfloor_resp_le. apply Qle_shift_div_l; [exact Hmin|].
      change (inject_Z 1) with 1%Q. lra. }
    assert (Hn : n = Z.min len k /\ 1 <= n).
    { unfold n. destruct (Z.eqb_spec (Z.min len k) 0); lia. }
    destruct Hn as [Hn Hn1].
    destruct (Z.to_nat n) as [|left] eqn:Hto; [lia|].
    simpl.
    assert (Hpos : Js.Qltb 0 totalHours = true) by (apply Qltb_lt; lra).
    rewrite Hpos.
    set (sl := Qmin (Qmin (totalHours / inject_Z (n - 0))
                       (maxSessionHours settings)) totalHours).
    assert (Hsl : Js.Qleb (minSessionHours settings) sl = true).
    { apply Qleb_le. unfold sl. apply Q.min_glb; [apply Q.min_glb|];
        [|exact Hmax | exact Htot].
      rewrite Z.sub_0_r.
      assert (Hnq : (0 < inject_Z n)%Q).
      { change 0%Q with (inject_Z 0). rewrite <- Zlt_Qlt. lia. }
      apply Qle_shift_div_l; [exact Hnq|].
      assert (Hnk : (inject_Z n <= totalHours / minSessionHours settings)%Q).
      { eapply Qle_trans; [|apply (Qfloor_le (totalHours / _))].
        rewrite <- Zle_Qle. fold (Js.Math_floor (totalHours
                                                / minSessionHours settings)).
        fold k. lia. }
      apply (Qmult_le_r _ _ (minSessionHours settings)) in Hnk; [|exact Hmin].
      assert (Hd : (totalHours / minSessionHours settings
                    * minSessionHours settings == totalHours)%Q).
      { field. intros E. rewrite E in Hmin. now apply Qlt_irrefl in Hmin. }
      rewrite Hd in Hnk. rewrite Qmult_comm. exact Hnk. }
    rewrite Hsl. simpl.
    destruct (optimizeLoop_adds settings n left 1 (totalHours - sl)%Q [sl])
      as (new & Hl & _).
    destruct (optimizeLoop settings n left 1 (totalHours - sl)%Q [sl])
      as [l r]. simpl in Hl. subst l.
    simpl. destruct (Js.Qltb 0 r); intros H; discriminate H.
Qed.

(** [optimizeSessionDistribution] gives at most one session length per day;
    each is at least the minimum session length, and each but the first is at
    most the cap [min(4, dailyAvailableHours)].  The lengths add up to the
    hours asked for whenever there is any; and there is some as soon as
    there is a day, the hours reach the minimum session length, which is
    positive, and the cap is not below it. *)
Theorem optimizeSessionDistribution_sessions (settings : UserSettings)
    (totalHours : Q) (daysForTask : list DateStr) :
  let sessions :=
    optimizeSessionDistribution settings totalHours daysForTask in
  (List.length sessions <= List.length daysForTask)%nat
  /\ Forall (fun x => (minSessionHours settings <= x)%Q) sessions
  /\ Forall (fun x => (x <= maxSessionHours settings)%Q) (tl sessions)
  /\ (sessions <> [] -> (sumOf sessions == totalHours)%Q)
  /\ (daysForTask <> [] ->
      (0 < minSessionHours settings)%Q ->
      (minSessionHours settings <= totalHours)%Q ->
      (minSessionHours settings <= maxSessionHours settings)%Q ->
      sessions <> []).
Proof.
  pose proof (optimizeSessionDistribution_lengths settings totalHours
                daysForTask) as (H1 & H2 & H3).
  pose proof (optimizeSessionDistribution_sum settings totalHours
                daysForTask) as (H4 & H5).
  cbv zeta. auto.
Qed.

(** ** One session per task and day *)

Lemma combineGroup_single (g : list StudySession) :
  g <> [] -> exists s, combineGroup g = [s].
Proof.
  destruct g as [|a [|b l]]; [contradiction | now exists a |].
  intros _. unfold combineGroup.
  destruct (sortByStartTime_two a b l) as [x [y [l' Hs]]].
  rewrite Hs. eauto.
Qed.

(** Groups of one session each: the task ids of the sessions are the keys. *)
Lemma single_groups_keys (M : list (string * list StudySession)) :
  Forall GroupOK M ->
  Forall (fun e => exists s, snd e = [s]) M ->
  map taskId (flat_map snd M) = map fst M.
Proof.
  induction 1 as [|[k g] M [_ Hg] HM IH]; intros H1; [reflexivity|].
  inversion H1 as [|? ? [s Hs] H1']; subst. simpl in *. subst g.
  simpl. rewrite IH by assumption. f_equal.
  inversion Hg as [|? ? [Hk _] _]; subst. reflexivity.
Qed.

(** After [combineSessionsOnSameDay] every plan holds at most one session
    that is not skipped for each task. *)
Theorem combine_leaves_one_session_per_task (studyPlans : list StudyPlan) :
  Forall (fun plan => NoDup (liveTaskIds plan))
    (combineSessionsOnSameDay studyPlans).
Proof.
  unfold combineSessionsOnSameDay. apply Forall_forall. intros p Hp.
  apply in_map_iff in Hp. destruct Hp as [plan [<- _]].
  unfold liveTaskIds, filterSkippedSessions.
  rewrite combinePlan_sessions, filter_app.
  pose proof (combineWith_nonskipped combineGroup combineGroup_nonempty
                combineGroup_member (plannedTasks plan)) as Hns.
  rewrite (filter_all _ (combineWith combineGroup (plannedTasks plan))).
  2:{ rewrite Forall_forall in Hns. intros s Hs. now rewrite (Hns s Hs). }
  rewrite (filter_none _ (filter _ (plannedTasks plan))).
  2:{ intros s Hs. apply filter_In in Hs. destruct Hs as [_ Hs].
      now rewrite Hs. }
  rewrite app_nil_r, combineWith_groups.
  destruct (mergedGroups_ok combineGroup combineGroup_nonempty
              combineGroup_member (plannedTasks plan)) as [Hnd HG].
  rewrite single_groups_keys; [exact Hnd | exact HG |].
  unfold mergedGroups. apply Forall_forall. intros e He.
  apply in_map_iff in He. destruct He as [e0 [<- He0]]. simpl.
  apply combineGroup_single.
  apply (proj1 (entries_In _ _)) in He0.
  destruct (groupByTask_ok (plannedTasks plan)) as [_ HG0].
  rewrite Forall_forall in HG0. now destruct (HG0 e0 He0).
Qed.

(** ** The validated combination pass *)

Lemma combineGroupWithValidation_hours (settings : UserSettings)
    (g : list StudySession) :
  (sumQ (combineGroupWithValidation settings g) == sumQ g)%Q.
Proof.
  destruct g as [|a [|b l]]; try reflexivity.
  unfold combineGroupWithValidation.
  pose proof (sort_perm startLeb (a :: b :: l)) as Hp.
  change (Js.sort startLeb (a :: b :: l))
    with (sortByStartTime (a :: b :: l)) in Hp.
  destruct (_ && _).
  - destruct (sortByStartTime_two a b l) as [x [y [l' Hs]]].
    rewrite Hs in *. rewrite <- (sumQ_perm _ _ Hp).
    cbn [sumQ fold_right combinedSession allocatedHours].
    rewrite sumHours_sumQ. cbn [sumQ fold_right]. ring.
  - now apply sumQ_perm.
Qed.

Section HoursFacts.
Variable f : list StudySession -> list StudySession.
Hypothesis f_member : forall k g, Forall (okFor k) g -> Forall (okFor k) (f g).
Hypothesis f_hours : forall g, (sumQ (f g) == sumQ g)%Q.

Lemma merged_hours (tid : string) (E : list (string * list StudySession)) :
  Forall GroupOK E ->
  (sumQ (liveSessionsOf tid (flat_map (fun e => f (snd e)) E))
   == sumQ (liveSessionsOf tid (flat_map snd E)))%Q.
Proof.
  induction 1 as [|[k g] E [_ Hg] HE IH]; simpl in *; [reflexivity|].
  unfold liveSessionsOf in *. rewrite !filter_app, !sumQ_app, IH.
  apply Qplus_inj_r.
  pose proof (f_member k g Hg) as Hc.
  destruct (string_dec k tid) as [<-|Hne].
  - fold (liveSessionsOf k (f g)). fold (liveSessionsOf k g).
    rewrite !liveSessionsOf_own by assumption. apply f_hours.
  - fold (liveSessionsOf tid (f g)). fold (liveSessionsOf tid g).
    now rewrite !(liveSessionsOf_other k tid).
Qed.

Lemma combineWith_taskHours (tid : string) (l : list StudySession) :
  (sumQ (liveSessionsOf tid (combineWith f l))
   == sumQ (liveSessionsOf tid l))%Q.
Proof.
  unfold combineWith. rewrite merged_hours.
  - apply sumQ_perm. unfold liveSessionsOf.
    rewrite <- (filter_implied _ (fun s => negb (statusIs s skipped)) l).
    + apply filter_perm. fold (filterSkippedSessions l).
      rewrite <- groupByTask_perm.
      apply Permutation_flat_map, entries_perm.
    + intros s Hs. now apply andb_true_iff in Hs.
  - destruct (groupByTask_ok l) as [_ HG].
    rewrite Forall_forall in *. intros e He. apply HG.
    now apply (proj1 (entries_In _ _)).
Qed.

Lemma combineWith_allHours (l : list StudySession) :
  (sumQ (combineWith f l) == sumQ (filterSkippedSessions l))%Q.
Proof.
  unfold combineWith.
  transitivity (sumQ (flat_map snd (Js.entries (groupByTask l)))).
  - induction (Js.entries (groupByTask l)) as [|e E IH]; simpl;
      [reflexivity|].
    now rewrite !sumQ_app, IH, f_hours.
  - apply sumQ_perm. rewrite <- groupByTask_perm.
    apply Permutation_flat_map, entries_perm.
Qed.

End HoursFacts.

Lemma readPlan_mapAt (f : StudyPlan -> StudyPlan) (t : nat -> bool)
    (h : Store) :
  forall (i r : nat),
    readPlan (mapAt f t i h) r
    = match readPlan h r with
      | Some p => Some (if t (r + i)%nat then f p else p)
      | None => None
      end.
Proof.
  unfold readPlan. induction h as [|p h IH]; intros i r; simpl.
  - now destruct r.
  - destruct r as [|r]; simpl; [reflexivity|].
    rewrite IH. now replace (r + S i)%nat with (S (r + i)) by lia.
Qed.

(** The validated combination pass of the redistribution engine keeps, for
    every plan of the array and every task, the hours of the sessions that
    are not skipped; it drops the skipped sessions of the plan, and sets the
    plan's [totalStudyHours] to the hours of all the sessions it keeps. *)
Theorem validated_combination_drops_skipped (refs : list Ref) (h : Store)
    (settings : UserSettings) (r : Ref) (plan : StudyPlan) :
  In r refs -> readPlan h r = Some plan ->
  exists after,
    readPlan (combineSessionsOnSameDayWithValidation refs settings h) r
    = Some after
    /\ date after = date plan
    /\ (forall tid, (taskHours tid after == taskHours tid plan)%Q)
    /\ skippedSessionsOf after = []
    /\ (totalStudyHours after
        == sumHours (filterSkippedSessions (plannedTasks plan)))%Q.
Proof.
  intros Hr Hp. exists (combinePlanWithValidation settings plan).
  pose (fv := combineGroupWithValidation settings).
  assert (Hne : forall g, g <> [] -> fv g <> [])
    by apply combineGroupWithValidation_nonempty.
  assert (Hmem : forall k g, Forall (okFor k) g -> Forall (okFor k) (fv g))
    by apply combineGroupWithValidation_member.
  assert (Hh : forall g, (sumQ (fv g) == sumQ g)%Q)
    by apply combineGroupWithValidation_hours.
  split; [|split; [reflexivity|split; [|split]]].
  - unfold combineSessionsOnSameDayWithValidation.
    rewrite forEachPlan_mapAt
      by apply combinePlanWithValidation_idempotent.
    rewrite readPlan_mapAt, Hp, Nat.add_0_r.
    replace (existsb (Nat.eqb r) refs) with true; [reflexivity|].
    symmetry. apply existsb_exists. exists r. split; [exact Hr|].
    apply Nat.eqb_refl.
  - intros tid. unfold taskHours. rewrite !sumHours_sumQ.
    apply (combineWith_taskHours fv Hmem Hh).
  - unfold skippedSessionsOf. apply filter_none.
    pose proof (combineWith_nonskipped fv Hne Hmem (plannedTasks plan)) as Hns.
    rewrite Forall_forall in Hns. exact Hns.
  - change (totalStudyHours (combinePlanWithValidation settings plan))
      with (sumHours (combineWith fv (plannedTasks plan))).
    rewrite !sumHours_sumQ. apply (combineWith_allHours fv Hh).
Qed.

Lemma validated_combination_drops_skipped_witness :
  exists after,
    readPlan (combineSessionsOnSameDayWithValidation [0%nat; 1%nat]
                (Scenario.settings even 8 8 18) Scenario.store) 1%nat
    = Some after
    /\ date after = Scenario.today
    /\ (forall tid,
          (taskHours tid after
           == taskHours tid
                (mkPlan Scenario.today Scenario.today
                   [Scenario.projectAtTen; Scenario.readingAtTwo] 0 8 None))%Q)
    /\ skippedSessionsOf after = []
    /\ (totalStudyHours after
        == sumHours (filterSkippedSessions
                       [Scenario.projectAtTen; Scenario.readingAtTwo]))%Q.
Proof.
  apply (validated_combination_drops_skipped [0%nat; 1%nat] Scenario.store
           (Scenario.settings even 8 8 18) 1%nat
           (mkPlan Scenario.today Scenario.today
              [Scenario.projectAtTen; Scenario.readingAtTwo] 0 8 None)).
  - right. left. reflexivity.
  - reflexivity.
Defined.

(** ** The time slots of a day *)

Lemma slotMs_app (l1 l2 : list TimeSlot) :
  slotMs (l1 ++ l2) = slotMs l1 + slotMs l2.
Proof. induction l1 as [|s l1 IH]; simpl; lia. Qed.

Lemma truncMs_Z (z : Z) (x : Q) : (x == inject_Z z)%Q -> truncMs x = z.
Proof.
  intros H. unfold truncMs.
  destruct (Js.Qleb 0 x); rewrite H; [apply Qfloor_Z | apply Qceiling_Z].
Qed.

Lemma minutes_of_ms (k : Z) :
  (inject_Z (k * MINUTE_MS) / inject_Z MINUTE_MS == inject_Z k)%Q.
Proof.
  unfold MINUTE_MS. rewrite inject_Z_mult. field.
Qed.

Section DaySlots.
Variables (dt : Instant) (dateString : DateStr) (totalAvailableMinutes : Q).

Lemma setHoursOf_onTheMinute (t : TimeStr) (c : Instant) :
  setHoursOf dt t = Some c -> onTheMinute dt c.
Proof.
  destruct t as [|h m]; simpl; [discriminate|].
  intros E. injection E as <-. now exists (h * 60 + m).
Qed.

Lemma slotsAround_inv (commitments : list FixedCommitment) :
  forall currentTime usedMinutes slots,
    slotsInv dt totalAvailableMinutes slots currentTime usedMinutes ->
    let '(slots', currentTime', usedMinutes') :=
      slotsAround dt dateString totalAvailableMinutes commitments currentTime
        usedMinutes slots in
    slotsInv dt totalAvailableMinutes slots' currentTime' usedMinutes'.
Proof.
  induction commitments as [|c rest IH]; intros ct used slots Hinv; simpl;
    [exact Hinv|].
  set (ce := setHoursOf dt (effectiveEnd dateString c)).
  assert (Hce : forall x, ce = Some x -> onTheMinute dt x)
    by (intros x; apply setHoursOf_onTheMinute).
  destruct Hinv as (Hwf & [u [Hu Hms]] & Hle & Hct).
  assert (Hkeep : slotsInv dt totalAvailableMinutes slots ce used).
  { repeat split; try assumption. now exists u. }
  destruct ct as [ct|]; [|now apply IH].
  destruct (setHoursOf dt (effectiveStart dateString c)) as [cs|] eqn:Ecs;
    [|now apply IH].
  destruct (Z.ltb_spec ct cs) as [Hlt|Hge]; [|now apply IH].
  destruct (Js.Qleb _ totalAvailableMinutes) eqn:Hfit; [|now apply IH].
  apply IH. apply Qleb_le in Hfit.
  destruct (Hct ct eq_refl) as [k Hk].
  destruct (setHoursOf_onTheMinute _ _ Ecs) as [k' Hk'].
  assert (Hd : (inject_Z (cs - ct) / inject_Z MINUTE_MS
                == inject_Z (k' - k))%Q).
  { replace (cs - ct) with ((k' - k) * MINUTE_MS) by lia.
    apply minutes_of_ms. }
  repeat split.
  - apply Forall_app. split; [exact Hwf|]. constructor; [exact Hlt|constructor].
  - exists (u + (k' - k)). split.
    + rewrite Hd, Hu, inject_Z_plus. reflexivity.
    + rewrite slotMs_app. simpl. lia.
  - exact Hfit.
  - exact Hce.
Qed.

End DaySlots.

(** When the daily hours are a whole number of minutes and not negative,
    every slot [getDailyAvailableTimeSlots] offers ends after it starts, and
    the slots of the day together are no longer than the daily hours. *)
Theorem daily_slots_within_daily_hours (dt : Instant) (dailyHours : Q)
    (commitments : list FixedCommitment) (workDays : list Z)
    (startHour endHour : Z) :
  wholeMinutes dailyHours -> (0 <= dailyHours)%Q ->
  let slots :=
    getDailyAvailableTimeSlots dt dailyHours commitments workDays startHour
      endHour in
  Forall (fun slot => ts_start slot < ts_end slot) slots
  /\ (inject_Z (slotMs slots) <= dailyHours * inject_Z HOUR_MS)%Q.
Proof.
  intros [w Hw] Hpos. unfold getDailyAvailableTimeSlots.
  destruct (negb (includes workDays (getDay dt))).
  { simpl. split; [constructor|]. unfold HOUR_MS.
    change (inject_Z 0) with 0%Q. apply Qmult_le_0_compat; [exact Hpos|].
    discriminate. }
  set (sorted := Js.sort _ _).
  set (total := (dailyHours * 60)%Q).
  assert (Htot : (total == inject_Z w)%Q).
  { unfold total. rewrite Hw. field. }
  assert (Hinit : slotsInv dt total [] (Some (setHour dt startHour)) 0%Q).
  { repeat split.
    - constructor.
    - exists 0. split; reflexivity.
    - unfold total. lra.
    - intros c E. injection E as <-. exists (startHour * 60).
      unfold setHour, HOUR_MS, MINUTE_MS. lia. }
  pose proof (slotsAround_inv dt (toISODate dt) total sorted _ _ _ Hinit)
    as Hinv.
  destruct (slotsAround dt (toISODate dt) total sorted
              (Some (setHour dt startHour)) 0%Q []) as [[slots ct] used].
  destruct Hinv as (Hwf & [u [Hu Hms]] & Hle & Hct).
  assert (Hbound : (inject_Z (slotMs slots)
                    <= dailyHours * inject_Z HOUR_MS)%Q).
  { rewrite Hms. unfold MINUTE_MS, HOUR_MS. rewrite inject_Z_mult.
    rewrite <- Hu. unfold total in Hle.
    change (inject_Z 60000) with 60000%Q.
    change (inject_Z 3600000) with 3600000%Q. lra. }
  destruct ct as [ct|]; [|now split].
  destruct (Z.ltb_spec ct (setHour dt endHour)) as [Hlt|Hge]; [|now split].
  set (d := Qmin _ _).
  destruct (Js.Qltb 0 d) eqn:Hd; [|now split].
  apply Qltb_lt in Hd.
  destruct (Hct ct eq_refl) as [k Hk].
  assert (He : (inject_Z (setHour dt endHour - ct) / inject_Z MINUTE_MS
                == inject_Z (endHour * 60 - k))%Q).
  { replace (setHour dt endHour - ct) with ((endHour * 60 - k) * MINUTE_MS)
      by (unfold setHour, HOUR_MS, MINUTE_MS in *; lia).
    apply minutes_of_ms. }
  assert (Hdz : (d == inject_Z (Z.min (endHour * 60 - k) (w - u)))%Q).
  { unfold d. rewrite He, Htot, Hu.
    replace (inject_Z w - inject_Z u)%Q with (inject_Z (w - u))
      by (unfold Z.sub; now rewrite inject_Z_plus, inject_Z_opp).
    destruct (Z.le_ge_cases (endHour * 60 - k) (w - u)) as [H|H].
    - rewrite Z.min_l by exact H. apply Q.min_l. now rewrite <- Zle_Qle.
    - rewrite Z.min_r by lia. apply Q.min_r. rewrite <- Zle_Qle. lia. }
  set (n := Z.min (endHour * 60 - k) (w - u)) in *.
  assert (Hn : 0 < n).
  { rewrite Hdz in Hd. change 0%Q with (inject_Z 0) in Hd.
    now rewrite <- Zlt_Qlt in Hd. }
  assert (Hend : truncMs (inject_Z ct + d * 60 * 1000) = ct + n * 60000).
  { apply truncMs_Z. rewrite Hdz, inject_Z_plus, inject_Z_mult.
    change (inject_Z 60000) with 60000%Q. ring. }
  rewrite Hend. split.
  - apply Forall_app. split; [exact Hwf|].
    constructor; [cbn [ts_start ts_end]; lia | constructor].
  - rewrite slotMs_app. cbn [slotMs fold_right ts_start ts_end]. rewrite Hms.
    replace (u * MINUTE_MS + (ct + n * 60000 - ct + 0))
      with ((u + n) * 60000) by (unfold MINUTE_MS; lia).
    assert (Hun : u + n <= w) by lia.
    rewrite Hw. unfold HOUR_MS. rewrite inject_Z_mult.
    change (inject_Z 60000) with 60000%Q.
    change (inject_Z 3600000) with 3600000%Q.
    rewrite Zle_Qle in Hun. hours_lra.
Qed.

Lemma daily_slots_within_daily_hours_witness :
  let slots :=
    getDailyAvailableTimeSlots (dateOfString Scenario.today) 8
      [Scenario.eveningClass] Scenario.everyDay 8 23 in
  Forall (fun slot => ts_start slot < ts_end slot) slots
  /\ (inject_Z (slotMs slots) <= 8 * inject_Z HOUR_MS)%Q.
Proof.
  apply (daily_slots_within_daily_hours (dateOfString Scenario.today) 8
           [Scenario.eveningClass] Scenario.everyDay 8 23).
  - exists 480. reflexivity.
  - unfold Qle. simpl. lia.
Defined.

(** ** Accounting of the redistribution engine *)

Lemma countMissed_from (now : Instant) (plans : list StudyPlan) (acc : nat) :
  fold_left (fun count plan =>
               (count + List.length (filter (isMissedIn now plan)
                                       (plannedTasks plan)))%nat) plans acc
  = (acc + countMissed now plans)%nat.
Proof.
  unfold countMissed. revert acc.
  induction plans as [|p plans IH]; simpl; intros acc; [lia|].
  rewrite IH, (IH (List.length _)). lia.
Qed.

Lemma countMissed_app (now : Instant) (l1 l2 : list StudyPlan) :
  countMissed now (l1 ++ l2)
  = (countMissed now l1 + countMissed now l2)%nat.
Proof.
  unfold countMissed at 1. rewrite fold_left_app.
  fold (countMissed now l1). apply countMissed_from.
Qed.

Lemma length_flat_map_if {A B : Type} (p : A -> bool) (g : A -> B)
    (l : list A) :
  List.length (flat_map (fun x => if p x then [g x] else []) l)
  = List.length (filter p l).
Proof.
  induction l as [|x l IH]; simpl; [reflexivity|].
  destruct (p x); simpl; now rewrite IH.
Qed.

Lemma findMissedFrom_length (now : Instant) (tasks : list Task) (h : Store)
    (refs : list Ref) :
  forall planIndex,
    List.length (findMissedFrom now tasks h planIndex refs)
    = countMissed now (deref h refs).
Proof.
  induction refs as [|r refs IH]; intros i; simpl; [reflexivity|].
  rewrite length_app, IH. unfold deref in *. simpl.
  rewrite countMissed_app. f_equal.
  destruct (readPlan h r) as [plan|]; simpl; [|reflexivity].
  unfold countMissed. simpl.
  apply (length_flat_map_if
           (fun session =>
              SessionStatus_eqb
                (checkSessionStatus now session (date plan)) missed)
           (fun session =>
              mkEntry session (date plan) i
                (findTask tasks (taskId session))
                (priorityOf now (findTask tasks (taskId session))))).
Qed.

Lemma grouped_perm {A : Type} (key : A -> string) (l : list A) :
  forall o,
    Permutation
      (flat_map snd (fold_left (fun o e => pushGroup (key e) e o) l o))
      (flat_map snd o ++ l).
Proof.
  induction l as [|e l IH]; intros o; simpl.
  - now rewrite app_nil_r.
  - rewrite IH, pushGroup_flat, <- app_assoc. reflexivity.
Qed.

Section MoveCounts.
Variables (now : Instant) (settings : UserSettings)
  (fixedCommitments : list FixedCommitment).

Lemma moveOne_reported (st : MoveState) (e : MissedEntry) :
  reported (moveOne now settings fixedCommitments st e) = S (reported st)
  /\ (Forall movedMark (st_movedSessions st) ->
      Forall movedMark
        (st_movedSessions (moveOne now settings fixedCommitments st e))).
Proof.
  unfold moveOne, reported.
  destruct (tryMoveSession _ _ _ _ _ _ _) as [moveResult|]; simpl.
  - destruct (findPlanRef _ _ _) as [[r p]|]; simpl; rewrite length_app;
      simpl; (split; [lia|]); intros H; apply Forall_app; split; trivial;
      constructor; try constructor; split; reflexivity.
  - rewrite length_app. simpl. split; [lia | trivial].
Qed.

Lemma moveAll_reported (l : list MissedEntry) :
  forall st,
    reported (fold_left (moveOne now settings fixedCommitments) l st)
    = (List.length l + reported st)%nat
    /\ (Forall movedMark (st_movedSessions st) ->
        Forall movedMark
          (st_movedSessions
             (fold_left (moveOne now settings fixedCommitments) l st))).
Proof.
  induction l as [|e l IH]; intros st; simpl; [split; trivial|].
  destruct (IH (moveOne now settings fixedCommitments st e)) as [Hc Hm].
  destruct (moveOne_reported st e) as [Hc1 Hm1].
  rewrite Hc, Hc1. split; [lia | auto].
Qed.

Lemma moveGroups_reported (G : list (string * list MissedEntry)) :
  forall st,
    reported
      (fold_left (fun st g =>
                    fold_left (moveOne now settings fixedCommitments)
                      (Js.sort priorityLeb (snd g)) st) G st)
    = (List.length (flat_map snd G) + reported st)%nat
    /\ (Forall movedMark (st_movedSessions st) ->
        Forall movedMark
          (st_movedSessions
             (fold_left (fun st g =>
                           fold_left (moveOne now settings fixedCommitments)
                             (Js.sort priorityLeb (snd g)) st) G st))).
Proof.
  induction G as [|g G IH]; intros st; simpl; [split; trivial|].
  destruct (IH (fold_left (moveOne now settings fixedCommitments)
                  (Js.sort priorityLeb (snd g)) st)) as [Hc Hm].
  destruct (moveAll_reported (Js.sort priorityLeb (snd g)) st) as [Hc1 Hm1].
  rewrite Hc, Hc1, sort_length, length_app. split; [lia | auto].
Qed.

End MoveCounts.

Lemma moveMissedSessions_reports (now : Instant) (h : Store)
    (studyPlans : list Ref) (settings : UserSettings)
    (fixedCommitments : list FixedCommitment) (tasks : list Task) :
  let result :=
    snd (moveMissedSessions now h studyPlans settings fixedCommitments tasks)
  in
  (List.length (movedSessions result) + List.length (failedSessions result))%nat
  = countMissed now (deref h studyPlans)
  /\ Forall movedMark (movedSessions result).
Proof.
  unfold moveMissedSessions.
  set (missed := Js.sort priorityLeb (findMissedFrom now tasks h 0 studyPlans)).
  set (groups := Js.entries _).
  assert (Hlen : List.length missed = countMissed now (deref h studyPlans)).
  { unfold missed. rewrite sort_length. apply findMissedFrom_length. }
  assert (Hgroups : List.length (flat_map snd groups) = List.length missed).
  { apply Permutation_length. unfold groups.
    rewrite (Permutation_flat_map snd (entries_perm _)).
    rewrite (grouped_perm (fun e => taskId (me_session e)) missed []).
    reflexivity. }
  destruct (moveGroups_reported now settings fixedCommitments groups
              (mkMoveState h studyPlans [] [])) as [Hc Hm].
  set (st := fold_left _ groups _) in *.
  destruct (validateStudyPlanConflicts _ _ _ _); simpl.
  - rewrite length_map. split; [exact Hlen | constructor].
  - unfold reported in Hc. simpl in Hc. split; [lia|].
    apply Hm. constructor.
Qed.

(** [moveMissedSessions] reports every missed session of the plans exactly
    once, as moved or as failed, whether or not it rolls back; and every
    session it reports as moved is scheduled again and carries the date it
    was missed on. *)
Theorem every_missed_session_is_reported (now : Instant) (h : Store)
    (studyPlans : list Ref) (settings : UserSettings)
    (fixedCommitments : list FixedCommitment) (tasks : list Task) :
  let result :=
    snd (moveMissedSessions now h studyPlans settings fixedCommitments tasks)
  in
  (List.length (movedSessions result) + List.length (failedSessions result))%nat
  = countMissed now (deref h studyPlans)
  /\ Forall movedMark (movedSessions result).
Proof. apply moveMissedSessions_reports. Qed.

(** ** The days of the generated plans *)

Lemma updatePlan_dates (d : DateStr) (f : StudyPlan -> StudyPlan)
    (plans : list StudyPlan) :
  (forall p, date (f p) = date p) ->
  map date (updatePlan d f plans) = map date plans.
Proof.
  intros Hf. induction plans as [|p ps IH]; simpl; [reflexivity|].
  destruct (date p =? d); simpl; [now rewrite Hf | now rewrite IH].
Qed.

Lemma pushFlexible_dates (task : Task) (d : DateStr) (rounded : Q)
    (st : GenState) :
  map date (studyPlans (pushFlexible task d rounded st))
  = map date (studyPlans st).
Proof. unfold pushFlexible. simpl. now apply updatePlan_dates. Qed.

Lemma distributeRound_dates (settings : UserSettings) (task : Task)
    (days : list DateStr) :
  forall lengths st distributed,
    map date (studyPlans (fst (distributeRound settings task days lengths st
                                 distributed)))
    = map date (studyPlans st).
Proof.
  induction days as [|d days IH]; intros [|len lengths] st acc; simpl;
    try reflexivity.
  destruct (Js.Qleb _ _); [|apply IH].
  rewrite IH. apply pushFlexible_dates.
Qed.

Lemma redistributeRounds_dates (settings : UserSettings) (task : Task)
    (daysForTask : list DateStr) (rounds : nat) :
  forall remaining st,
    map date (studyPlans (fst (redistributeRounds settings task daysForTask
                                 rounds remaining st)))
    = map date (studyPlans st).
Proof.
  induction rounds as [|rounds IH]; intros remaining st; simpl;
    [reflexivity|].
  destruct (Js.Qltb 0 remaining); [|reflexivity].
  destruct (filter _ daysForTask) as [|d0 ds] eqn:Hdays; [reflexivity|].
  pose proof (distributeRound_dates settings task (d0 :: ds)
                (optimizeSessionDistribution settings remaining (d0 :: ds))
                st 0%Q) as Hd.
  destruct (distributeRound settings task (d0 :: ds) _ st 0%Q) as [st' dist].
  simpl in Hd.
  destruct (Qeq_bool dist 0); simpl; [exact Hd|].
  now rewrite IH.
Qed.

Lemma redistributeUnscheduledHours_dates (settings : UserSettings)
    (task : Task) (hours : Q) (days : list DateStr) (st : GenState) :
  map date (studyPlans (fst (redistributeUnscheduledHours settings task hours
                               days st)))
  = map date (studyPlans st).
Proof. apply redistributeRounds_dates. Qed.

Lemma assignSessions_dates (task : Task) (days : list DateStr) :
  forall lengths st unscheduled,
    map date (studyPlans (fst (assignSessions task days lengths st
                                 unscheduled)))
    = map date (studyPlans st).
Proof.
  induction days as [|d days IH]; intros [|len lengths] st acc; simpl;
    try reflexivity.
  destruct (Js.Qltb 0 _); [|apply IH].
  rewrite IH. apply pushFlexible_dates.
Qed.

Lemma allocateTaskEven_dates (settings : UserSettings)
    (availableDays : list DateStr) (st : GenState) (task : Task) :
  map date (studyPlans (allocateTaskEven settings availableDays st task))
  = map date (studyPlans st).
Proof.
  unfold allocateTaskEven.
  destruct (daysUpTo availableDays _) as [|d0 ds]; [reflexivity|].
  pose proof (assignSessions_dates task (d0 :: ds)
                (optimizeSessionDistribution settings (estimatedHours task)
                   (d0 :: ds)) st 0%Q) as Ha.
  destruct (assignSessions task (d0 :: ds) _ st 0%Q) as [st' u].
  simpl in Ha. destruct (Js.Qltb 0 u); [|exact Ha].
  now rewrite redistributeUnscheduledHours_dates.
Qed.

Lemma fold_dates {A : Type} (step : GenState -> A -> GenState) (l : list A) :
  (forall st a, map date (studyPlans (step st a)) = map date (studyPlans st)) ->
  forall st,
    map date (studyPlans (fold_left step l st)) = map date (studyPlans st).
Proof.
  intros Hstep. induction l as [|a l IH]; intros st; simpl; [reflexivity|].
  now rewrite IH, Hstep.
Qed.

Lemma combine_dates (plans : list StudyPlan) :
  map date (combineSessionsOnSameDay plans) = map date plans.
Proof.
  unfold combineSessionsOnSameDay. rewrite map_map. reflexivity.
Qed.

Lemma generateEven_dates (now : Instant) (tasks : list Task)
    (settings : UserSettings) (fixedCommitments : list FixedCommitment)
    (missedSessions : list MissedSession) :
  map date (fst (generateEven now tasks settings fixedCommitments
                   missedSessions))
  = computeAvailableDays now settings (schedulable tasks).
Proof.
  unfold generateEven.
  set (tasksEven := schedulable tasks).
  set (availableDays := computeAvailableDays now settings tasksEven).
  set (st0 := mkGen _ _).
  set (st1 := fold_left (allocateTaskEven settings availableDays) tasksEven
                st0).
  assert (H1 : map date (studyPlans st1) = availableDays).
  { unfold st1. rewrite fold_dates by apply allocateTaskEven_dates.
    unfold st0. simpl. rewrite map_map. simpl. apply map_id. }
  set (st2 := withPlans st1 _).
  assert (H2 : map date (studyPlans st2) = availableDays).
  { unfold st2. simpl. now rewrite combine_dates. }
  set (short := filter _ tasksEven).
  assert (Hglobal : forall l st,
             map date (studyPlans
                         (globalRedistribution settings availableDays
                            (scheduledHoursByTask (studyPlans st2)) l st))
             = map date (studyPlans st)).
  { intros l st. unfold globalRedistribution. apply fold_dates.
    intros st' task. destruct (Js.Qleb _ 0); [reflexivity|].
    apply redistributeUnscheduledHours_dates. }
  set (pair := match short with [] => _ | _ :: _ => _ end).
  assert (H3 : map date (studyPlans (fst pair)) = availableDays).
  { unfold pair. destruct short; simpl; [exact H2|].
    now rewrite combine_dates, Hglobal. }
  destruct pair as [st3 hours]. simpl in H3. simpl.
  set (st4 := withPlans st3 _).
  assert (H4 : map date (studyPlans st4) = availableDays).
  { unfold st4. simpl. rewrite map_map. simpl. exact H3. }
  destruct (Js.entries (missedHoursByTask missedSessions)); [exact H4|].
  simpl. rewrite combine_dates. unfold redistributeMissedHours.
  rewrite fold_dates; [exact H4|].
  intros st' task. destruct (Js.Qleb _ 0); [reflexivity|].
  apply redistributeUnscheduledHours_dates.
Qed.

Lemma eisenhowerTasks_dates (settings : UserSettings)
    (commitmentsForDay : list FixedCommitment) (d : DateStr)
    (tasksForDay : list Task) :
  forall availableHours st,
    map date (e_plans (eisenhowerTasks settings commitmentsForDay d
                         tasksForDay availableHours st))
    = map date (e_plans st).
Proof.
  induction tasksForDay as [|task rest IH]; intros avail st; simpl;
    [reflexivity|].
  destruct (Js.Qleb avail 0); [reflexivity|].
  destruct (Js.Qleb _ 0); [apply IH|].
  destruct (Js.Qltb 0 _); [|apply IH].
  destruct (findNextAvailableTimeSlot _ _ _ _ _ _ _) as [slot|]; [|apply IH].
  rewrite IH. simpl. now apply updatePlan_dates.
Qed.

Lemma generateEisenhower_dates (now : Instant) (tasks : list Task)
    (settings : UserSettings) (fixedCommitments : list FixedCommitment) :
  map date (fst (generateEisenhower now tasks settings fixedCommitments))
  = computeAvailableDays now settings (schedulable tasks).
Proof.
  unfold generateEisenhower. simpl.
  set (days := computeAvailableDays now settings (schedulable tasks)).
  set (st0 := mkEisen _ _ _).
  assert (H : forall l st,
             map date (e_plans
                         (fold_left (eisenhowerDay settings fixedCommitments
                                       (schedulable tasks)) l st))
             = map date (e_plans st)).
  { induction l as [|d l IH]; intros st; simpl; [reflexivity|].
    rewrite IH. apply eisenhowerTasks_dates. }
  rewrite H. unfold st0. simpl. rewrite map_map. simpl. apply map_id.
Qed.


(** ** Conflicts between commitments *)

Lemma includes_In (l : list Z) (x : Z) : includes l x = true <-> In x l.
Proof.
  unfold includes. rewrite existsb_exists. split.
  - intros [y [Hy E]]. apply Z.eqb_eq in E. now subst.
  - intros H. exists x. split; [exact H | apply Z.eqb_refl].
Qed.

Lemma optIncludes_In (l : option (list Z)) (x : Z) :
  optIncludes l x = true <-> In x (datesOf l).
Proof.
  destruct l as [l|]; simpl; [apply includes_In|].
  split; [discriminate | contradiction].
Qed.

Lemma instLe_atOrBefore (a b : TimeStr) :
  instLe (timeToMinutes a) (timeToMinutes b) = true <-> atOrBefore a b.
Proof.
  destruct a as [|h1 m1], b as [|h2 m2]; simpl;
    try (split; [discriminate | contradiction]).
  apply Z.leb_le.
Qed.

Lemma hasTimeOverlap_iff (newCommitment : NewCommitment)
    (existing : FixedCommitment) :
  hasTimeOverlap newCommitment existing = true
  <-> timesOverlap newCommitment existing.
Proof.
  unfold hasTimeOverlap, timesOverlap.
  rewrite negb_true_iff, orb_false_iff, <- !instLe_atOrBefore.
  rewrite !not_true_iff_false. reflexivity.
Qed.

(** What the loop body finds for one existing commitment. *)
Lemma conflictWith_spec (newCommitment : NewCommitment)
    (existing : FixedCommitment) :
  match conflictWith newCommitment existing with
  | Some (type, dates) =>
      timesOverlap newCommitment existing
      /\ (sameKind newCommitment existing = true ->
          commonDay newCommitment existing)
      /\ type = (if sameKind newCommitment existing then strict else override)
      /\ reportedDates newCommitment existing dates
  | None => ~ clashes newCommitment existing
  end.
Proof.
  unfold conflictWith, clashes, sameKind, commonDay, reportedDates.
  pose proof (hasTimeOverlap_iff newCommitment existing) as Ht.
  destruct (n_recurring newCommitment), (recurring existing); simpl.
  - destruct (existsb _ (n_daysOfWeek newCommitment)) eqn:Hd.
    + apply existsb_exists in Hd. destruct Hd as [day [Hday Hin]].
      apply includes_In in Hin.
      destruct (hasTimeOverlap newCommitment existing).
      * split; [now apply Ht|]. split; [eauto|]. split; reflexivity.
      * intros (_ & _ & H). apply Ht in H. discriminate.
    + intros (_ & [day [Hday Hin]] & _).
      assert (existsb (fun day => includes (daysOfWeek existing) day)
                (n_daysOfWeek newCommitment) = true).
      { apply existsb_exists. exists day. split; [exact Hday|].
        now apply includes_In. }
      congruence.
  - set (dates := match specificDates existing with
                  | Some l => filter _ l | None => [] end).
    assert (Hdates : incl dates (datesOf (specificDates existing))).
    { unfold dates. destruct (specificDates existing); simpl.
      - intros d Hd. now apply filter_In in Hd.
      - intros d []. }
    destruct dates as [|d0 ds] eqn:E.
    + intros (H & _). discriminate.
    + destruct (hasTimeOverlap newCommitment existing).
      * split; [now apply Ht|]. split; [discriminate|].
        split; [reflexivity|]. split; [discriminate | exact Hdates].
      * intros (H & _). discriminate.
  - set (dates := match n_specificDates newCommitment with
                  | Some l => filter _ l | None => [] end).
    assert (Hdates : incl dates (datesOf (n_specificDates newCommitment))).
    { unfold dates. destruct (n_specificDates newCommitment); simpl.
      - intros d Hd. now apply filter_In in Hd.
      - intros d []. }
    destruct dates as [|d0 ds] eqn:E.
    + intros (H & _). discriminate.
    + destruct (hasTimeOverlap newCommitment existing).
      * split; [now apply Ht|]. split; [discriminate|].
        split; [reflexivity|]. split; [discriminate | exact Hdates].
      * intros (H & _). discriminate.
  - set (common := match n_specificDates newCommitment with
                   | Some l =>
                       filter (fun d => optIncludes (specificDates existing) d)
                         l
                   | None => []
                   end).
    assert (Hcommon : forall d,
               In d common
               <-> In d (datesOf (n_specificDates newCommitment))
                   /\ In d (datesOf (specificDates existing))).
    { intros d. unfold common. destruct (n_specificDates newCommitment); simpl.
      - rewrite filter_In, optIncludes_In. reflexivity.
      - tauto. }
    destruct (match n_specificDates newCommitment with
              | Some l =>
                  existsb (fun d => optIncludes (specificDates existing) d) l
              | None => false
              end) eqn:Hex.
    + assert (Hsome : exists d,
                 In d (datesOf (n_specificDates newCommitment))
                 /\ In d (datesOf (specificDates existing))).
      { destruct (n_specificDates newCommitment) as [l|]; [|discriminate].
        apply existsb_exists in Hex. destruct Hex as [d [Hd Hin]].
        exists d. simpl. split; [exact Hd | now apply optIncludes_In]. }
      destruct (hasTimeOverlap newCommitment existing).
      * split; [now apply Ht|]. split; [intros _; exact Hsome|].
        split; [reflexivity|]. split; [|exact Hcommon].
        destruct Hsome as [d Hd]. apply Hcommon in Hd.
        intros E. rewrite E in Hd. contradiction.
      * intros (_ & _ & H). apply Ht in H. discriminate.
    + intros (_ & [d [Hd Hin]] & _).
      destruct (n_specificDates newCommitment) as [l|]; [|contradiction].
      simpl in Hd.
      assert (existsb (fun d => optIncludes (specificDates existing) d) l
              = true).
      { apply existsb_exists. exists d. split; [exact Hd|].
        now apply optIncludes_In. }
      congruence.
Qed.

(** Excluding an id from the check is checking against the list without the
    commitments of that id; excluding the empty id excludes nothing. *)
Theorem conflict_check_exclusion (newCommitment : NewCommitment)
    (existingCommitments : list FixedCommitment) (excluded : string) :
  checkCommitmentConflicts newCommitment existingCommitments (Some excluded)
  = checkCommitmentConflicts newCommitment
      (if String.eqb excluded ""
       then existingCommitments
       else filter (fun c => negb (String.eqb (commitment_id c) excluded))
              existingCommitments) None.
Proof.
  destruct (String.eqb excluded "") eqn:Hx.
  - induction existingCommitments as [|e rest IH]; simpl; [reflexivity|].
    rewrite Hx. simpl. now rewrite IH.
  - induction existingCommitments as [|e rest IH]; simpl; [reflexivity|].
    rewrite Hx. simpl.
    destruct (String.eqb (commitment_id e) excluded); simpl; [exact IH|].
    now rewrite IH.
Qed.

(** [checkCommitmentConflicts] reports a commitment that is not excluded and
    whose hours overlap those of the new one: neither is over when the other
    starts.  Every commitment it passes over is excluded or does not clash
    with the new one, where two commitments clash when they are of the same
    kind (both weekly or both one-time), share a weekday or a date, and
    overlap in time; so no conflict is reported only when no commitment of
    the list that is not excluded clashes.  A conflict between two
    commitments of the same kind is reported as strict, one between a weekly
    and a one-time commitment as an override.  The dates reported are none
    for two weekly commitments, the common dates of two one-time ones, and
    otherwise some dates, at least one, of the one-time commitment. *)
Theorem conflict_check_reports_first_conflict (newCommitment : NewCommitment)
    (existingCommitments : list FixedCommitment)
    (excludeCommitmentId : option string) :
  let result :=
    checkCommitmentConflicts newCommitment existingCommitments
      excludeCommitmentId in
  match conflictingCommitment result with
  | Some existing =>
      hasConflict result = true
      /\ isExcluded excludeCommitmentId existing = false
      /\ timesOverlap newCommitment existing
      /\ (sameKind newCommitment existing = true ->
          commonDay newCommitment existing)
      /\ (exists before after,
            existingCommitments = before ++ existing :: after
            /\ Forall (letThrough newCommitment excludeCommitmentId) before)
      /\ conflictType result
         = Some (if sameKind newCommitment existing
                 then strict else override)
      /\ exists dates,
           conflictingDates result = Some dates
           /\ reportedDates newCommitment existing dates
  | None =>
      hasConflict result = false
      /\ Forall (letThrough newCommitment excludeCommitmentId)
           existingCommitments
  end.
Proof.
  induction existingCommitments as [|e rest IH]; simpl.
  - split; [reflexivity | constructor].
  - destruct (isExcluded excludeCommitmentId e) eqn:Hex.
    + simpl in IH.
      destruct (conflictingCommitment
                  (checkCommitmentConflicts newCommitment rest
                     excludeCommitmentId)) as [c|].
      * destruct IH as (H1 & H2 & H3 & H4 & (before & after & -> & Hb) & H5).
        split; [exact H1|]. split; [exact H2|]. split; [exact H3|].
        split; [exact H4|]. split; [|exact H5].
        exists (e :: before), after. split; [reflexivity|].
        constructor; [now left | exact Hb].
      * destruct IH as [Hc Hall]. split; [exact Hc|].
        constructor; [now left | exact Hall].
    + pose proof (conflictWith_spec newCommitment e) as Hs.
      destruct (conflictWith newCommitment e) as [[type dates]|]; simpl.
      * destruct Hs as (Ht & Hday & -> & Hdates).
        split; [reflexivity|]. split; [exact Hex|]. split; [exact Ht|].
        split; [exact Hday|]. split; [|split; [reflexivity|]].
        -- exists [], rest. split; [reflexivity | constructor].
        -- exists dates. split; [reflexivity | exact Hdates].
      * simpl in IH.
        destruct (conflictingCommitment
                    (checkCommitmentConflicts newCommitment rest
                       excludeCommitmentId)) as [c|].
        -- destruct IH as
             (H1 & H2 & H3 & H4 & (before & after & -> & Hb) & H5).
           split; [exact H1|]. split; [exact H2|]. split; [exact H3|].
           split; [exact H4|]. split; [|exact H5].
           exists (e :: before), after. split; [reflexivity|].
           constructor; [now right | exact Hb].
        -- destruct IH as [Hc Hall]. split; [exact Hc|].
           constructor; [now right | exact Hall].
Qed.

(** ** User reschedules *)

(** [validateUserReschedules] sorts the reschedules into the complete ones
    and the others: each list keeps the order of the input, and every
    reschedule is in exactly one of the two. *)
Theorem validateUserReschedules_partitions
    (userReschedules : list UserReschedule) :
  validateUserReschedules userReschedules
  = (filter isComplete userReschedules,
     filter (fun r => negb (isComplete r)) userReschedules).
Proof.
  unfold validateUserReschedules.
  assert (H : forall l valid obsolete,
             fold_left (fun acc reschedule =>
               if truthyDate (originalPlanDate reschedule)
                  && truthyDate (newPlanDate reschedule)
                  && hasTime (newStartTime reschedule)
                  && hasTime (newEndTime reschedule)
               then (fst acc ++ [reschedule], snd acc)
               else (fst acc, snd acc ++ [reschedule])) l (valid, obsolete)
             = (valid ++ filter isComplete l,
                obsolete ++ filter (fun r => negb (isComplete r)) l)).
  { induction l as [|r l IH]; intros valid obsolete; simpl.
    - now rewrite !app_nil_r.
    - fold (isComplete r). destruct (isComplete r); simpl; rewrite IH;
        now rewrite <- app_assoc. }
  apply (H userReschedules [] []).
Qed.

Lemma findPlanRef_Some (h : Store) (refs : list Ref) (d : DateStr) (r : Ref)
    (p : StudyPlan) :
  findPlanRef h refs d = Some (r, p) ->
  readPlan h r = Some p /\ date p = d /\ In r refs.
Proof.
  induction refs as [|r0 refs IH]; simpl; [discriminate|].
  destruct (readPlan h r0) as [p0|] eqn:Hr.
  - destruct (Z.eqb_spec (date p0) d) as [Hd|Hd].
    + intros E. injection E as <- <-. auto.
    + intros E. destruct (IH E) as (H1 & H2 & H3). auto.
  - intros E. destruct (IH E) as (H1 & H2 & H3). auto.
Qed.

Lemma readPlan_modifyPlan (h : Store) (r r' : Ref)
    (f : StudyPlan -> StudyPlan) :
  readPlan (modifyPlan h r f) r'
  = match readPlan h r' with
    | Some p => Some (if Nat.eqb r' r then f p else p)
    | None => None
    end.
Proof.
  rewrite (modifyPlan_mapAt f h r 0), readPlan_mapAt.
  now rewrite !Nat.add_0_r.
Qed.

Lemma mapAt_length (f : StudyPlan -> StudyPlan) (t : nat -> bool) (h : Store) :
  forall i, List.length (mapAt f t i h) = List.length h.
Proof.
  induction h as [|p h IH]; intros i; simpl; [|rewrite IH]; reflexivity.
Qed.

Lemma modifyPlan_length (h : Store) (r : Ref) (f : StudyPlan -> StudyPlan) :
  List.length (modifyPlan h r f) = List.length h.
Proof. rewrite (modifyPlan_mapAt f h r 0). apply mapAt_length. Qed.

Lemma withAdded_nil (plan : StudyPlan) : withAdded plan [] = plan.
Proof.
  destruct plan. unfold withAdded, withSessions. simpl.
  now rewrite app_nil_r.
Qed.

Lemma withAdded_more (plan : StudyPlan) (l1 l2 : list StudySession) :
  withAdded (withAdded plan l1) l2 = withAdded plan (l1 ++ l2).
Proof.
  unfold withAdded, withSessions. simpl. now rewrite app_assoc.
Qed.

Section Growth.
Variable mark : StudySession -> Prop.

Lemma grownBy_refl (h : Store) : grownBy mark h h.
Proof.
  split; [reflexivity|]. intros r plan Hr. exists [].
  rewrite withAdded_nil. split; [exact Hr | constructor].
Qed.

Lemma grownBy_trans (h1 h2 h3 : Store) :
  grownBy mark h1 h2 -> grownBy mark h2 h3 -> grownBy mark h1 h3.
Proof.
  intros [Hl1 H1] [Hl2 H2]. split; [congruence|].
  intros r plan Hr. destruct (H1 r plan Hr) as [a1 [Hr1 Ha1]].
  destruct (H2 r _ Hr1) as [a2 [Hr2 Ha2]].
  exists (a1 ++ a2). rewrite <- withAdded_more. split; [exact Hr2|].
  apply Forall_app. now split.
Qed.

Lemma grownBy_push (h : Store) (r : Ref) (s : StudySession) :
  mark s ->
  grownBy mark h (modifyPlan h r (fun plan => withAdded plan [s])).
Proof.
  intros Hs. split; [apply modifyPlan_length|].
  intros r' plan Hr. rewrite readPlan_modifyPlan, Hr.
  destruct (Nat.eqb r' r).
  - exists [s]. split; [reflexivity | now constructor].
  - exists []. rewrite withAdded_nil. split; [reflexivity | constructor].
Qed.

End Growth.

Lemma sessionCount_writePlan (h : Store) (p p' : StudyPlan) :
  forall r,
    readPlan h r = Some p ->
    (sessionCount (writePlan h r p') + List.length (plannedTasks p)
     = sessionCount h + List.length (plannedTasks p'))%nat.
Proof.
  unfold readPlan. induction h as [|q h IH]; intros [|r]; simpl;
    try discriminate.
  - intros E. injection E as <-. lia.
  - intros E. specialize (IH r E). lia.
Qed.

Lemma sessionCount_push (h : Store) (r : Ref) (p : StudyPlan)
    (s : StudySession) :
  readPlan h r = Some p ->
  sessionCount (modifyPlan h r (fun plan => withAdded plan [s]))
  = S (sessionCount h).
Proof.
  intros Hr. unfold modifyPlan. rewrite Hr.
  pose proof (sessionCount_writePlan h p (withAdded p [s]) r Hr) as H.
  simpl in H. rewrite length_app in H. simpl in H. lia.
Qed.

(** A copy pushed by [applyUserReschedules]. *)
Lemma applyOne_grows (updatedPlans : list Ref) (st : RescheduleState)
    (reschedule : UserReschedule) :
  let st' := applyOne updatedPlans st reschedule in
  grownBy (fun s => status s = Some rescheduled) (rs_store st) (rs_store st')
  /\ (sessionCount (rs_store st') + List.length (validReschedules st)
      = sessionCount (rs_store st) + List.length (validReschedules st'))%nat
  /\ (exists v o,
        validReschedules st' = validReschedules st ++ v
        /\ obsoleteReschedules st' = obsoleteReschedules st ++ o
        /\ (List.length v + List.length o <= 1)%nat
        /\ incl (v ++ o) [reschedule]).
Proof.
  unfold applyOne.
  destruct (match findPlanOn (rs_store st) updatedPlans
                    (originalPlanDate reschedule) with
            | Some (_, originalPlan) => _
            | None => None
            end) as [originalSession|].
  - destruct (findPlanOn (rs_store st) updatedPlans (newPlanDate reschedule))
      as [[r p]|] eqn:Ht; simpl.
    + split; [|split].
      * apply (grownBy_push _ _ _ (rescheduledCopy originalSession reschedule)).
        reflexivity.
      * destruct (newPlanDate reschedule) as [d|]; [|discriminate].
        apply findPlanRef_Some in Ht. destruct Ht as [Hr _].
        change (fun targetPlan => withSessions targetPlan
                  (plannedTasks targetPlan
                     ++ [rescheduledCopy originalSession reschedule])
                  (totalStudyHours targetPlan))
          with (fun plan => withAdded plan
                  [rescheduledCopy originalSession reschedule]).
        rewrite (sessionCount_push _ _ _ _ Hr), length_app. simpl. lia.
      * exists [reschedule], []. simpl. rewrite app_nil_r.
        repeat split; [lia | apply incl_refl].
    + split; [apply grownBy_refl|]. split; [reflexivity|].
      exists [], []. rewrite !app_nil_r. simpl.
      repeat split; [lia | apply incl_nil_l].
  - simpl. split; [apply grownBy_refl|]. split; [reflexivity|].
    exists [], [reschedule]. rewrite app_nil_r. simpl.
    repeat split; [lia | apply incl_refl].
Qed.

(** [applyUserReschedules] only pushes sessions: every plan keeps the
    sessions it had, unchanged and in order, the session a reschedule moves
    included, and gains copies with status [rescheduled]; the plans gain one
    session for each reschedule reported as valid; and no reschedule is
    reported twice, though one whose target day has no plan is reported in
    neither list. *)
Theorem applyUserReschedules_only_adds (h : Store) (studyPlans : list Ref)
    (userReschedules : list UserReschedule) :
  let result := applyUserReschedules h studyPlans userReschedules in
  fst result = studyPlans
  /\ grownBy (fun s => status s = Some rescheduled) h (rs_store (snd result))
  /\ sessionCount (rs_store (snd result))
     = (sessionCount h + List.length (validReschedules (snd result)))%nat
  /\ (List.length (validReschedules (snd result))
      + List.length (obsoleteReschedules (snd result))
      <= List.length userReschedules)%nat
  /\ incl (validReschedules (snd result) ++ obsoleteReschedules (snd result))
       userReschedules.
Proof.
  unfold applyUserReschedules. simpl. split; [reflexivity|].
  assert (H : forall l st,
             let st' := fold_left (applyOne studyPlans) l st in
             grownBy (fun s => status s = Some rescheduled) (rs_store st)
               (rs_store st')
             /\ (sessionCount (rs_store st') + List.length (validReschedules st)
                 = sessionCount (rs_store st)
                   + List.length (validReschedules st'))%nat
             /\ (exists v o,
                   validReschedules st' = validReschedules st ++ v
                   /\ obsoleteReschedules st' = obsoleteReschedules st ++ o
                   /\ (List.length v + List.length o <= List.length l)%nat
                   /\ incl (v ++ o) l)).
  { induction l as [|r l IH]; intros st; simpl.
    - split; [apply grownBy_refl|]. split; [reflexivity|].
      exists [], []. rewrite !app_nil_r. simpl.
      repeat split; [lia | apply incl_nil_l].
    - destruct (applyOne_grows studyPlans st r)
        as (Hg1 & Hc1 & v1 & o1 & Hv1 & Ho1 & Hl1 & Hi1).
      destruct (IH (applyOne studyPlans st r))
        as (Hg2 & Hc2 & v2 & o2 & Hv2 & Ho2 & Hl2 & Hi2).
      split; [eapply grownBy_trans; eauto|]. split; [lia|].
      exists (v1 ++ v2), (o1 ++ o2).
      rewrite Hv2, Ho2, Hv1, Ho1, <- !app_assoc.
      repeat split.
      + rewrite !length_app. lia.
      + intros x Hx. rewrite !in_app_iff in Hx.
        assert (Hx' : In x (v1 ++ o1) \/ In x (v2 ++ o2))
          by (rewrite !in_app_iff; tauto).
        destruct Hx' as [Hx'|Hx'].
        * apply Hi1 in Hx'. destruct Hx' as [<-|[]]. now left.
        * right. now apply Hi2. }
  destruct (H userReschedules (mkRescheduleState h [] []))
    as (Hg & Hc & v & o & Hv & Ho & Hl & Hi). simpl in *.
  split; [exact Hg|]. split; [lia|]. rewrite Hv, Ho. split; assumption.
Qed.

Lemma orElse_zero (n : Z) : Js.orElse n 0 = n.
Proof. unfold Js.orElse. destruct (Z.eqb_spec n 0); congruence. Qed.

(** A reschedule made by [createUserReschedule] from a numbered session, the
    first of its task and number in the plan of its day, applies: it is
    reported as valid, and the plan of the new day gains the session with the
    new times, status [rescheduled], and the old start time and day as its
    original time and date.  Nothing else in the store changes. *)
Theorem created_reschedule_applies (now : Instant) (h : Store)
    (studyPlans : list Ref) (session : StudySession)
    (originalDate' newDate' : DateStr) (newStart newEnd : TimeStr)
    (ro rn : Ref) (originalPlan targetPlan : StudyPlan) (n : Z) :
  findPlanRef h studyPlans originalDate' = Some (ro, originalPlan) ->
  findPlanRef h studyPlans newDate' = Some (rn, targetPlan) ->
  sessionNumber session = Some n ->
  find (sameSession (taskId session) (sessionNumber session))
    (plannedTasks originalPlan) = Some session ->
  let reschedule :=
    createUserReschedule now session (Some originalDate') (Some newDate')
      newStart newEnd in
  let moved :=
    mkSession (taskId session) (scheduledTime session) newStart newEnd
      (allocatedHours session) (sessionNumber session) (isFlexible session)
      (isManualOverride session) (done session) (Some rescheduled)
      (Some (startTime session)) (Some originalDate') in
  let result := snd (applyUserReschedules h studyPlans [reschedule]) in
  validReschedules result = [reschedule]
  /\ obsoleteReschedules result = []
  /\ rs_store result = modifyPlan h rn (fun plan => withAdded plan [moved]).
Proof.
  intros Ho Ht Hn Hfind. simpl.
  unfold applyOne. simpl. rewrite Ho, Hn, orElse_zero.
  rewrite Hn in Hfind. unfold sameSession in Hfind. rewrite Hfind.
  rewrite Ht. simpl. repeat split.
  unfold rescheduledCopy. simpl. now rewrite Hn.
Qed.

Lemma created_reschedule_applies_witness :
  let session := Scenario.missedReading in
  let reschedule :=
    createUserReschedule Scenario.now session (Some Scenario.yesterday)
      (Some Scenario.today) (HM 16 0) (HM 17 0) in
  let moved :=
    mkSession (taskId session) (scheduledTime session) (HM 16 0) (HM 17 0)
      (allocatedHours session) (sessionNumber session) (isFlexible session)
      (isManualOverride session) (done session) (Some rescheduled)
      (Some (startTime session)) (Some Scenario.yesterday) in
  let result :=
    snd (applyUserReschedules Scenario.store [0%nat; 1%nat] [reschedule]) in
  validReschedules result = [reschedule]
  /\ obsoleteReschedules result = []
  /\ rs_store result
     = modifyPlan Scenario.store 1%nat (fun plan => withAdded plan [moved]).
Proof.
  apply (created_reschedule_applies Scenario.now Scenario.store
           [0%nat; 1%nat] Scenario.missedReading Scenario.yesterday
           Scenario.today (HM 16 0) (HM 17 0) 0%nat 1%nat
           (mkPlan Scenario.yesterday Scenario.yesterday
              [Scenario.missedReading] 0 8 None)
           (mkPlan Scenario.today Scenario.today
              [Scenario.projectAtTen; Scenario.readingAtTwo] 0 8 None) 1);
    reflexivity.
Defined.

Lemma find_all_false {A : Type} (p : A -> bool) (l : list A) :
  Forall (fun x => p x = false) l -> find p l = None.
Proof.
  induction 1 as [|x l Hx _ IH]; simpl; [reflexivity|]. now rewrite Hx.
Qed.

(** A reschedule made by [createUserReschedule] from a session that has no
    session number asks for session number 0.  Unless the plan of the
    original day holds a session of the task with that number, applying it
    changes nothing and reports it as obsolete, even when the session is
    there. *)
Theorem unnumbered_session_reschedule_is_obsolete (now : Instant) (h : Store)
    (studyPlans : list Ref) (session : StudySession)
    (originalDate' newDate' : option DateStr) (newStart newEnd : TimeStr) :
  sessionNumber session = None ->
  (forall ro originalPlan,
      findPlanOn h studyPlans originalDate' = Some (ro, originalPlan) ->
      Forall (fun s => sameSession (taskId session) (Some 0) s = false)
        (plannedTasks originalPlan)) ->
  let reschedule :=
    createUserReschedule now session originalDate' newDate' newStart newEnd in
  let result := snd (applyUserReschedules h studyPlans [reschedule]) in
  validReschedules result = []
  /\ obsoleteReschedules result = [reschedule]
  /\ rs_store result = h.
Proof.
  intros Hn Hnone. simpl. unfold applyOne. simpl. rewrite Hn.
  destruct (findPlanOn h studyPlans originalDate') as [[ro p]|] eqn:Ho.
  - specialize (Hnone ro p eq_refl). unfold sameSession in Hnone.
    rewrite (find_all_false _ _ Hnone). simpl. repeat split.
  - simpl. repeat split.
Qed.

Lemma unnumbered_session_reschedule_is_obsolete_witness :
  let session :=
    mkSession "reading" (Scenario.yesterday, HM 9 0) (HM 9 0) (HM 10 0) 1 None
      (Some true) None None (Some scheduled) None None in
  let h := [mkPlan Scenario.yesterday Scenario.yesterday [session] 0 8 None;
            mkPlan Scenario.today Scenario.today [] 0 8 None] in
  let reschedule :=
    createUserReschedule Scenario.now session (Some Scenario.yesterday)
      (Some Scenario.today) (HM 16 0) (HM 17 0) in
  let result := snd (applyUserReschedules h [0%nat; 1%nat] [reschedule]) in
  validReschedules result = []
  /\ obsoleteReschedules result = [reschedule]
  /\ rs_store result = h.
Proof.
  apply (unnumbered_session_reschedule_is_obsolete Scenario.now
           [mkPlan Scenario.yesterday Scenario.yesterday
              [mkSession "reading" (Scenario.yesterday, HM 9 0) (HM 9 0)
                 (HM 10 0) 1 None (Some true) None None (Some scheduled) None
                 None] 0 8 None;
            mkPlan Scenario.today Scenario.today [] 0 8 None]
           [0%nat; 1%nat]
           (mkSession "reading" (Scenario.yesterday, HM 9 0) (HM 9 0)
              (HM 10 0) 1 None (Some true) None None (Some scheduled) None
              None)
           (Some Scenario.yesterday) (Some Scenario.today) (HM 16 0)
           (HM 17 0)).
  - reflexivity.
  - intros ro originalPlan E. vm_compute in E. injection E as <- <-.
    constructor; [reflexivity | constructor].
Defined.

(** ** Smart suggestions *)

Lemma pushIfAny_In {A : Type} (l : list A) (mk : string -> SmartSuggestion)
    (s : SmartSuggestion) :
  In s (pushIfAny l mk) <-> l <> [] /\ s = mk (showLength l).
Proof.
  destruct l as [|x l]; simpl.
  - split; [contradiction | intros [H _]; now contradiction H].
  - split.
    + intros [<-|[]]. split; [discriminate | reflexivity].
    + intros [_ ->]. now left.
Qed.

(** The lists [generateSmartSuggestions] counts are the four quadrants. *)
Lemma urgentImportant_quadrant (now : Instant) (tasks : list Task) :
  filter (fun task => importance task)
    (filter (fun task => (daysLeft now task <=? 3) && isPending task) tasks)
  = quadrant now true true tasks.
Proof.
  unfold quadrant. induction tasks as [|t l IH]; [reflexivity|].
  cbn [filter].
  destruct (daysLeft now t <=? 3) eqn:E1, (isPending t) eqn:E2,
    (importance t) eqn:E3;
    cbn [filter andb negb Bool.eqb]; rewrite ?E1, ?E2, ?E3;
    cbn [filter andb negb Bool.eqb]; now rewrite IH.
Qed.

Lemma urgentNotImportant_quadrant (now : Instant) (tasks : list Task) :
  filter (fun task => negb (importance task))
    (filter (fun task => (daysLeft now task <=? 3) && isPending task) tasks)
  = quadrant now true false tasks.
Proof.
  unfold quadrant. induction tasks as [|t l IH]; [reflexivity|].
  cbn [filter].
  destruct (daysLeft now t <=? 3) eqn:E1, (isPending t) eqn:E2,
    (importance t) eqn:E3;
    cbn [filter andb negb Bool.eqb]; rewrite ?E1, ?E2, ?E3;
    cbn [filter andb negb Bool.eqb]; now rewrite IH.
Qed.

Lemma importantNotUrgent_quadrant (now : Instant) (tasks : list Task) :
  filter (fun task =>
            (3 <? daysLeft now task) && importance task && isPending task)
    tasks
  = quadrant now false true tasks.
Proof.
  unfold quadrant. apply filter_ext. intros t.
  rewrite Z.ltb_antisym.
  destruct (daysLeft now t <=? 3), (isPending t), (importance t); reflexivity.
Qed.

Lemma notImportantNotUrgent_quadrant (now : Instant) (tasks : list Task) :
  filter (fun task =>
            (3 <? daysLeft now task) && negb (importance task)
            && isPending task) tasks
  = quadrant now false false tasks.
Proof.
  unfold quadrant. apply filter_ext. intros t.
  rewrite Z.ltb_antisym.
  destruct (daysLeft now t <=? 3), (isPending t), (importance t); reflexivity.
Qed.

Lemma quadrants_cover (now : Instant) (tasks : list Task) :
  (List.length (quadrant now true true tasks)
   + List.length (quadrant now true false tasks)
   + List.length (quadrant now false true tasks)
   + List.length (quadrant now false false tasks))%nat
  = List.length (filter isPending tasks).
Proof.
  unfold quadrant. induction tasks as [|t l IH]; [reflexivity|].
  cbn [filter].
  destruct (daysLeft now t <=? 3), (isPending t), (importance t);
    cbn [filter andb negb Bool.eqb List.length]; lia.
Qed.

(** The suggestions, with the lists they count named. *)
Lemma generateSmartSuggestions_quadrants (now : Instant) (tasks : list Task)
    (unscheduledTasks : option (list Task)) :
  exists overdueTasks unscheduledLow : list Task,
    generateSmartSuggestions now tasks unscheduledTasks
    = pushIfAny overdueTasks overdueWarning
        ++ pushIfAny (quadrant now true true tasks) urgentImportantWarning
        ++ pushIfAny (quadrant now true false tasks) urgentNotImportantWarning
        ++ pushIfAny unscheduledLow (fun _ => unscheduledLowPriorityWarning)
        ++ pushIfAny (quadrant now false true tasks)
             importantNotUrgentSuggestion
        ++ pushIfAny (quadrant now false false tasks)
             notImportantNotUrgentSuggestion
        ++ pushIfAny (filter isCompleted tasks) completedCelebration
    /\ overdueTasks
       = filter (fun task => (deadline task <? now) && isPending task) tasks.
Proof.
  unfold generateSmartSuggestions.
  rewrite urgentImportant_quadrant, urgentNotImportant_quadrant,
    importantNotUrgent_quadrant, notImportantNotUrgent_quadrant.
  eexists. eexists. split; reflexivity.
Qed.

Ltac other_heading :=
  match goal with
  | H : In _ (pushIfAny _ _) |- _ =>
      apply pushIfAny_In in H; destruct H as [_ ->]; simpl; discriminate
  end.

Lemma suggestions_counts (now : Instant)
    (tasks : list Task) (unscheduledTasks : option (list Task)) :
  let suggestions := generateSmartSuggestions now tasks unscheduledTasks in
  exists a b c d : nat,
    reportsCount urgentImportantWarning suggestions a
    /\ reportsCount urgentNotImportantWarning suggestions b
    /\ reportsCount importantNotUrgentSuggestion suggestions c
    /\ reportsCount notImportantNotUrgentSuggestion suggestions d
    /\ (a + b + c + d)%nat = List.length (filter isPending tasks).
Proof.
  simpl.
  destruct (generateSmartSuggestions_quadrants now tasks unscheduledTasks)
    as (od & ul & -> & _).
  exists (List.length (quadrant now true true tasks)),
    (List.length (quadrant now true false tasks)),
    (List.length (quadrant now false true tasks)),
    (List.length (quadrant now false false tasks)).
  repeat split; try apply quadrants_cover.
  - destruct (quadrant now true true tasks) as [|t l] eqn:E.
    + simpl. intros s Hs. rewrite !in_app_iff in Hs.
      repeat destruct Hs as [Hs|Hs]; other_heading.
    + unfold reportsCount. cbn [List.length]. rewrite !in_app_iff.
      right. left. apply pushIfAny_In. split; [discriminate | reflexivity].
  - destruct (quadrant now true false tasks) as [|t l] eqn:E.
    + simpl. intros s Hs. rewrite !in_app_iff in Hs.
      repeat destruct Hs as [Hs|Hs]; other_heading.
    + unfold reportsCount. cbn [List.length]. rewrite !in_app_iff.
      right. right. left. apply pushIfAny_In.
      split; [discriminate | reflexivity].
  - destruct (quadrant now false true tasks) as [|t l] eqn:E.
    + simpl. intros s Hs. rewrite !in_app_iff in Hs.
      repeat destruct Hs as [Hs|Hs]; other_heading.
    + unfold reportsCount. cbn [List.length]. rewrite !in_app_iff.
      do 4 right. left. apply pushIfAny_In.
      split; [discriminate | reflexivity].
  - destruct (quadrant now false false tasks) as [|t l] eqn:E.
    + simpl. intros s Hs. rewrite !in_app_iff in Hs.
      repeat destruct Hs as [Hs|Hs]; other_heading.
    + unfold reportsCount. cbn [List.length]. rewrite !in_app_iff.
      do 5 right. left. apply pushIfAny_In.
      split; [discriminate | reflexivity].
Qed.

Lemma daysLeft_overdue (now : Instant) (task : Task) :
  deadline task < now -> daysLeft now task <= 0.
Proof.
  intros H. unfold daysLeft, Js.Math_ceil, daysUntilDeadlineOf.
  rewrite <- (Qceiling_Z 0). apply Qceiling_resp_le.
  assert (Hq : (inject_Z (deadline task - now) <= 0)%Q).
  { change 0%Q with (inject_Z 0). rewrite <- Zle_Qle. lia. }
  unfold Qdiv, DAY_MS.
  change (/ inject_Z 86400000)%Q with (1 # 86400000)%Q.
  change (inject_Z 0) with 0%Q. lra.
Qed.

(** A pending task whose deadline has passed is reported twice: under the
    overdue tasks, and again under the tasks due within three days, with the
    important ones or with the others. *)
Theorem overdue_task_is_also_reported_urgent (now : Instant)
    (tasks : list Task) (unscheduledTasks : option (list Task))
    (task : Task) :
  In task tasks -> deadline task < now -> isPending task = true ->
  let suggestions := generateSmartSuggestions now tasks unscheduledTasks in
  exists n m,
    In (overdueWarning n) suggestions
    /\ In (if importance task then urgentImportantWarning m
           else urgentNotImportantWarning m) suggestions.
Proof.
  intros Hin Hdue Hp. simpl.
  destruct (generateSmartSuggestions_quadrants now tasks unscheduledTasks)
    as (od & ul & -> & Hod).
  assert (Ho : In task od).
  { rewrite Hod. apply filter_In. split; [exact Hin|].
    rewrite Hp, andb_true_r. now apply Z.ltb_lt. }
  assert (Hq : In task (quadrant now true (importance task) tasks)).
  { unfold quadrant. apply filter_In. split; [exact Hin|].
    pose proof (daysLeft_overdue now task Hdue) as Hd.
    replace (daysLeft now task <=? 3) with true
      by (symmetry; apply Z.leb_le; lia).
    rewrite Hp. cbn [Bool.eqb andb]. now rewrite eqb_reflx. }
  exists (showLength od),
    (showLength (quadrant now true (importance task) tasks)).
  split.
  - rewrite in_app_iff. left. apply pushIfAny_In. split; [|reflexivity].
    intros E. rewrite E in Ho. contradiction.
  - rewrite !in_app_iff. right.
    destruct (importance task).
    + left. apply pushIfAny_In. split; [|reflexivity].
      intros E. rewrite E in Hq. contradiction.
    + right. left. apply pushIfAny_In. split; [|reflexivity].
      intros E. rewrite E in Hq. contradiction.
Qed.

Lemma overdue_task_is_also_reported_urgent_witness :
  let late := Scenario.task "lab" (Scenario.yesterday * DAY_MS) false 2 in
  let suggestions := generateSmartSuggestions Scenario.now [late] None in
  exists n m,
    In (overdueWarning n) suggestions
    /\ In (if importance late then urgentImportantWarning m
           else urgentNotImportantWarning m) suggestions.
Proof.
  apply (overdue_task_is_also_reported_urgent Scenario.now
           [Scenario.task "lab" (Scenario.yesterday * DAY_MS) false 2] None
           (Scenario.task "lab" (Scenario.yesterday * DAY_MS) false 2)).
  - left. reflexivity.
  - vm_compute. reflexivity.
  - reflexivity.
Defined.

Lemma suggestions_without_tasks_in_progress (now : Instant)
    (tasks : list Task) (unscheduledTasks : option (list Task)) :
  generateSmartSuggestions now tasks unscheduledTasks
  = generateSmartSuggestions now
      (filter (fun task => negb (isInProgress task)) tasks)
      (option_map (filter (fun task => negb (isInProgress task)))
         unscheduledTasks).
Proof.
  assert (Hpend : forall t, isPending t = true -> negb (isInProgress t) = true).
  { intros t. unfold isPending, isInProgress.
    now destruct (task_status t). }
  assert (Hcomp : forall t,
             isCompleted t = true -> negb (isInProgress t) = true).
  { intros t. unfold isCompleted, isInProgress.
    now destruct (task_status t). }
  unfold generateSmartSuggestions.
  set (q := fun task => negb (isInProgress task)).
  rewrite !(filter_implied _ q tasks).
  - destruct unscheduledTasks as [l|]; simpl; [|reflexivity].
    rewrite (filter_implied _ q l); [reflexivity|].
    intros t H. apply Hpend. now apply andb_true_iff in H.
  - exact Hcomp.
  - intros t H. apply Hpend. now apply andb_true_iff in H.
  - intros t H. apply Hpend. now apply andb_true_iff in H.
  - intros t H. apply Hpend. now apply andb_true_iff in H.
  - intros t H. apply Hpend. now apply andb_true_iff in H.
Qed.

(** Every pending task is counted once in the suggestions: the numbers of
    tasks reported as important and due within three days, urgent but not
    important, important with more than three days left, and neither urgent
    nor important add up to the number of pending tasks.  A task that is in
    progress is never counted: the suggestions are those of the tasks
    without the ones in progress, whatever their deadlines. *)
Theorem suggestions_count_each_pending_task_once (now : Instant)
    (tasks : list Task) (unscheduledTasks : option (list Task)) :
  let suggestions := generateSmartSuggestions now tasks unscheduledTasks in
  (exists a b c d : nat,
      reportsCount urgentImportantWarning suggestions a
      /\ reportsCount urgentNotImportantWarning suggestions b
      /\ reportsCount importantNotUrgentSuggestion suggestions c
      /\ reportsCount notImportantNotUrgentSuggestion suggestions d
      /\ (a + b + c + d)%nat = List.length (filter isPending tasks))
  /\ suggestions
     = generateSmartSuggestions now
         (filter (fun task => negb (isInProgress task)) tasks)
         (option_map (filter (fun task => negb (isInProgress task)))
            unscheduledTasks).
Proof.
  split; [apply suggestions_counts
         | apply suggestions_without_tasks_in_progress].
Qed.

(** ** Moving one session to today *)

(** [moveIndividualSession] succeeds exactly when today has a plan, today is
    a work day and the day has a free slot between the commitments.  On
    failure the plans are left as they are.  On success one session is
    pushed on a plan and nothing else changes: the session that is moved
    stays in the plan it comes from, and the copy is scheduled again and
    carries the date it comes from. *)
Theorem moveIndividualSession_outcome (now : Instant) (h : Store)
    (studyPlans : list Ref) (session : StudySession)
    (originalPlanDate : DateStr) (settings : UserSettings)
    (fixedCommitments : list FixedCommitment) :
  let result :=
    moveIndividualSession now h studyPlans session originalPlanDate settings
      fixedCommitments in
  let h' := fst result in
  let today := getLocalDateString now in
  let availableSlots :=
    getDailyAvailableTimeSlots (dateOfString today)
      (dailyAvailableHours settings) fixedCommitments (workDays settings)
      (Js.orElse (studyWindowStartHour settings) 6)
      (Js.orElse (studyWindowEndHour settings) 23) in
  im_updatedPlans (snd result) = studyPlans
  /\ (im_success (snd result) = true
      <-> findPlanRef h studyPlans today <> None
          /\ includes (workDays settings) (getDay now) = true
          /\ availableSlots <> [])
  /\ grownBy movedMark h h'
  /\ (if im_success (snd result)
      then sessionCount h' = S (sessionCount h)
           /\ newDate (snd result) = Some today
           /\ newTime (snd result)
              = option_map (fun slot => clockOf (ts_start slot))
                  (hd_error availableSlots)
      else h' = h /\ newDate (snd result) = None
           /\ newTime (snd result) = None).
Proof.
  unfold moveIndividualSession.
  destruct (findPlanRef h studyPlans (getLocalDateString now))
    as [[r p]|] eqn:Hf; simpl.
  2:{ repeat split; try apply grownBy_refl; try discriminate.
      intros (H & _). now contradiction H. }
  destruct (includes (workDays settings) (getDay now)); simpl.
  2:{ repeat split; try apply grownBy_refl; try discriminate.
      intros (_ & H & _). discriminate. }
  destruct (getDailyAvailableTimeSlots _ _ _ _ _ _) as [|slot rest]; simpl.
  { repeat split; try apply grownBy_refl; try discriminate.
    intros (_ & _ & H). now contradiction H. }
  apply findPlanRef_Some in Hf. destruct Hf as [Hr _].
  split; [reflexivity|]. split; [|split; [|split; [|split]]].
  - split; [|reflexivity]. intros _. repeat split; discriminate.
  - apply (grownBy_push movedMark h r). split; reflexivity.
  - apply (sessionCount_push h r p _ Hr).
  - reflexivity.
  - reflexivity.
Qed.

(** ** The next start time *)

(** [findNextAvailableStartTime] always returns a start: either the start of
    the study window, or a start inside the window from which the duration
    fits before the window ends.  The start it returns is the start of the
    window, the start it was asked about, or the end of one of the existing
    sessions. *)
Theorem findNextAvailableStartTime_result (startTime0 : Instant)
    (durationMinutes : Q) (existingSessions : list StudySession)
    (dt : Instant) (settings : UserSettings) :
  let studyWindowStart :=
    setHour dt (Js.orElse (studyWindowStartHour settings) 6) in
  let studyWindowEnd :=
    setHour dt (Js.orElse (studyWindowEndHour settings) 23) in
  let found :=
    findNextAvailableStartTime startTime0 durationMinutes existingSessions dt
      settings in
  (found = studyWindowStart
   \/ (studyWindowStart <= found <= studyWindowEnd
       /\ truncMs (inject_Z found + durationMinutes * 60 * 1000)
          <= studyWindowEnd))
  /\ (found = studyWindowStart \/ found = startTime0
      \/ exists session,
           In session existingSessions
           /\ setHoursOf dt (endTime session) = Some found).
Proof.
  unfold findNextAvailableStartTime.
  set (step := fun st session => _).
  assert (Hfold : forall l st,
             fold_left step l st = st
             \/ exists session,
                  In session l
                  /\ setHoursOf dt (endTime session)
                     = Some (fold_left step l st)).
  { induction l as [|s l IH]; intros st; simpl; [now left|].
    destruct (IH (step st s)) as [E | [s' [Hin Hs']]].
    - rewrite E. unfold step.
      destruct (instLt (Some st) (setHoursOf dt (endTime s))
                && instLt (setHoursOf dt (startTime s)) _); [|now left].
      destruct (setHoursOf dt (endTime s)) as [e|] eqn:He; [|now left].
      right. exists s. split; [now left | exact He].
    - right. exists s'. split; [now right | exact Hs']. }
  specialize (Hfold existingSessions startTime0).
  set (found := fold_left step existingSessions startTime0) in *.
  destruct (Z.leb_spec (setHour dt (Js.orElse (studyWindowStartHour settings)
                                      6)) found) as [H1|H1];
    [|split; now left].
  destruct (Z.leb_spec found
              (setHour dt (Js.orElse (studyWindowEndHour settings) 23)))
    as [H2|H2]; [|split; now left].
  simpl.
  destruct (Z.leb_spec (truncMs (inject_Z found
                                 + durationMinutes * 60 * 1000))
              (setHour dt (Js.orElse (studyWindowEndHour settings) 23)))
    as [H3|H3]; [|split; now left].
  split.
  - right. repeat split; assumption.
  - right. destruct Hfold as [E|Hs]; [now left | now right].
Qed.

(** ** Where a missed session can go *)

Lemma gapsBetween_slots (minHours : Q) (busySlots : list BusySlot) :
  forall currentTime,
    Forall (fun slot => ts_start slot < ts_end slot
                        /\ (minHours <= slotHours slot)%Q)
      (fst (gapsBetween minHours busySlots currentTime)).
Proof.
  induction busySlots as [|b rest IH]; intros ct; simpl; [constructor|].
  specialize (IH (b_end b)).
  destruct (gapsBetween minHours rest (b_end b)) as [more final]. simpl in *.
  apply Forall_app. split; [|exact IH].
  destruct ct as [ct|]; [|constructor].
  destruct (b_start b) as [bs|]; [|constructor].
  destruct (Z.ltb_spec ct bs) as [Hlt|Hge]; simpl; [|constructor].
  destruct (Js.Qleb minHours _) eqn:Hlen; constructor; [|constructor].
  split; [exact Hlt | now apply Qleb_le].
Qed.

(** Every gap the engine looks at is a real interval, at least as long as
    the minimum session length. *)
Lemma findAvailableTimeSlots_slots (settings : UserSettings)
    (fixedCommitments : list FixedCommitment) (h : Store)
    (updatedPlans : list Ref) (dt : Instant) (dateString : DateStr) :
  Forall (fun slot => ts_start slot < ts_end slot
                      /\ (minSessionHours settings <= slotHours slot)%Q)
    (findAvailableTimeSlots settings fixedCommitments h updatedPlans dt
       dateString).
Proof.
  unfold findAvailableTimeSlots.
  pose proof (gapsBetween_slots (minSessionHours settings)
                (getBusyTimeSlots fixedCommitments h updatedPlans dt
                   dateString)
                (Some (setHour dt (Js.orElse (studyWindowStartHour settings)
                                     6)))) as Hg.
  destruct (gapsBetween _ _ _) as [slots ct]. simpl in Hg.
  destruct ct as [ct|]; [|exact Hg].
  destruct (Z.ltb_spec ct (setHour dt (Js.orElse (studyWindowEndHour settings)
                                         23))) as [Hlt|Hge]; simpl;
    [|exact Hg].
  destruct (Js.Qleb _ _) eqn:Hlen; [|exact Hg].
  apply Forall_app. split; [exact Hg|]. constructor; [|constructor].
  split; [exact Hlt | now apply Qleb_le].
Qed.

Lemma trySlots_Some (now : Instant) (settings : UserSettings)
    (existing : list BusySlot) (session : StudySession) (sessionDuration : Q)
    (targetDateString : DateStr) (slots : list TimeSlot) (r : MoveResult) :
  trySlots now settings existing session sessionDuration targetDateString
    slots = Some r ->
  targetDate r = targetDateString
  /\ exists slot,
       In slot slots /\ targetTime r = clockOf (ts_start slot)
       /\ (sessionDuration <= slotHours slot)%Q.
Proof.
  induction slots as [|slot rest IH]; simpl; [discriminate|].
  intros E.
  assert (Hnext : trySlots now settings existing session sessionDuration
                    targetDateString rest = Some r ->
                  targetDate r = targetDateString
                  /\ exists slot',
                       In slot' (slot :: rest)
                       /\ targetTime r = clockOf (ts_start slot')
                       /\ (sessionDuration <= slotHours slot')%Q).
  { intros E'. destruct (IH E') as [Hd [s [Hin Hs]]].
    split; [exact Hd|]. exists s. split; [now right | exact Hs]. }
  destruct (Js.Qleb sessionDuration _) eqn:Hfit; [|now apply Hnext].
  destruct (negb _); [|now apply Hnext].
  destruct (_ || _); [|now apply Hnext].
  injection E as <-. simpl. split; [reflexivity|].
  exists slot. split; [now left|]. split; [reflexivity|].
  now apply Qleb_le.
Qed.



(** ** The sessions of the generated plans *)

Lemma schedulable_In (tasks : list Task) (task : Task) :
  In task (schedulable tasks)
  <-> In task tasks /\ isPending task = true /\ (0 < estimatedHours task)%Q.
Proof.
  unfold schedulable. rewrite sort_In, filter_In, andb_true_iff, Qltb_lt.
  tauto.
Qed.

Lemma updatePlan_Forall (P : StudyPlan -> Prop) (d : DateStr)
    (f : StudyPlan -> StudyPlan) (plans : list StudyPlan) :
  (forall p, P p -> P (f p)) -> Forall P plans ->
  Forall P (updatePlan d f plans).
Proof.
  intros Hf. induction 1 as [|p ps Hp Hps IH]; simpl; [constructor|].
  destruct (date p =? d); constructor; auto.
Qed.

Section Fresh.
Variable tasks : list Task.

Lemma freshSession_same (a b : StudySession) :
  taskId b = taskId a -> status b = status a -> done b = done a ->
  isFlexible b = isFlexible a -> isManualOverride b = isManualOverride a ->
  originalTime b = originalTime a -> originalDate b = originalDate a ->
  freshSession tasks a -> freshSession tasks b.
Proof.
  unfold freshSession. intros -> -> -> -> -> -> ->. trivial.
Qed.

Lemma pushFlexible_fresh (task : Task) (d : DateStr) (rounded : Q)
    (st : GenState) :
  In task (schedulable tasks) ->
  Forall (freshPlan tasks) (studyPlans st) ->
  Forall (freshPlan tasks) (studyPlans (pushFlexible task d rounded st)).
Proof.
  intros Ht. unfold pushFlexible. simpl. apply updatePlan_Forall.
  intros p Hp. unfold freshPlan in *. simpl.
  apply Forall_app. split; [exact Hp|]. constructor; [|constructor].
  apply schedulable_In in Ht. destruct Ht as (Hin & Hpend & Hpos).
  unfold freshSession. simpl. repeat split. eauto.
Qed.

Lemma distributeRound_fresh (settings : UserSettings) (task : Task)
    (days : list DateStr) :
  In task (schedulable tasks) ->
  forall lengths st distributed,
    Forall (freshPlan tasks) (studyPlans st) ->
    Forall (freshPlan tasks)
      (studyPlans (fst (distributeRound settings task days lengths st
                          distributed))).
Proof.
  intros Ht. induction days as [|d days IH]; intros [|len lengths] st acc H;
    simpl; try exact H.
  destruct (Js.Qleb _ _); [|now apply IH].
  apply IH. now apply pushFlexible_fresh.
Qed.

Lemma redistributeUnscheduledHours_fresh (settings : UserSettings)
    (task : Task) (hours : Q) (days : list DateStr) (st : GenState) :
  In task (schedulable tasks) ->
  Forall (freshPlan tasks) (studyPlans st) ->
  Forall (freshPlan tasks)
    (studyPlans (fst (redistributeUnscheduledHours settings task hours days
                        st))).
Proof.
  intros Ht. unfold redistributeUnscheduledHours.
  generalize 10%nat as rounds. intros rounds. revert hours st.
  induction rounds as [|rounds IH]; intros hours st H; simpl; [exact H|].
  destruct (Js.Qltb 0 hours); [|exact H].
  destruct (filter _ days) as [|d0 ds] eqn:Hdays; [exact H|].
  pose proof (distributeRound_fresh settings task (d0 :: ds) Ht
                (optimizeSessionDistribution settings hours (d0 :: ds))
                st 0%Q H) as Hd.
  destruct (distributeRound settings task (d0 :: ds) _ st 0%Q) as [st' dist].
  simpl in Hd. destruct (Qeq_bool dist 0); simpl; [exact Hd|].
  now apply IH.
Qed.

Lemma assignSessions_fresh (task : Task) (days : list DateStr) :
  In task (schedulable tasks) ->
  forall lengths st unscheduled,
    Forall (freshPlan tasks) (studyPlans st) ->
    Forall (freshPlan tasks)
      (studyPlans (fst (assignSessions task days lengths st unscheduled))).
Proof.
  intros Ht. induction days as [|d days IH]; intros [|len lengths] st acc H;
    simpl; try exact H.
  destruct (Js.Qltb 0 _); [|now apply IH].
  apply IH. now apply pushFlexible_fresh.
Qed.

Lemma allocateTaskEven_fresh (settings : UserSettings)
    (availableDays : list DateStr) (st : GenState) (task : Task) :
  In task (schedulable tasks) ->
  Forall (freshPlan tasks) (studyPlans st) ->
  Forall (freshPlan tasks)
    (studyPlans (allocateTaskEven settings availableDays st task)).
Proof.
  intros Ht H. unfold allocateTaskEven.
  destruct (daysUpTo availableDays _) as [|d0 ds]; [exact H|].
  pose proof (assignSessions_fresh task (d0 :: ds) Ht
                (optimizeSessionDistribution settings (estimatedHours task)
                   (d0 :: ds)) st 0%Q H) as Ha.
  destruct (assignSessions task (d0 :: ds) _ st 0%Q) as [st' u].
  simpl in Ha. destruct (Js.Qltb 0 u); [|exact Ha].
  now apply redistributeUnscheduledHours_fresh.
Qed.

Lemma fold_fresh (step : GenState -> Task -> GenState) (l : list Task) :
  (forall st task,
      In task l -> Forall (freshPlan tasks) (studyPlans st) ->
      Forall (freshPlan tasks) (studyPlans (step st task))) ->
  forall st,
    Forall (freshPlan tasks) (studyPlans st) ->
    Forall (freshPlan tasks) (studyPlans (fold_left step l st)).
Proof.
  induction l as [|a l IH]; intros Hstep st H; simpl; [exact H|].
  apply IH.
  - intros st' task Hin. apply Hstep. now right.
  - apply Hstep; [now left | exact H].
Qed.

Lemma combineGroup_fresh (g : list StudySession) :
  Forall (freshSession tasks) g -> Forall (freshSession tasks) (combineGroup g).
Proof.
  intros Hg. destruct g as [|a [|b l]]; [constructor | exact Hg |].
  unfold combineGroup.
  assert (Hs : Forall (freshSession tasks) (sortByStartTime (a :: b :: l))).
  { rewrite Forall_forall in *. intros s Hs. apply Hg.
    now apply sortByStartTime_In. }
  destruct (sortByStartTime (a :: b :: l)) as [|x rest]; [constructor|].
  constructor; [|constructor].
  inversion Hs as [|? ? Hx _]; subst.
  now apply (freshSession_same x).
Qed.

Lemma combinePlan_fresh (plan : StudyPlan) :
  freshPlan tasks plan -> freshPlan tasks (combinePlan plan).
Proof.
  unfold freshPlan. intros H. rewrite combinePlan_sessions.
  apply Forall_app. split.
  - unfold combineWith. apply Forall_flat_map. apply Forall_forall.
    intros e He. apply combineGroup_fresh.
    rewrite Forall_forall in *. intros s Hs. apply H.
    assert (Hin : In s (flat_map snd (Js.entries
                                        (groupByTask (plannedTasks plan))))).
    { apply in_flat_map. exists e. now split. }
    rewrite (Permutation_flat_map snd (entries_perm _)) in Hin.
    rewrite groupByTask_perm in Hin.
    unfold filterSkippedSessions in Hin. now apply filter_In in Hin.
  - rewrite Forall_forall in *. intros s Hs. apply H.
    now apply filter_In in Hs.
Qed.

Lemma combine_fresh (plans : list StudyPlan) :
  Forall (freshPlan tasks) plans ->
  Forall (freshPlan tasks) (combineSessionsOnSameDay plans).
Proof.
  unfold combineSessionsOnSameDay. intros H. apply Forall_map.
  eapply Forall_impl; [|exact H]. apply combinePlan_fresh.
Qed.

Lemma assignTimeSlots_fresh (settings : UserSettings)
    (commitmentsForDay : list FixedCommitment) (d : DateStr)
    (sessions : list StudySession) :
  Forall (freshSession tasks) sessions ->
  forall assigned,
    Forall (freshSession tasks)
      (assignTimeSlots settings commitmentsForDay d sessions assigned).
Proof.
  induction 1 as [|s l Hs _ IH]; intros assigned; simpl; [constructor|].
  destruct (findNextAvailableTimeSlot _ _ _ _ _ _ _) as [slot|];
    (constructor; [now apply (freshSession_same s) | apply IH]).
Qed.

Lemma placePlan_fresh (settings : UserSettings) (sorted : list Task)
    (fixedCommitments : list FixedCommitment) (plan : StudyPlan) :
  freshPlan tasks plan ->
  freshPlan tasks (placePlan settings sorted fixedCommitments plan).
Proof.
  unfold freshPlan, placePlan. simpl. intros H.
  apply assignTimeSlots_fresh. rewrite Forall_forall in *.
  intros s Hs. apply H. now apply (proj1 (sort_In _ _ _)) in Hs.
Qed.

Lemma emptyPlans_fresh (settings : UserSettings) (days : list DateStr) :
  Forall (freshPlan tasks) (map (emptyPlan settings) days).
Proof. apply Forall_map, Forall_forall. intros d _. constructor. Qed.

Lemma combinePlan_total_zero (plan : StudyPlan) :
  freshPlan tasks plan -> totalStudyHours (combinePlan plan) = 0%Q.
Proof.
  intros H. apply combinePlan_fresh in H. unfold freshPlan in H.
  change (totalStudyHours (combinePlan plan))
    with (calculateTotalStudyHours (plannedTasks (combinePlan plan))).
  unfold calculateTotalStudyHours. rewrite filter_none; [reflexivity|].
  rewrite Forall_forall in H. intros s Hs.
  destruct (H s Hs) as (_ & Hst & Hdone & _).
  unfold statusIs. now rewrite Hst, Hdone.
Qed.

Lemma combine_total_zero (plans : list StudyPlan) :
  Forall (freshPlan tasks) plans ->
  Forall (fun plan => totalStudyHours plan = 0%Q)
    (combineSessionsOnSameDay plans).
Proof.
  unfold combineSessionsOnSameDay. intros H. apply Forall_map.
  eapply Forall_impl; [|exact H]. apply combinePlan_total_zero.
Qed.

Lemma generateEven_fresh (now : Instant) (settings : UserSettings)
    (fixedCommitments : list FixedCommitment)
    (missedSessions : list MissedSession) :
  Forall (freshPlan tasks)
    (fst (generateEven now tasks settings fixedCommitments missedSessions))
  /\ Forall (fun plan => totalStudyHours plan = 0%Q)
       (fst (generateEven now tasks settings fixedCommitments missedSessions)).
Proof.
  unfold generateEven.
  set (tasksEven := schedulable tasks).
  set (availableDays := computeAvailableDays now settings tasksEven).
  set (st0 := mkGen _ _).
  set (st1 := fold_left (allocateTaskEven settings availableDays) tasksEven
                st0).
  assert (H1 : Forall (freshPlan tasks) (studyPlans st1)).
  { unfold st1. apply fold_fresh.
    - intros st task Hin. now apply allocateTaskEven_fresh.
    - apply emptyPlans_fresh. }
  set (st2 := withPlans st1 _).
  assert (H2 : Forall (freshPlan tasks) (studyPlans st2)
               /\ Forall (fun plan => totalStudyHours plan = 0%Q)
                    (studyPlans st2)).
  { unfold st2. simpl.
    split; [now apply combine_fresh | now apply combine_total_zero]. }
  set (short := filter _ tasksEven).
  assert (Hshort : forall task, In task (Js.sort taskLeb short) ->
                                In task tasksEven).
  { intros task Hin. apply (proj1 (sort_In _ _ _)) in Hin.
    unfold short in Hin. now apply filter_In in Hin. }
  set (pair := match short with [] => _ | _ :: _ => _ end).
  assert (H3 : Forall (freshPlan tasks) (studyPlans (fst pair))
               /\ Forall (fun plan => totalStudyHours plan = 0%Q)
                    (studyPlans (fst pair))).
  { unfold pair. destruct short as [|t0 ts] eqn:E; simpl; [exact H2|].
    assert (Hg : Forall (freshPlan tasks)
                   (studyPlans
                      (globalRedistribution settings availableDays
                         (scheduledHoursByTask (studyPlans st2))
                         (Js.sort taskLeb (t0 :: ts)) st2))).
    { unfold globalRedistribution. apply fold_fresh.
      - intros st task Hin H. destruct (Js.Qleb _ 0); [exact H|].
        apply redistributeUnscheduledHours_fresh; [|exact H].
        now apply Hshort.
      - exact (proj1 H2). }
    split; [now apply combine_fresh | now apply combine_total_zero]. }
  destruct pair as [st3 hours]. simpl in H3. simpl.
  set (st4 := withPlans st3 _).
  assert (H4 : Forall (freshPlan tasks) (studyPlans st4)
               /\ Forall (fun plan => totalStudyHours plan = 0%Q)
                    (studyPlans st4)).
  { unfold st4. simpl. split; apply Forall_map.
    - eapply Forall_impl; [|exact (proj1 H3)]. apply placePlan_fresh.
    - exact (proj2 H3). }
  destruct (Js.entries (missedHoursByTask missedSessions)) as [|e0 es] eqn:E;
    [exact H4|].
  simpl.
  assert (Hm : Forall (freshPlan tasks)
                 (studyPlans
                    (redistributeMissedHours settings availableDays
                       (missedHoursByTask missedSessions) tasksEven st4))).
  { unfold redistributeMissedHours.
    apply fold_fresh; [|exact (proj1 H4)].
    intros st task Hin H. destruct (Js.Qleb _ 0); [exact H|].
    apply redistributeUnscheduledHours_fresh; [|exact H].
    apply (proj1 (sort_In _ _ _)) in Hin.
    apply in_flat_map in Hin. destruct Hin as [e [_ Hin]].
    destruct (findTask tasksEven (fst e)) as [t|] eqn:Hf; [|contradiction].
    destruct Hin as [<-|[]]. unfold findTask in Hf.
    now apply find_some in Hf. }
  split; [now apply combine_fresh | now apply combine_total_zero].
Qed.

Lemma eisenhowerTasks_fresh (settings : UserSettings)
    (commitmentsForDay : list FixedCommitment) (d : DateStr)
    (tasksForDay : list Task) :
  (forall task, In task tasksForDay -> In task (schedulable tasks)) ->
  forall availableHours st,
    Forall (freshPlan tasks) (e_plans st) ->
    Forall (freshPlan tasks)
      (e_plans (eisenhowerTasks settings commitmentsForDay d tasksForDay
                  availableHours st)).
Proof.
  induction tasksForDay as [|task rest IH]; intros Hsub avail st H; simpl;
    [exact H|].
  assert (Hrest : forall t, In t rest -> In t (schedulable tasks))
    by (intros t Ht; apply Hsub; now right).
  destruct (Js.Qleb avail 0); [exact H|].
  destruct (Js.Qleb _ 0); [now apply IH|].
  destruct (Js.Qltb 0 _); [|now apply IH].
  destruct (findNextAvailableTimeSlot _ _ _ _ _ _ _) as [slot|];
    [|now apply IH].
  apply IH; [exact Hrest|]. simpl. apply updatePlan_Forall; [|exact H].
  intros p Hp. unfold freshPlan in *. simpl.
  apply Forall_app. split; [exact Hp|]. constructor; [|constructor].
  assert (Ht : In task (schedulable tasks)) by (apply Hsub; now left).
  apply schedulable_In in Ht. destruct Ht as (Hin & Hpend & Hpos).
  unfold freshSession. simpl. repeat split. eauto.
Qed.

Lemma generateEisenhower_fresh (now : Instant) (settings : UserSettings)
    (fixedCommitments : list FixedCommitment) :
  Forall (freshPlan tasks)
    (fst (generateEisenhower now tasks settings fixedCommitments)).
Proof.
  unfold generateEisenhower. simpl.
  set (st0 := mkEisen _ _ _).
  assert (H : forall l st,
             Forall (freshPlan tasks) (e_plans st) ->
             Forall (freshPlan tasks)
               (e_plans (fold_left (eisenhowerDay settings fixedCommitments
                                      (schedulable tasks)) l st))).
  { induction l as [|d l IH]; intros st Hst; simpl; [exact Hst|].
    apply IH. unfold eisenhowerDay. apply eisenhowerTasks_fresh; [|exact Hst].
    intros task Hin. now apply filter_In in Hin. }
  apply H. apply emptyPlans_fresh.
Qed.

End Fresh.

Lemma generateNewStudyPlan_fresh (now : Instant) (tasks : list Task)
    (settings : UserSettings) (fixedCommitments : list FixedCommitment)
    (existingStudyPlans : list StudyPlan) :
  Forall (freshPlan tasks)
    (fst (generateNewStudyPlan now tasks settings fixedCommitments
            existingStudyPlans)).
Proof.
  unfold generateNewStudyPlan.
  destruct (studyPlanMode settings) as [[|]|];
    [apply generateEisenhower_fresh | apply generateEven_fresh
    | apply generateEisenhower_fresh].
Qed.

Lemma generateNewStudyPlan_even_totals (now : Instant) (tasks : list Task)
    (settings : UserSettings) (fixedCommitments : list FixedCommitment)
    (existingStudyPlans : list StudyPlan) :
  studyPlanMode settings = Some even ->
  Forall (fun plan => totalStudyHours plan = 0%Q)
    (fst (generateNewStudyPlan now tasks settings fixedCommitments
            existingStudyPlans)).
Proof.
  intros Hmode. unfold generateNewStudyPlan. rewrite Hmode.
  apply generateEven_fresh.
Qed.

(** Every session of the plans [generateNewStudyPlan] returns, in either
    mode, is a session it has made: a flexible, scheduled session of a
    pending task with hours, not done and not moved from anywhere.  No
    session of the existing plans is carried over, the done ones included.
    In even mode the [totalStudyHours] of every plan returned is zero, the
    hours of its done and skipped sessions, of which it has none. *)
Theorem generated_sessions_are_fresh (now : Instant) (tasks : list Task)
    (settings : UserSettings) (fixedCommitments : list FixedCommitment)
    (existingStudyPlans : list StudyPlan) :
  let plans :=
    fst (generateNewStudyPlan now tasks settings fixedCommitments
           existingStudyPlans) in
  Forall (freshPlan tasks) plans
  /\ (studyPlanMode settings = Some even ->
      Forall (fun plan => totalStudyHours plan = 0%Q) plans).
Proof.
  split; [apply generateNewStudyPlan_fresh
         | apply generateNewStudyPlan_even_totals].
Qed.

(** ** Redistribution after a task is deleted *)

Lemma redistributionPass_keeps (tasks : list Task) (settings : UserSettings)
    (availableDays : list DateStr) (hours : list (string * Q))
    (l : list Task) :
  (forall task, In task l -> In task (schedulable tasks)) ->
  forall acc,
    let result :=
      fold_left (fun acc task =>
        let unscheduledHours :=
          (estimatedHours task - scheduledOr0 hours (id task))%Q in
        if Js.Qleb unscheduledHours 0 then acc
        else
          let '(st', finalUnscheduledHours) :=
            redistributeUnscheduledHours settings task unscheduledHours
              (daysUpTo availableDays (deadlineDateStr settings task))
              (fst acc) in
          (st', snd acc || Js.Qltb finalUnscheduledHours unscheduledHours))
        l acc in
    map date (studyPlans (fst result)) = map date (studyPlans (fst acc))
    /\ (Forall (freshPlan tasks) (studyPlans (fst acc)) ->
        Forall (freshPlan tasks) (studyPlans (fst result))).
Proof.
  induction l as [|task l IH]; intros Hsub acc; simpl; [split; trivial|].
  assert (Hl : forall t, In t l -> In t (schedulable tasks))
    by (intros t Ht; apply Hsub; now right).
  destruct (Js.Qleb _ 0); [now apply IH|].
  set (u := (estimatedHours task - scheduledOr0 hours (id task))%Q).
  set (days := daysUpTo availableDays (deadlineDateStr settings task)).
  pose proof (redistributeUnscheduledHours_dates settings task u days
                (fst acc)) as Hd.
  pose proof (redistributeUnscheduledHours_fresh tasks settings task u days
                (fst acc) (Hsub task (or_introl eq_refl))) as Hf.
  destruct (redistributeUnscheduledHours settings task u days (fst acc))
    as [st' final]. simpl in Hd, Hf.
  destruct (IH Hl (st', snd acc || Js.Qltb final u)) as [Hd' Hf'].
  simpl in Hd', Hf'. split; [congruence | auto].
Qed.

Lemma redistributionPasses_keeps (tasks : list Task) (settings : UserSettings)
    (availableDays : list DateStr) (passes : nat) :
  forall st,
    map date
      (studyPlans (redistributionPasses settings availableDays
                     (schedulable tasks) passes st))
    = map date (studyPlans st)
    /\ (Forall (freshPlan tasks) (studyPlans st) ->
        Forall (freshPlan tasks)
          (studyPlans (redistributionPasses settings availableDays
                         (schedulable tasks) passes st))).
Proof.
  induction passes as [|passes IH]; intros st; simpl; [split; trivial|].
  set (hours := scheduledHoursByTask (studyPlans st)).
  set (short := filter _ (schedulable tasks)).
  destruct short as [|t0 ts] eqn:E; [split; trivial|].
  assert (Hsub : forall task, In task (Js.sort taskLeb (t0 :: ts)) ->
                              In task (schedulable tasks)).
  { intros task Hin. apply (proj1 (sort_In _ _ _)) in Hin.
    rewrite <- E in Hin. unfold short in Hin. now apply filter_In in Hin. }
  unfold redistributionPass.
  set (sorted := Js.sort taskLeb (t0 :: ts)) in *.
  pose proof (redistributionPass_keeps tasks settings availableDays hours
                sorted Hsub (st, false)) as Hp.
  cbv zeta in Hp.
  destruct (fold_left _ sorted (st, false)) as [st' moved].
  cbn [fst] in Hp. destruct Hp as [Hd Hf].
  destruct (negb moved); [split; assumption|].
  destruct (IH (withPlans st' (combineSessionsOnSameDay (studyPlans st'))))
    as [Hd' Hf']. simpl in Hd', Hf'. split.
  - now rewrite Hd', combine_dates.
  - intros H. apply Hf'. apply combine_fresh. auto.
Qed.

(** [redistributeAfterTaskDeletion] builds the plans anew: one plan for each
    available day of the pending tasks with hours, in the order of the days,
    holding only sessions it has made.  The sessions of the existing plans
    are not in the result, the done ones included; in even mode they count
    against the hours of their day, and in the other mode the result is that
    of [generateNewStudyPlan] without existing plans. *)
Theorem redistribution_after_deletion_starts_afresh (now : Instant)
    (tasks : list Task) (settings : UserSettings)
    (fixedCommitments : list FixedCommitment)
    (existingStudyPlans : list StudyPlan) :
  let plans :=
    redistributeAfterTaskDeletion now tasks settings fixedCommitments
      existingStudyPlans in
  map date plans = computeAvailableDays now settings (schedulable tasks)
  /\ Forall (freshPlan tasks) plans
  /\ (studyPlanMode settings <> Some even ->
      plans = fst (generateNewStudyPlan now tasks settings fixedCommitments
                     [])).
Proof.
  unfold redistributeAfterTaskDeletion.
  assert (Hother :
            map date (fst (generateNewStudyPlan now tasks settings
                             fixedCommitments []))
            = computeAvailableDays now settings (schedulable tasks)
            /\ Forall (freshPlan tasks)
                 (fst (generateNewStudyPlan now tasks settings
                         fixedCommitments []))).
  { split; [|apply generateNewStudyPlan_fresh].
    unfold generateNewStudyPlan.
    destruct (studyPlanMode settings) as [[|]|];
      [apply generateEisenhower_dates | apply generateEven_dates
      | apply generateEisenhower_dates]. }
  destruct (studyPlanMode settings) as [[|]|] eqn:Hmode;
    try (destruct Hother as [Hd Hf]; simpl; repeat split; assumption).
  cbv zeta.
  set (tasksEven := schedulable tasks).
  set (availableDays := computeAvailableDays now settings tasksEven).
  set (st0 := mkGen _ _).
  set (st1 := fold_left (allocateTaskEven settings availableDays) tasksEven
                st0).
  assert (H1 : map date (studyPlans st1) = availableDays
               /\ Forall (freshPlan tasks) (studyPlans st1)).
  { unfold st1. split.
    - rewrite fold_dates by apply allocateTaskEven_dates.
      unfold st0. simpl. rewrite map_map. simpl. apply map_id.
    - apply fold_fresh.
      + intros st task Hin. now apply allocateTaskEven_fresh.
      + apply emptyPlans_fresh. }
  destruct H1 as [Hd1 Hf1].
  set (st2 := withPlans st1 _).
  destruct (redistributionPasses_keeps tasks settings availableDays 3 st2)
    as [Hd3 Hf3].
  fold tasksEven in Hd3, Hf3.
  set (st3 := redistributionPasses settings availableDays tasksEven 3 st2)
    in *.
  split; [|split].
  - rewrite map_map.
    rewrite (map_ext (fun x => date (placePlan settings tasksEven
                                       fixedCommitments x)) date)
      by reflexivity.
    rewrite Hd3. unfold st2. cbn [studyPlans withPlans].
    rewrite combine_dates. exact Hd1.
  - apply Forall_map.
    eapply Forall_impl; [apply placePlan_fresh|].
    apply Hf3. unfold st2. simpl. now apply combine_fresh.
  - intros H. now contradiction H.
Qed.

(** ** The hours of a day in Eisenhower mode *)

Lemma updatePlan_map (d : DateStr) (f : StudyPlan -> StudyPlan)
    (plans : list StudyPlan) :
  NoDup (map date plans) ->
  (forall p, date (f p) = date p) ->
  updatePlan d f plans
  = map (fun p => if date p =? d then f p else p) plans.
Proof.
  intros Hnd Hf. induction plans as [|p ps IH]; simpl; [reflexivity|].
  inversion Hnd as [|? ? Hp Hps]; subst.
  destruct (Z.eqb_spec (date p) d) as [Hd|Hd].
  - f_equal. symmetry. rewrite <- (map_id ps) at 2. apply map_ext_in.
    intros q Hq. destruct (Z.eqb_spec (date q) d) as [Hq'|]; [|reflexivity].
    exfalso. apply Hp. rewrite Hd, <- Hq'. now apply in_map.
  - f_equal. now apply IH.
Qed.

Section Capacity.
Variables (settings : UserSettings)
  (commitmentsForDay : list FixedCommitment) (d : DateStr).
Hypothesis daily_whole : wholeMinutes (dailyAvailableHours settings).

Lemma eisenhowerTasks_capacity (tasksForDay : list Task) :
  forall availableHours st,
    NoDup (map date (e_plans st)) ->
    Forall (withinCapacity (dailyAvailableHours settings)
              (e_dailyRemainingHours st)) (e_plans st) ->
    (availableHours == remainingAt (e_dailyRemainingHours st) d)%Q ->
    Forall (withinCapacity (dailyAvailableHours settings)
              (e_dailyRemainingHours
                 (eisenhowerTasks settings commitmentsForDay d tasksForDay
                    availableHours st)))
      (e_plans (eisenhowerTasks settings commitmentsForDay d tasksForDay
                  availableHours st)).
Proof.
  induction tasksForDay as [|task rest IH]; intros avail st Hnd Hcap Hsync;
    simpl; [exact Hcap|].
  destruct (Js.Qleb avail 0) eqn:Havail; [exact Hcap|].
  apply Qleb_gt in Havail.
  destruct (Js.Qleb _ 0); [now apply IH|].
  set (hours := Qmin _ avail).
  destruct (Js.Qltb 0 hours) eqn:Hpos; [|now apply IH].
  apply Qltb_lt in Hpos.
  destruct (findNextAvailableTimeSlot _ _ _ _ _ _ _) as [slot|];
    [|now apply IH].
  set (alloc := Js.roundToMinute hours).
  assert (Halloc : wholeMinutes alloc) by apply roundToMinute_whole.
  assert (Halloc0 : (0 <= alloc)%Q) by (apply roundToMinute_nonneg; lra).
  assert (Hle : (hours <= avail)%Q) by apply Q.le_min_r.
  fold (remainingAt (e_dailyRemainingHours st) d).
  set (r0 := remainingAt (e_dailyRemainingHours st) d) in *.
  apply IH; cbn [e_plans e_dailyRemainingHours].
  - rewrite updatePlan_dates; [exact Hnd | reflexivity].
  - rewrite updatePlan_map; [|exact Hnd | reflexivity].
    apply Forall_map. rewrite Forall_forall in *. intros p Hp.
    destruct (Hcap p Hp) as (rem & Hget & Hw & H0 & Hsum & Htot).
    destruct (Z.eqb_spec (date p) d) as [Hd|Hd].
    + assert (Hr0 : r0 = rem).
      { unfold r0, remainingAt. rewrite <- Hd, Hget. reflexivity. }
      assert (Hfit : (alloc <= rem)%Q).
      { apply roundToMinute_below; [exact Hw|]. rewrite <- Hr0, <- Hsync.
        exact Hle. }
      assert (Hrest : (Js.roundToMinute (r0 - alloc) == rem - alloc)%Q).
      { rewrite Hr0. apply roundToMinute_id.
        now apply wholeMinutes_minus. }
      exists (Js.roundToMinute (r0 - alloc)).
      cbn [date plannedTasks totalStudyHours withSessions].
      rewrite Hd, get_set_same. split; [reflexivity|].
      split; [apply roundToMinute_whole|].
      split; [rewrite Hrest; lra|].
      rewrite sumQ_app. cbn [sumQ fold_right allocatedHours].
      split; [rewrite Hrest; lra|].
      assert (Hwt : wholeMinutes (totalStudyHours p + alloc)).
      { apply wholeMinutes_plus; [|exact Halloc].
        apply (wholeMinutes_comp (dailyAvailableHours settings - rem));
          [rewrite Htot; lra|].
        now apply wholeMinutes_minus. }
      rewrite (roundToMinute_id _ Hwt), Htot. ring.
    + exists rem. rewrite get_set_other by exact Hd. auto.
  - unfold remainingAt. rewrite get_set_same.
    apply roundToMinute_comp. fold alloc. rewrite Hsync. reflexivity.
Qed.

End Capacity.

Lemma generateEisenhower_capacity (now : Instant) (tasks : list Task)
    (settings : UserSettings) (fixedCommitments : list FixedCommitment) :
  wholeMinutes (dailyAvailableHours settings) ->
  (0 <= dailyAvailableHours settings)%Q ->
  exists remaining,
    Forall (withinCapacity (dailyAvailableHours settings) remaining)
      (fst (generateEisenhower now tasks settings fixedCommitments)).
Proof.
  intros Hw H0. unfold generateEisenhower. cbn [fst].
  set (days := computeAvailableDays now settings (schedulable tasks)).
  set (st0 := mkEisen _ _ _).
  assert (H : forall l st,
             NoDup (map date (e_plans st)) ->
             Forall (withinCapacity (dailyAvailableHours settings)
                       (e_dailyRemainingHours st)) (e_plans st) ->
             let st' :=
               fold_left (eisenhowerDay settings fixedCommitments
                            (schedulable tasks)) l st in
             Forall (withinCapacity (dailyAvailableHours settings)
                       (e_dailyRemainingHours st')) (e_plans st')).
  { induction l as [|d l IH]; intros st Hnd Hcap; simpl; [exact Hcap|].
    apply IH.
    - unfold eisenhowerDay. now rewrite eisenhowerTasks_dates.
    - unfold eisenhowerDay.
      apply eisenhowerTasks_capacity; try assumption. reflexivity. }
  eexists. apply H.
  - unfold st0. cbn [e_plans]. rewrite map_map. cbn [date emptyPlan].
    rewrite map_id. apply computeAvailableDays_NoDup.
  - unfold st0. cbn [e_plans e_dailyRemainingHours].
    apply Forall_map, Forall_forall. intros d Hd.
    exists (dailyAvailableHours settings). cbn [date emptyPlan plannedTasks
                                                  totalStudyHours sumQ
                                                  fold_right].
    split; [apply get_fold_set; now left|].
    repeat split; try assumption; ring.
Qed.

(** In Eisenhower mode, when the daily hours are a whole number of minutes
    and not negative, no plan [generateNewStudyPlan] returns holds more hours
    of sessions than the daily hours, and the [totalStudyHours] of each plan
    is the hours of all its sessions. *)
Theorem eisenhower_days_within_daily_hours (now : Instant)
    (tasks : list Task) (settings : UserSettings)
    (fixedCommitments : list FixedCommitment)
    (existingStudyPlans : list StudyPlan) :
  studyPlanMode settings <> Some even ->
  wholeMinutes (dailyAvailableHours settings) ->
  (0 <= dailyAvailableHours settings)%Q ->
  Forall (fun plan =>
            (sumQ (plannedTasks plan) <= dailyAvailableHours settings)%Q
            /\ (totalStudyHours plan == sumQ (plannedTasks plan))%Q)
    (fst (generateNewStudyPlan now tasks settings fixedCommitments
            existingStudyPlans)).
Proof.
  intros Hmode Hw H0.
  destruct (generateEisenhower_capacity now tasks settings fixedCommitments
              Hw H0) as [remaining Hcap].
  assert (Hgen : fst (generateNewStudyPlan now tasks settings fixedCommitments
                        existingStudyPlans)
                 = fst (generateEisenhower now tasks settings
                          fixedCommitments)).
  { unfold generateNewStudyPlan.
    destruct (studyPlanMode settings) as [[|]|]; try reflexivity.
    now contradiction Hmode. }
  rewrite Hgen. eapply Forall_impl; [|exact Hcap].
  intros p (rem & _ & _ & Hrem & Hsum & Htot). split; [lra | exact Htot].
Qed.

Lemma eisenhower_days_within_daily_hours_witness :
  Forall (fun plan =>
            (sumQ (plannedTasks plan) <= 8)%Q
            /\ (totalStudyHours plan == sumQ (plannedTasks plan))%Q)
    (fst (generateNewStudyPlan Scenario.now [Scenario.report]
            (Scenario.settings eisenhower 8 6 23) [] [])).
Proof.
  apply (eisenhower_days_within_daily_hours Scenario.now [Scenario.report]
           (Scenario.settings eisenhower 8 6 23) [] []).
  - discriminate.
  - exists 480. reflexivity.
  - unfold Qle. simpl. lia.
Defined.

(** ** The feedback of a redistribution *)

Lemma gate_open_has_missed (now : Instant) (studyPlans : list StudyPlan)
    (settings : UserSettings) (fixedCommitments : list FixedCommitment)
    (tasks : list Task) :
  canRedistribute
    (handleRedistributionEdgeCases now studyPlans settings fixedCommitments
       tasks) = true ->
  (0 < countMissed now studyPlans)%nat.
Proof.
  unfold handleRedistributionEdgeCases.
  destruct (Nat.eqb_spec (countMissed now studyPlans) 0) as [E|E];
    [discriminate | lia].
Qed.

(** When the pre-flight gate lets the redistribution run, the sessions
    reported as moved and as failed are together the sessions that were
    missed before the run, of which there is at least one; when it does not,
    both numbers are zero.  So of the five messages the function can build,
    the two for a run that neither moved nor failed a session are never
    returned. *)
Theorem feedback_accounts_for_every_missed_session (now : Instant)
    (h : Store) (studyPlans : list Ref) (settings : UserSettings)
    (fixedCommitments : list FixedCommitment) (tasks : list Task) :
  let gate :=
    handleRedistributionEdgeCases now (deref h studyPlans) settings
      fixedCommitments tasks in
  let feedback :=
    snd (redistributeMissedSessionsWithFeedback now h studyPlans settings
           fixedCommitments tasks) in
  (successfullyMoved feedback + failedToMove feedback)%nat
  = (if canRedistribute gate then countMissed now (deref h studyPlans)
     else O)
  /\ (canRedistribute gate = true ->
      (0 < countMissed now (deref h studyPlans))%nat)
  /\ (forall n, message feedback <> MissedRemain n)
  /\ message feedback <> NothingToRedistribute.
Proof.
  cbv zeta. unfold redistributeMissedSessionsWithFeedback.
  pose proof (gate_open_has_missed now (deref h studyPlans) settings
                fixedCommitments tasks) as Hgate.
  destruct (canRedistribute _) eqn:Hcan; simpl.
  - specialize (Hgate eq_refl).
    pose proof (moveMissedSessions_reports now h studyPlans settings
                  fixedCommitments tasks) as Hrep.
    destruct (moveMissedSessions now h studyPlans settings fixedCommitments
                tasks) as [h' result]. simpl in *.
    destruct Hrep as [Hcount _].
    split; [exact Hcount|]. split; [intros _; exact Hgate|].
    destruct (List.length (movedSessions result)) as [|m] eqn:Hm;
      destruct (List.length (failedSessions result)) as [|f] eqn:Hf;
      simpl in *; try lia;
      try match goal with
          | |- context [countRemainingMissed ?a ?b] =>
              destruct (countRemainingMissed a b)
          end;
      simpl; (split; [intros k|]); discriminate.
  - repeat split; discriminate.
Qed.
